(** * vacancy_scaper: resume normalisation and ranking pipeline

    A shallow embedding of the Python sources

    - [utils/nlp.py]                      ([get_most_similar_word])
    - [models/Resume.py], [models/SearchOptions.py]
    - [parsers/work_ua_parser.py]         (the document-scraping adapter)
    - [parsers/robota_ua_parser.py]       (the API-backed adapter)
    - [telegram_bot/telegram_resume_bot.py] ([search_resumes])

    together with the properties of the pipeline stated over it.  Python
    exceptions are values of [py_error] threaded through the [result]
    monad; Python [float]s are the rationals they denote, every operation
    rounding to the nearest binary64 value; dictionaries built by the code
    are [gmap]s keyed by strings; the third-party libraries (bs4, nltk,
    rapidfuzz, requests, pydantic) are interfaces the definitions are
    parameterised by. *)

From Stdlib Require Import ZArith QArith Qround Qabs Qpower Lqa Lia.
From Stdlib Require Import String Ascii List Permutation Sorted.
From stdpp Require Import gmap strings list fin_maps pretty sorting.
Import ListNotations.

Local Open Scope string_scope.
Local Open Scope Z_scope.

(** ** Exceptions and the result monad *)

Inductive py_error :=
| KeyError (key : string)
| IndexError
| TypeError
| AttributeError
| ZeroDivisionError
| OverflowError
| ValidationError
| RequestException
| ParseException.

Inductive result (A : Type) :=
| Ok (a : A)
| Raise (e : py_error).
Arguments Ok {A} a.
Arguments Raise {A} e.

#[global] Instance result_ret : MRet result := fun A a => Ok a.
#[global] Instance result_bind : MBind result := fun A B k r =>
  match r with
  | Ok a => k a
  | Raise e => Raise e
  end.

(** A [for] loop (or comprehension) whose body may raise: the first
    exception ends it. *)
Fixpoint rmapM {A B} (f : A -> result B) (l : list A) : result (list B) :=
  match l with
  | [] => Ok []
  | x :: l' => y ← f x; ys ← rmapM f l'; Ok (y :: ys)
  end.

Definition is_ok {A} (r : result A) : Prop := exists a, r = Ok a.

(** ** Python floats

    A finite [float] is modelled by the rational it denotes.  Every
    arithmetic operation computes the exact rational result and rounds it
    to the nearest binary64 value, ties to the even significand
    ([round_binary64]); a result of magnitude [2^1024] or more is
    [Infinity]. *)

Module Float64.

Local Open Scope Q_scope.

Inductive float64 :=
| Finite (q : Q)
| Infinity (negative : bool).

Definition two : Q := 2 # 1.

(** [floor_log2 q] for [0 < q]: the integer [f] with [2^f <= q < 2^(f+1)]. *)
Definition floor_log2 (q : Q) : Z :=
  let k := (Z.log2 (Qnum q) - Z.log2 (Zpos (Qden q)))%Z in
  if Qle_bool (two ^ k) q then k else (k - 1)%Z.

(** Rounding of a rational to the nearest integer, ties to even. *)
Definition round_half_even (x : Q) : Z :=
  let f := Qfloor x in
  match Qcompare (x - inject_Z f) (1 # 2) with
  | Lt => f
  | Gt => (f + 1)%Z
  | Eq => if Z.even f then f else (f + 1)%Z
  end.

(** The exponent of the unit in the last place of [q]: 53 bits of
    precision, down to the subnormal spacing [2^-1074]. *)
Definition ulp_exponent (q : Q) : Z :=
  Z.max (floor_log2 q - 52) (-1074).

Definition round_pos (q : Q) : Q :=
  let e := ulp_exponent q in
  inject_Z (round_half_even (q / two ^ e)) * two ^ e.

Definition max_float_bound : Q := two ^ 1024.

Definition round_binary64 (q : Q) : float64 :=
  match Qnum q with
  | Z0 => Finite 0
  | Zpos _ =>
      let r := round_pos q in
      if Qle_bool max_float_bound r then Infinity false else Finite r
  | Zneg _ =>
      let r := round_pos (- q) in
      if Qle_bool max_float_bound r then Infinity true else Finite (- r)
  end.

(** [a / b] on Python [int]s: correctly rounded, [ZeroDivisionError] on a
    zero divisor, [OverflowError] when the quotient is out of range. *)
Definition int_truediv (a b : Z) : result Q :=
  match b with
  | Z0 => Raise ZeroDivisionError
  | Zpos d => match round_binary64 (a # d) with
              | Finite q => Ok q
              | Infinity _ => Raise OverflowError
              end
  | Zneg d => match round_binary64 ((- a) # d) with
              | Finite q => Ok q
              | Infinity _ => Raise OverflowError
              end
  end.

(** [x * y] on finite floats. *)
Definition float_mul (x y : Q) : float64 := round_binary64 (x * y).

(** [round(x)] with no [ndigits]: an [int], ties to even. *)
Definition py_round (x : float64) : result Z :=
  match x with
  | Finite q => Ok (round_half_even q)
  | Infinity _ => Raise OverflowError
  end.

(** [math.ceil(x)]. *)
Definition math_ceil (x : Q) : Z := Qceiling x.

End Float64.

(** ** Python strings

    A [str] is modelled by a [string] whose characters are the code points
    below 256; the character classes are Python's on that range. *)

Module PyStr.

Definition in_range (lo hi : nat) (c : ascii) : bool :=
  let n := nat_of_ascii c in (lo <=? n)%nat && (n <=? hi)%nat.

(** [str.isspace] on one character (also the regular expression class
    [\s]). *)
Definition is_space (c : ascii) : bool :=
  in_range 9 13 c || in_range 28 32 c || in_range 133 133 c
  || in_range 160 160 c.

(** The regular expression class [\d]. *)
Definition is_digit (c : ascii) : bool := in_range 48 57 c.

Definition char_isalnum (c : ascii) : bool :=
  in_range 48 57 c || in_range 65 90 c || in_range 97 122 c
  || in_range 170 170 c || in_range 178 179 c || in_range 181 181 c
  || in_range 185 186 c || in_range 188 190 c || in_range 192 214 c
  || in_range 216 246 c || in_range 248 255 c.

Definition char_lower (c : ascii) : ascii :=
  if in_range 65 90 c || in_range 192 214 c || in_range 216 222 c
  then ascii_of_nat (nat_of_ascii c + 32) else c.

Fixpoint forall_chars (p : ascii -> bool) (s : string) : bool :=
  match s with
  | EmptyString => true
  | String c s' => p c && forall_chars p s'
  end.

Fixpoint map_chars (f : ascii -> ascii) (s : string) : string :=
  match s with
  | EmptyString => EmptyString
  | String c s' => String (f c) (map_chars f s')
  end.

(** [s.isalnum()]: every character alphanumeric, and at least one. *)
Definition isalnum (s : string) : bool :=
  match s with
  | EmptyString => false
  | _ => forall_chars char_isalnum s
  end.

(** [s.lower()]. *)
Definition lower (s : string) : string := map_chars char_lower s.

(** Truth value of a [str]. *)
Definition truthy (s : string) : bool :=
  match s with EmptyString => false | _ => true end.

Fixpoint lstrip (s : string) : string :=
  match s with
  | EmptyString => EmptyString
  | String c s' => if is_space c then lstrip s' else s
  end.

Definition reverse (s : string) : string :=
  string_of_list_ascii (rev (list_ascii_of_string s)).

(** [s.strip()]. *)
Definition strip (s : string) : string := reverse (lstrip (reverse (lstrip s))).

(** [s.split()]: the maximal runs of non-whitespace characters. *)
Fixpoint split_whitespace_go (cur : string) (s : string) : list string :=
  match s with
  | EmptyString =>
      match cur with EmptyString => [] | _ => [reverse cur] end
  | String c s' =>
      if is_space c
      then match cur with
           | EmptyString => split_whitespace_go EmptyString s'
           | _ => reverse cur :: split_whitespace_go EmptyString s'
           end
      else split_whitespace_go (String c cur) s'
  end.

Definition split_whitespace (s : string) : list string :=
  split_whitespace_go EmptyString s.

(** [sub in s]. *)
Fixpoint contains (sub s : string) : bool :=
  String.prefix sub s ||
  match s with
  | EmptyString => false
  | String _ s' => contains sub s'
  end.

(** [s.split(sep)] for a non-empty [sep]: the occurrences of [sep] are
    found left to right and do not overlap; [skip] counts the characters
    of an occurrence still to be passed over. *)
Fixpoint split_go (sep : string) (skip : nat) (cur : string) (s : string)
  : list string :=
  match s with
  | EmptyString => [reverse cur]
  | String c s' =>
      match skip with
      | S k => split_go sep k cur s'
      | O =>
          if String.prefix sep s
          then reverse cur :: split_go sep (String.length sep - 1) EmptyString s'
          else split_go sep 0 (String c cur) s'
      end
  end.

Definition split (sep s : string) : list string := split_go sep 0 EmptyString s.

(** [s.replace(old, new)]; with an empty [old], [new] is put before every
    character and at the end. *)
Fixpoint replace_go (old new : string) (skip : nat) (s : string) : string :=
  match s with
  | EmptyString => EmptyString
  | String c s' =>
      match skip with
      | S k => replace_go old new k s'
      | O =>
          if String.prefix old s
          then new ++ replace_go old new (String.length old - 1) s'
          else String c (replace_go old new 0 s')
      end
  end.

Fixpoint intersperse_all (new : string) (s : string) : string :=
  match s with
  | EmptyString => new
  | String c s' => new ++ String c (intersperse_all new s')
  end.

Definition replace (old new s : string) : string :=
  match old with
  | EmptyString => intersperse_all new s
  | _ => replace_go old new 0 s
  end.

(** [sep.join(l)]. *)
Fixpoint join (sep : string) (l : list string) : string :=
  match l with
  | [] => EmptyString
  | [s] => s
  | s :: l' => s ++ sep ++ join sep l'
  end.

(** [int(s)] on a run of decimal digits. *)
Definition int_of_digits (s : string) : Z :=
  fold_left (fun acc c => 10 * acc + (Z.of_nat (nat_of_ascii c) - 48))
            (list_ascii_of_string s) 0.

Definition nbsp : string := String (ascii_of_nat 160) EmptyString.

End PyStr.

(** ** Python values

    The values that travel through JSON documents, vocabulary files and
    request payloads.  A [PDict] keeps its items in insertion order, which
    is the order [keys()] enumerates them in. *)

#[warnings="-register-all"]
Inductive pyval :=
| PNone
| PBool (b : bool)
| PInt (z : Z)
| PStr (s : string)
| PList (l : list pyval)
| PDict (items : list (string * pyval)).

Definition py_truthy (v : pyval) : bool :=
  match v with
  | PNone => false
  | PBool b => b
  | PInt z => negb (Z.eqb z 0)
  | PStr s => PyStr.truthy s
  | PList l => match l with [] => false | _ => true end
  | PDict d => match d with [] => false | _ => true end
  end.

Fixpoint dict_get (d : list (string * pyval)) (k : string) : option pyval :=
  match d with
  | [] => None
  | (k', v) :: d' => if String.eqb k' k then Some v else dict_get d' k
  end.

(** [d[k]] on a [dict]. *)
Definition dict_getitem (d : list (string * pyval)) (k : string) : result pyval :=
  match dict_get d k with
  | Some v => Ok v
  | None => Raise (KeyError k)
  end.

(** [d.keys()]. *)
Definition dict_keys (d : list (string * pyval)) : list string := map fst d.

(** [v[k]] for a string [k] on an arbitrary value. *)
Definition py_getitem (v : pyval) (k : string) : result pyval :=
  match v with
  | PDict d => dict_getitem d k
  | _ => Raise TypeError
  end.

(** The items a [for] loop over [v] visits. *)
Definition py_iter (v : pyval) : result (list pyval) :=
  match v with
  | PList l => Ok l
  | PDict d => Ok (map PStr (dict_keys d))
  | PStr s => Ok (map (fun c => PStr (String c EmptyString)) (list_ascii_of_string s))
  | _ => Raise TypeError
  end.

(** [m[k]] on a dictionary the code builds. *)
Definition kw_getitem (m : gmap string pyval) (k : string) : result pyval :=
  match m !! k with
  | Some v => Ok v
  | None => Raise (KeyError k)
  end.

(** [l[i]] on a list, for [0 <= i]. *)
Definition list_getitem {A} (l : list A) (i : nat) : result A :=
  match l !! i with
  | Some x => Ok x
  | None => Raise IndexError
  end.

(** [range(start, stop, step)] for a positive [step]. *)
Definition py_range (start stop step : Z) : list Z :=
  map (fun i => start + Z.of_nat i * step)
      (seq 0 (Z.to_nat ((stop - start + step - 1) / step))).

(** ** models *)

Record Experience := {
  position : option string;
  duration : option string;
  details : option string;
}.

Record Resume := {
  href : string;
  salary_expectation : option string;
  experience : option (list Experience);
  filling_percentage : Z;
}.

(** [Resume.__lt__]. *)
Definition Resume_lt (self other : Resume) : bool :=
  filling_percentage self <? filling_percentage other.

(** [SearchOptions]; its [experience] field is [experience_tags] here. *)
Record SearchOptions := {
  search : string;
  region : option string;
  salary_from : option Z;
  salary_to : option Z;
  experience_tags : option (list string);
}.

(** ** The libraries the code is written against *)

(** pydantic: the field validators.  Their value on the inputs listed is
    the same in every pydantic release; on other inputs (a numeric string
    for an [int] field, say) the result is the library's. *)
Class Pydantic := {
  validate_str : pyval -> result string;
  validate_int : pyval -> result Z;
  validate_str_str : forall s, validate_str (PStr s) = Ok s;
  validate_int_int : forall z, validate_int (PInt z) = Ok z;
}.

(** requests: a GET answers with the body of a successful response, or
    raises ([raise_for_status] included); a POST answers with a status
    code and, when the body is JSON, its value. *)
Record Response := {
  status_code : Z;
  json : result pyval;
}.

Class Requests := {
  requests_get : string -> result string;
  requests_post : string -> gmap string pyval -> result Response;
}.

(** bs4: what the parsers ask of a parsed document. *)
Record details_tag := {
  (** [.find("span", class_="text-default-7")], its [.text] *)
  duration_tag : option string;
  (** [.get_text(separator=" ", strip=True)] *)
  details_get_text : string;
}.

Record position_tag := {
  (** [.text] *)
  position_text : string;
  (** [.find_next_sibling("p", class_="mb-0")] *)
  position_details_tag : option details_tag;
}.

Record soup := {
  (** [soup.get_text()] *)
  soup_get_text : string;
  (** [soup.get_text(separator=" ", strip=True)] *)
  soup_get_text_stripped : string;
  (** [soup.find("meta", attrs={"name": "Description"})]: when found, its
      [content] attribute when it has one *)
  description_meta : option (option string);
  (** [soup.find("h2", string="Work experience")]: when found, its
      [find_next_siblings("h2", class_=...)] *)
  work_experience_header : option (list position_tag);
  (** the [div]s of class [card] and [resume-link]: for each, the [href]
      of its first [a] with one *)
  resume_link_cards : list (option string);
}.

Class Bs4 := {
  BeautifulSoup : string -> soup;
}.

(** nltk. *)
Class Nltk := {
  word_tokenize : string -> list string;
  stopwords_english : list string;
}.

(** rapidfuzz, urllib and the f-string conversion of a value. *)
Class RapidFuzz := {
  token_sort_ratio : string -> string -> Q;
  token_sort_ratio_range :
    forall a b, (0 <= token_sort_ratio a b <= 100)%Q;
}.

Class Builtins := {
  urlencode : gmap string pyval -> string;
  py_format : pyval -> string;
  py_format_str : forall s, py_format (PStr s) = s;
  py_format_int : forall z, py_format (PInt z) = pretty z;
}.

(** The process environment ([os.getenv]). *)
Class Environ := {
  WORD_SIMILARITY_THRESHOLD : Z;
  WORK_UA_URL : string;
  WORK_UA_RESUMES_URL : string;
  ROBOTA_UA_RESUMES_URL : string;
  SCRAPER_API_KEY : string;
}.

(** ** models: construction from keyword arguments

    A model called with a dictionary as keyword arguments: every
    declared field is looked up and validated, a
    missing field or an invalid value is a [ValidationError], keys that are
    not fields are ignored. *)

Section Models.
Context `{!Pydantic}.

Definition field (kw : gmap string pyval) (name : string) : result pyval :=
  match kw !! name with
  | Some v => Ok v
  | None => Raise ValidationError
  end.

(** [Optional[str]] *)
Definition validate_optional_str (v : pyval) : result (option string) :=
  match v with
  | PNone => Ok None
  | _ => s ← validate_str v; Ok (Some s)
  end.

(** [Optional[int]] *)
Definition validate_optional_int (v : pyval) : result (option Z) :=
  match v with
  | PNone => Ok None
  | _ => z ← validate_int v; Ok (Some z)
  end.

Definition Experience_init (kw : gmap string pyval) : result Experience :=
  p ← (v ← field kw "position"; validate_optional_str v);
  d ← (v ← field kw "duration"; validate_optional_str v);
  t ← (v ← field kw "details"; validate_optional_str v);
  Ok {| position := p; duration := d; details := t |}.

Definition validate_Experience (v : pyval) : result Experience :=
  match v with
  | PDict items => Experience_init (list_to_map items)
  | _ => Raise ValidationError
  end.

(** [Optional[list[Experience]]] *)
Definition validate_optional_experience (v : pyval)
  : result (option (list Experience)) :=
  match v with
  | PNone => Ok None
  | PList l => es ← rmapM validate_Experience l; Ok (Some es)
  | _ => Raise ValidationError
  end.

(** [Optional[list[str]]] *)
Definition validate_optional_str_list (v : pyval)
  : result (option (list string)) :=
  match v with
  | PNone => Ok None
  | PList l => ss ← rmapM validate_str l; Ok (Some ss)
  | _ => Raise ValidationError
  end.

Definition Resume_init (kw : gmap string pyval) : result Resume :=
  h ← (v ← field kw "href"; validate_str v);
  s ← (v ← field kw "salary_expectation"; validate_optional_str v);
  e ← (v ← field kw "experience"; validate_optional_experience v);
  f ← (v ← field kw "filling_percentage"; validate_int v);
  Ok {| href := h; salary_expectation := s; experience := e;
        filling_percentage := f |}.

Definition SearchOptions_init (kw : gmap string pyval) : result SearchOptions :=
  s ← (v ← field kw "search"; validate_str v);
  r ← (v ← field kw "region"; validate_optional_str v);
  f ← (v ← field kw "salary_from"; validate_optional_int v);
  t ← (v ← field kw "salary_to"; validate_optional_int v);
  e ← (v ← field kw "experience"; validate_optional_str_list v);
  Ok {| search := s; region := r; salary_from := f; salary_to := t;
        experience_tags := e |}.

End Models.

(** ** utils *)

Section Utils.
Context `{!RapidFuzz, !Environ}.

(** [rapidfuzz.process.extractOne(query, choices, scorer=token_sort_ratio)]:
    the choices are scored in order, a choice replaces the best so far
    only when it scores strictly higher, and a score of 100 ends the
    search.  A [None] query gives [None]. *)
Fixpoint extractOne_loop (query : string) (choices : list string)
    (best : option (string * Q)) : option (string * Q) :=
  match choices with
  | [] => best
  | choice :: rest =>
      let score := token_sort_ratio query choice in
      let best' :=
        match best with
        | None => Some (choice, score)
        | Some (_, best_score) =>
            if Qlt_le_dec best_score score then Some (choice, score) else best
        end in
      if Qeq_bool score 100 then best' else extractOne_loop query rest best'
  end.

Definition extractOne (query : option string) (choices : list string)
  : option (string * Q) :=
  match query with
  | None => None
  | Some q => extractOne_loop q choices None
  end.

(** [utils.nlp.get_most_similar_word] *)
Definition get_most_similar_word (word : option string) (vocabulary : list string)
  : option string :=
  match extractOne word vocabulary with
  | Some (matched, score) =>
      if Qlt_le_dec (inject_Z WORD_SIMILARITY_THRESHOLD) score
      then Some matched else None
  | None => None
  end.

(** [utils.request_helper.build_url_with_scraper_api] *)
Definition build_url_with_scraper_api (url : string) : string :=
  "http://api.scraperapi.com?api_key=" ++ SCRAPER_API_KEY ++ "&url=" ++ url.

End Utils.

(** ** HTTP requests as an effect

    The parsers' GET requests are recorded, in order, in a log that is
    threaded through the code together with the exception state. *)

Inductive request :=
| ListingPage (page : Z)
| DetailPage (href : string).

Definition Fetch (A : Type) : Type := list request -> list request * result A.

#[global] Instance fetch_ret : MRet Fetch := fun A a log => (log, Ok a).
#[global] Instance fetch_bind : MBind Fetch := fun A B k m log =>
  match m log with
  | (log', Ok a) => k a log'
  | (log', Raise e) => (log', Raise e)
  end.

Definition lift {A} (r : result A) : Fetch A := fun log => (log, r).

Fixpoint fetch_mapM {A B} (f : A -> Fetch B) (l : list A) : Fetch (list B) :=
  match l with
  | [] => mret []
  | x :: l' => y ← f x; ys ← fetch_mapM f l'; mret (y :: ys)
  end.

(** ** parsers.work_ua_parser *)

Module WorkUaParser.

(** The vocabularies loaded at construction. *)
Record t := {
  REGIONS : list (string * pyval);
  SALARY_FROM_OPTIONS : list (string * pyval);
  SALARY_TO_OPTIONS : list (string * pyval);
  EXPERIENCE_OPTIONS : list (string * pyval);
}.

Section WorkUa.
Context `{!Pydantic, !Requests, !Bs4, !Nltk, !RapidFuzz, !Builtins, !Environ}.

Definition base_url : string := WORK_UA_URL.

Fixpoint span (p : ascii -> bool) (s : string) : string * string :=
  match s with
  | EmptyString => (EmptyString, EmptyString)
  | String c s' =>
      if p c then let '(a, b) := span p s' in (String c a, b)
      else (EmptyString, s)
  end.

(** A match of [(\d+)\s+(candidate|candidates)], ignoring case, at the
    start of [s]: its first group. *)
Definition match_candidates_at (s : string) : option string :=
  let '(digits, rest) := span PyStr.is_digit s in
  let '(spaces, rest') := span PyStr.is_space rest in
  if PyStr.truthy digits && PyStr.truthy spaces
     && String.prefix "candidate" (PyStr.lower rest')
  then Some digits else None.

(** [re.search]: the leftmost match. *)
Fixpoint search_candidates (s : string) : option string :=
  match match_candidates_at s with
  | Some digits => Some digits
  | None =>
      match s with
      | EmptyString => None
      | String _ s' => search_candidates s'
      end
  end.

Definition get_total_candidates (html : string) : result Z :=
  let text_content := soup_get_text (BeautifulSoup html) in
  match search_candidates text_content with
  | Some group1 => Ok (PyStr.int_of_digits group1)
  | None => Raise ParseException
  end.

Definition build_resumes_url (params : gmap string pyval) : string :=
  base_url ++ WORK_UA_RESUMES_URL ++ "?" ++ urlencode params.

Definition format_experience_detail (experience : string) : string :=
  PyStr.replace PyStr.nbsp " " (PyStr.strip experience).

Definition as_str (v : pyval) : result string :=
  match v with
  | PStr s => Ok s
  | _ => Raise TypeError
  end.

(** [__unpack_search_options] *)
Definition unpack_search_options (self : t) (params : SearchOptions)
  : result (gmap string pyval) :=
  let payload : gmap string pyval := {[ "search" := PStr (search params) ]} in
  payload ←
    match region params with
    | Some r =>
        if PyStr.truthy r then
          match get_most_similar_word (Some r) (dict_keys (REGIONS self)) with
          | Some matched =>
              if PyStr.truthy matched
              then v ← dict_getitem (REGIONS self) matched;
                   Ok (<["region" := v]> payload)
              else Ok (<["region" := PNone]> payload)
          | None => Ok (<["region" := PNone]> payload)
          end
        else Ok payload
    | None => Ok payload
    end;
  payload ←
    match salary_from params with
    | Some n =>
        if negb (n =? 0)
        then v ← dict_getitem (SALARY_FROM_OPTIONS self) (pretty n);
             Ok (<["salaryfrom" := v]> payload)
        else Ok payload
    | None => Ok payload
    end;
  payload ←
    match salary_to params with
    | Some n =>
        if negb (n =? 0)
        then v ← dict_getitem (SALARY_TO_OPTIONS self) (pretty n);
             Ok (<["salaryto" := v]> payload)
        else Ok payload
    | None => Ok payload
    end;
  match experience_tags params with
  | Some (exp :: exps) =>
      ids ← rmapM (dict_getitem (EXPERIENCE_OPTIONS self)) (exp :: exps);
      strs ← rmapM as_str ids;
      Ok (<["experience" := PStr (PyStr.join "+" strs)]> payload)
  | _ => Ok payload
  end.

(** One listing page: [payload["page"] = page] and the GET. *)
Definition get_page (payload : gmap string pyval) (page : Z) : Fetch string :=
  fun log =>
    ((log ++ [ListingPage page])%list,
     requests_get (build_url_with_scraper_api
                     (build_resumes_url (<["page" := PInt page]> payload)))).

(** [math.ceil(total_candidates / 14)] *)
Definition total_pages_of (total_candidates : Z) : result Z :=
  q ← Float64.int_truediv total_candidates 14;
  Ok (Float64.math_ceil q).

Definition get_resume_pages (self : t) (params : SearchOptions)
  : Fetch (list string) :=
  payload ← lift (unpack_search_options self params);
  html ← get_page payload 1;
  total_candidates ← lift (get_total_candidates html);
  total_pages ← lift (total_pages_of total_candidates);
  evens ← fetch_mapM (get_page payload) (py_range 2 (total_pages + 1) 2);
  odds ← fetch_mapM (get_page payload) (py_range 3 (total_pages + 1) 2);
  mret ([html] ++ evens ++ odds)%list.

Definition get_resume_href_from_html (html : string) : list string :=
  omap id (resume_link_cards (BeautifulSoup html)).

(** A failed request is logged and answered with [None]. *)
Definition get_resume_html_from_href (href : string) : Fetch (option string) :=
  fun log =>
    ((log ++ [DetailPage href])%list,
     match requests_get (build_url_with_scraper_api (base_url ++ href)) with
     | Ok text => Ok (Some text)
     | Raise RequestException => Ok None
     | Raise e => Raise e
     end).

Definition append_experience (entry : pyval) (resume : gmap string pyval)
  : gmap string pyval :=
  alter (fun v => match v with PList l => PList (l ++ [entry])%list | _ => v end)
        "experience" resume.

Definition optional_str (o : option string) : pyval :=
  match o with Some s => PStr s | None => PNone end.

(** The body of the loop over the headings of the experience section. *)
Definition add_position (resume : gmap string pyval) (tag : position_tag)
  : gmap string pyval :=
  let position := PyStr.strip (position_text tag) in
  match position_details_tag tag with
  | Some details_tag =>
      let duration := format_experience_detail <$> duration_tag details_tag in
      let details_text := details_get_text details_tag in
      let details :=
        format_experience_detail
          (PyStr.replace (default "" duration) "" details_text) in
      append_experience
        (PDict [("position", PStr position);
                ("duration", optional_str duration);
                ("details", PStr details)])
        resume
  | None => resume
  end.

(** The completeness score of the page text. *)
Definition filling_percentage_of (all_text : string) : result Z :=
  let tokens := word_tokenize (PyStr.lower all_text) in
  let meaningful_words :=
    filter (fun word => PyStr.isalnum word = true /\ word ∉ stopwords_english)
           tokens in
  let total_words := Z.of_nat (length tokens) in
  let meaningful_words_count := Z.of_nat (length meaningful_words) in
  if negb (total_words =? 0)
  then q ← Float64.int_truediv meaningful_words_count total_words;
       Float64.py_round (Float64.float_mul q 100)
  else Ok 0.

Definition parse_resume (html : string) : result (gmap string pyval) :=
  let soup := BeautifulSoup html in
  let resume : gmap string pyval :=
    {[ "salary_expectation" := PStr "";
       "experience" := PList [];
       "filling_percentage" := PInt 0 ]} in
  resume ←
    match description_meta soup with
    | Some content =>
        let description_content := default "" content in
        if PyStr.contains "salary starting at" description_content then
          let salary_part :=
            List.last (PyStr.split "salary starting at" description_content) "" in
          word ← list_getitem (PyStr.split_whitespace salary_part) 0;
          let salary := PyStr.strip word in
          Ok (<["salary expectation" := PStr salary]> resume)
        else Ok resume
    | None => Ok resume
    end;
  let resume :=
    match work_experience_header soup with
    | Some experience_section => foldl add_position resume experience_section
    | None => resume
    end in
  filling ← filling_percentage_of (soup_get_text_stripped soup);
  Ok (<["filling_percentage" := PInt filling]> resume).

(** The loop [for i, resume_html in enumerate(resume_htmls, start=1)]. *)
Fixpoint parse_resumes (hrefs : list string) (i : nat) (resume_htmls : list string)
  : result (list Resume) :=
  match resume_htmls with
  | [] => Ok []
  | resume_html :: rest =>
      resume ← parse_resume resume_html;
      if bool_decide (size resume = 0%nat)
      then parse_resumes hrefs (S i) rest
      else
        h ← list_getitem hrefs (i - 1);
        r ← Resume_init (resume ∪ {[ "href" := PStr (base_url ++ h) ]});
        rs ← parse_resumes hrefs (S i) rest;
        Ok (r :: rs)
  end.

(** The pages kept by [if resume_html:]. *)
Definition fetched_html (o : option string) : option string :=
  match o with
  | Some text => if PyStr.truthy text then Some text else None
  | None => None
  end.

Definition search_resumes (self : t) (params : SearchOptions)
  : Fetch (list Resume) :=
  page_htmls ← get_resume_pages self params;
  let hrefs := concat (map get_resume_href_from_html page_htmls) in
  fetched ← fetch_mapM get_resume_html_from_href hrefs;
  let resume_htmls := omap fetched_html fetched in
  lift (parse_resumes hrefs 1 resume_htmls).

End WorkUa.
End WorkUaParser.

(** ** parsers.robota_ua_parser *)

Module RobotaUaParser.

Record t := {
  REGIONS : list (string * pyval);
  EXPERIENCE_OPTIONS : list (string * pyval);
}.

Section RobotaUa.
Context `{!Pydantic, !Requests, !RapidFuzz, !Builtins, !Environ}.

Definition base_url : string := "https://robota.ua".

(** [v.strip()] on an arbitrary value. *)
Definition py_strip (v : pyval) : result string :=
  match v with
  | PStr s => Ok (PyStr.strip s)
  | _ => Raise AttributeError
  end.

Definition format_salary_expectation (salary : pyval) : result string :=
  s ← py_strip salary;
  Ok (PyStr.replace PyStr.nbsp " " s).

(** One item of the [experience] comprehension. *)
Definition unpack_experience (exp : pyval) : result pyval :=
  p ← py_getitem exp "position";
  d ← py_getitem exp "datesDiff";
  c ← py_getitem exp "company";
  Ok (PDict [("position", p); ("duration", d); ("details", c)]).

Definition unpack_resume_from_response (resume : pyval)
  : result (gmap string pyval) :=
  resume_id ← py_getitem resume "resumeId";
  let href := base_url ++ "/candidates/" ++ py_format resume_id in
  salary ← (v ← py_getitem resume "salary"; format_salary_expectation v);
  experience ←
    (v ← py_getitem resume "experience";
     exps ← py_iter v;
     rmapM unpack_experience exps);
  filling ← py_getitem resume "fillingPercentage";
  Ok ({[ "href" := PStr href;
         "salary_expectation" := PStr salary;
         "experience" := PList experience;
         "filling_percentage" := filling ]} : gmap string pyval).

(** [d.get(k)] followed by a truth test. *)
Definition truthy_id (d : list (string * pyval)) (k : string) : option pyval :=
  match dict_get d k with
  | Some v => if py_truthy v then Some v else None
  | None => None
  end.

(** [__unpack_search_options] *)
Definition unpack_search_options (self : t) (params : SearchOptions)
  : result (gmap string pyval) :=
  let region_name :=
    get_most_similar_word (region params) (dict_keys (REGIONS self)) in
  region_id ←
    match region_name with
    | Some name =>
        if PyStr.truthy name then dict_getitem (REGIONS self) name else Ok PNone
    | None => Ok PNone
    end;
  exps ← match experience_tags params with
         | Some l => Ok l
         | None => Raise TypeError
         end;
  let experience_ids := omap (truthy_id (EXPERIENCE_OPTIONS self)) exps in
  let optional_int (o : option Z) :=
    match o with Some z => PInt z | None => PNone end in
  let payload : gmap string pyval :=
    {[ "cityId" := region_id;
       "keyWords" := PStr (search params);
       "salary" := PDict [("from", optional_int (salary_from params));
                          ("to", optional_int (salary_to params))];
       "experienceIds" := PList experience_ids ]} in
  if bool_decide ("More than 5 years" ∈ exps) then
    a ← dict_getitem (EXPERIENCE_OPTIONS self) "5 to 10 years";
    b ← dict_getitem (EXPERIENCE_OPTIONS self) "More than 10 years";
    Ok (<["experienceIds" := PList (experience_ids ++ [a; b])%list]> payload)
  else Ok payload.

(** [Resume] built from one document of the response. *)
Definition resume_of_document (resume : pyval) : result Resume :=
  resume_json ← unpack_resume_from_response resume;
  Resume_init resume_json.

(** [search_resumes]; the value is [None] when the second response is
    neither 200 nor an error status. *)
Definition search_resumes (self : t) (params : SearchOptions)
  : result (option (list Resume)) :=
  let url := ROBOTA_UA_RESUMES_URL in
  payload ← unpack_search_options self params;
  response ← requests_post url payload;
  total ← (body ← json response; py_getitem body "total");
  let payload := <["count" := total]> payload in
  response ← requests_post url payload;
  if status_code response =? 200 then
    data ← json response;
    documents ← (v ← py_getitem data "documents"; py_iter v);
    resumes ← rmapM resume_of_document documents;
    Ok (Some resumes)
  else if (400 <=? status_code response) && (status_code response <? 600)
       then Raise RequestException
       else Ok None.

End RobotaUa.
End RobotaUaParser.

(** ** parsers.base_parser *)

Module BaseParser.

(** The abstract [search_resumes]; [None] is Python's [None]. *)
Class BaseParser (P : Type) := {
  search_resumes : P -> SearchOptions -> result (option (list Resume));
}.

Section Parsers.
Context `{!Pydantic, !Requests, !Bs4, !Nltk, !RapidFuzz, !Builtins, !Environ}.

#[export] Instance work_ua : BaseParser WorkUaParser.t := {|
  search_resumes self params :=
    resumes ← (WorkUaParser.search_resumes self params []).2;
    Ok (Some resumes)
|}.

#[export] Instance robota_ua : BaseParser RobotaUaParser.t := {|
  search_resumes := RobotaUaParser.search_resumes
|}.

End Parsers.
End BaseParser.

(** ** telegram_bot.telegram_resume_bot *)

Module TelegramResumeBot.

Section Sorting.
Context {A : Type} (lt : A -> A -> bool).

(** Insertion to the right of the elements that are not greater. *)
Fixpoint insort_right (x : A) (l : list A) : list A :=
  match l with
  | [] => [x]
  | y :: l' => if lt x y then x :: l else y :: insort_right x l'
  end.

(** [list.sort()]: a stable ascending sort by [__lt__]. *)
Definition list_sort (l : list A) : list A :=
  foldl (fun sorted x => insort_right x sorted) [] l.

(** [list.sort(reverse=True)]: the list is reversed, sorted and reversed
    again. *)
Definition list_sort_reverse (l : list A) : list A :=
  reverse (list_sort (reverse l)).

End Sorting.

Record t (W R : Type) := {
  work_ua_parser : W;
  robota_ua_parser : R;
}.
Arguments work_ua_parser {W R} _.
Arguments robota_ua_parser {W R} _.

(** What [search_resumes] sends back: the request for keywords, or the
    number of resumes found with the resumes listed. *)
Inductive reply :=
| PleaseProvideKeywords
| Found (total : nat) (top_resumes : list Resume).

Section Bot.
Context `{!Pydantic} {W R : Type}.
Context `{!BaseParser.BaseParser W, !BaseParser.BaseParser R}.

(** [a + b] on the results of the two parsers. *)
Definition list_add (a b : option (list Resume)) : result (list Resume) :=
  match a, b with
  | Some a, Some b => Ok (a ++ b)%list
  | _, _ => Raise TypeError
  end.

Definition top_resumes_of (work_ua_results robota_ua_results : list Resume)
  : list Resume :=
  let combined_results := (work_ua_results ++ robota_ua_results)%list in
  let combined_results := list_sort_reverse Resume_lt combined_results in
  take 5 combined_results.

Definition search_resumes (self : t W R) (search_options : gmap string pyval)
  : result reply :=
  match search_options !! "search" with
  | None => Ok PleaseProvideKeywords
  | Some _ =>
      search_options ← SearchOptions_init search_options;
      work_ua_results ←
        BaseParser.search_resumes (work_ua_parser self) search_options;
      robota_ua_results ←
        BaseParser.search_resumes (robota_ua_parser self) search_options;
      combined_results ← list_add work_ua_results robota_ua_results;
      let combined_results := list_sort_reverse Resume_lt combined_results in
      let top_resumes := take 5 combined_results in
      Ok (Found (length combined_results) top_resumes)
  end.

End Bot.
End TelegramResumeBot.

(** ** A concrete setting

    Small instances of the library interfaces, for running the embedding
    on sample inputs. *)

Module Sample.

#[export] Instance pydantic : Pydantic := {|
  validate_str v := match v with PStr s => Ok s | _ => Raise ValidationError end;
  validate_int v := match v with PInt z => Ok z | _ => Raise ValidationError end;
  validate_str_str _ := eq_refl;
  validate_int_int _ := eq_refl;
|}.

(** Tokens are the whitespace-separated words; a few of the English stop
    words. *)
#[export] Instance nltk : Nltk := {|
  word_tokenize := PyStr.split_whitespace;
  stopwords_english := ["the"; "a"; "an"; "of"; "and"; "in"; "to"; "is"];
|}.

Definition format_scalar (v : pyval) : string :=
  match v with
  | PNone => "None"
  | PBool true => "True"
  | PBool false => "False"
  | PInt z => pretty z
  | PStr s => s
  | PList _ => "[...]"
  | PDict _ => "{...}"
  end.

#[export] Instance builtins : Builtins := {|
  urlencode params :=
    "search=" ++ from_option format_scalar "" (params !! "search")
    ++ "&page=" ++ from_option format_scalar "" (params !! "page");
  py_format := format_scalar;
  py_format_str _ := eq_refl;
  py_format_int _ := eq_refl;
|}.

#[export] Instance environ : Environ := {|
  WORD_SIMILARITY_THRESHOLD := 70;
  WORK_UA_URL := "https://www.work.ua";
  WORK_UA_RESUMES_URL := "/en/resumes/";
  ROBOTA_UA_RESUMES_URL := "https://employer-api.robota.ua/cvdb/resumes";
  SCRAPER_API_KEY := "KEY";
|}.

(** The token sort ratio: the tokens of both strings are sorted and
    joined, and the similarity of the two results is
    [100 * 2 * lcs / (len1 + len2)], with [lcs] the length of a longest
    common subsequence; two empty strings score 100. *)
Fixpoint lcs (a b : list ascii) : nat :=
  match a with
  | [] => 0%nat
  | x :: a' =>
      (fix go (b : list ascii) : nat :=
         match b with
         | [] => 0%nat
         | y :: b' =>
             if Ascii.eqb x y then S (lcs a' b')
             else Nat.max (lcs a' (y :: b')) (go b')
         end) b
  end.

Fixpoint insert_token (tok : string) (l : list string) : list string :=
  match l with
  | [] => [tok]
  | t :: l' => if String.leb tok t then tok :: l else t :: insert_token tok l'
  end.

Definition sort_tokens (s : string) : string :=
  PyStr.join " " (foldr insert_token [] (PyStr.split_whitespace s)).

Definition ratio (s1 s2 : string) : Q :=
  let a := list_ascii_of_string s1 in
  let b := list_ascii_of_string s2 in
  match (length a + length b)%nat with
  | O => 100%Q
  | S n => (Z.of_nat (200 * lcs a b) # Pos.of_succ_nat n)%Q
  end.

Definition sample_token_sort_ratio (s1 s2 : string) : Q :=
  ratio (sort_tokens s1) (sort_tokens s2).

Lemma lcs_le (a b : list ascii) :
  (lcs a b <= length a)%nat /\ (lcs a b <= length b)%nat.
Proof.
  revert b. induction a as [|x a IH]; intros b; simpl; [lia|].
  induction b as [|y b IHb]; simpl; [lia|].
  destruct (Ascii.eqb x y).
  - destruct (IH b). lia.
  - destruct (IH (y :: b)). simpl in *. lia.
Qed.

Lemma ratio_range (s1 s2 : string) : (0 <= ratio s1 s2 <= 100)%Q.
Proof.
  unfold ratio.
  destruct (lcs_le (list_ascii_of_string s1) (list_ascii_of_string s2)) as [H1 H2].
  destruct (length _ + length _)%nat eqn:E.
  - split; unfold Qle; simpl; lia.
  - split; unfold Qle; simpl; lia.
Qed.

#[export] Instance rapidfuzz : RapidFuzz := {|
  token_sort_ratio := sample_token_sort_ratio;
  token_sort_ratio_range a b := ratio_range (sort_tokens a) (sort_tokens b);
|}.


(** A parser with a fixed answer. *)
Record StubParser := { stub_answer : result (option (list Resume)) }.

#[export] Instance stub_parser : BaseParser.BaseParser StubParser := {|
  BaseParser.search_resumes self _ := stub_answer self
|}.

(** Sample documents. *)
Definition empty_soup : soup := {|
  soup_get_text := "";
  soup_get_text_stripped := "";
  description_meta := None;
  work_experience_header := None;
  resume_link_cards := [];
|}.

Definition listing_soup (text : string) (cards : list (option string)) : soup := {|
  soup_get_text := text;
  soup_get_text_stripped := text;
  description_meta := None;
  work_experience_header := None;
  resume_link_cards := cards;
|}.

(** A resume with a salary, two complete or partial roles and a heading
    without its paragraph. *)
Definition resume_soup_full : soup := {|
  soup_get_text := "Python developer Work experience Backend developer 2 years Acme";
  soup_get_text_stripped :=
    "Python developer in Kyiv Work experience Backend developer 2 years Acme Intern Initech";
  description_meta :=
    Some (Some "Python developer, salary starting at 5000 UAH, Kyiv");
  work_experience_header :=
    Some [ {| position_text := " Backend developer ";
              position_details_tag :=
                Some {| duration_tag := Some "2 years";
                        details_get_text := "2 years Acme" |} |};
           {| position_text := "Intern";
              position_details_tag :=
                Some {| duration_tag := None; details_get_text := "Initech" |} |};
           {| position_text := "Education"; position_details_tag := None |} ];
  resume_link_cards := [];
|}.

(** A resume without salary and without an experience section. *)
Definition resume_soup_bare : soup := {|
  soup_get_text := "Data analyst";
  soup_get_text_stripped := "Data analyst of the team";
  description_meta := Some (Some "Data analyst, Lviv");
  work_experience_header := None;
  resume_link_cards := [];
|}.

Definition sample_documents : list (string * soup) :=
  [ ("<listing python>",
     listing_soup "Python developers: 2 candidates"
                  [Some "/resumes/1/"; None; Some "/resumes/2/"]);
    ("<listing java>", listing_soup "Found 30 Candidates" []);
    ("<resume 1>", resume_soup_bare);
    ("<resume 2>", resume_soup_full) ].

Fixpoint assoc {A} (l : list (string * A)) (k : string) : option A :=
  match l with
  | [] => None
  | (k', v) :: l' => if String.eqb k' k then Some v else assoc l' k
  end.

#[export] Instance bs4 : Bs4 := {|
  BeautifulSoup html := default empty_soup (assoc sample_documents html)
|}.

Definition scraper : string := "http://api.scraperapi.com?api_key=KEY&url=".

Definition sample_web : list (string * string) :=
  [ (scraper ++ "https://www.work.ua/en/resumes/?search=python&page=1",
     "<listing python>");
    (scraper ++ "https://www.work.ua/en/resumes/?search=java&page=1",
     "<listing java>");
    (scraper ++ "https://www.work.ua/en/resumes/?search=java&page=2",
     "<listing java>");
    (scraper ++ "https://www.work.ua/en/resumes/?search=java&page=3",
     "<listing java>");
    (scraper ++ "https://www.work.ua/resumes/1/", "<resume 1>");
    (scraper ++ "https://www.work.ua/resumes/2/", "<resume 2>") ].

Definition robota_document (filling : pyval) : pyval :=
  PDict [ ("resumeId", PInt 7);
          ("salary", PStr " 1000 USD ");
          ("experience",
           PList [PDict [("position", PStr "QA engineer");
                         ("datesDiff", PStr "1 year");
                         ("company", PNone)]]);
          ("fillingPercentage", filling) ].

Definition robota_document_without_salary : pyval :=
  PDict [ ("resumeId", PInt 8);
          ("experience", PList []);
          ("fillingPercentage", PInt 60) ].

Definition robota_response : Response := {|
  status_code := 200;
  json := Ok (PDict [("total", PInt 1);
                     ("documents", PList [robota_document (PInt 85)])]);
|}.

(** The sample web, with the URLs in [down] unreachable. *)
Definition sample_get (down : list string) (url : string) : result string :=
  if bool_decide (url ∈ down) then Raise RequestException
  else match assoc sample_web url with
       | Some body => Ok body
       | None => Raise RequestException
       end.

Definition requests_up : Requests := {|
  requests_get := sample_get [];
  requests_post _ _ := Ok robota_response;
|}.

Definition requests_first_resume_down : Requests := {|
  requests_get := sample_get [scraper ++ "https://www.work.ua/resumes/1/"];
  requests_post _ _ := Ok robota_response;
|}.

Definition requests_work_ua_down : Requests := {|
  requests_get _ := Raise RequestException;
  requests_post _ _ := Ok robota_response;
|}.

Definition work_ua_parser : WorkUaParser.t := {|
  WorkUaParser.REGIONS := [("Kyiv", PInt 1); ("Lviv", PInt 2)];
  WorkUaParser.SALARY_FROM_OPTIONS := [("10000", PInt 2)];
  WorkUaParser.SALARY_TO_OPTIONS := [("20000", PInt 3)];
  WorkUaParser.EXPERIENCE_OPTIONS := [("No experience", PStr "0"); ("1 to 2 years", PStr "164")];
|}.

Definition robota_ua_parser : RobotaUaParser.t := {|
  RobotaUaParser.REGIONS := [("Kyiv", PInt 1); ("Lviv", PInt 2)];
  RobotaUaParser.EXPERIENCE_OPTIONS :=
    [("No experience", PStr "1"); ("1 to 2 years", PStr "3");
     ("5 to 10 years", PStr "5"); ("More than 10 years", PStr "6")];
|}.

Definition search_for (keywords : string) (region : option string) : SearchOptions := {|
  search := keywords;
  region := region;
  salary_from := None;
  salary_to := None;
  experience_tags := Some [];
|}.

(** A text of 200 tokens, 115 of them meaningful. *)
Definition tie_text : string :=
  String.concat "" (replicate 115 "x " ++ replicate 85 "the ")%list.

(** The search options of a chat after [/start] and [/keywords python]. *)
Definition chat_search_options : gmap string pyval :=
  {[ "search" := PStr "python";
     "region" := PStr "";
     "salary_from" := PInt 0;
     "salary_to" := PInt 0;
     "experience" := PList [] ]}.

End Sample.

(** ** Auxiliary definitions for the statements *)

Module Aux.
Import WorkUaParser.

(** The unit roundoff [2^-53] of binary64. *)
Definition u : Q := 1 # 9007199254740992.

(** The URL requested for a listing page. *)
Abbreviation page_url payload page :=
  (build_url_with_scraper_api
     (build_resumes_url (<["page" := PInt page]> payload))).

(** The salary named by the description of a page: [None] when the
    description is missing or does not name one, an [IndexError] when
    nothing follows the words that announce it. *)
Definition salary_of (s : soup) : option (result string) :=
  match description_meta s with
  | Some content =>
      let description_content := default "" content in
      if PyStr.contains "salary starting at" description_content then
        Some (word ← list_getitem
                       (PyStr.split_whitespace
                          (List.last (PyStr.split "salary starting at"
                                                  description_content) "")) 0;
              Ok (PyStr.strip word))
      else None
  | None => None
  end.

(** The role a heading of the experience section stands for, when its
    paragraph is there. *)
Definition experience_of_tag (tag : position_tag) : option Experience :=
  match position_details_tag tag with
  | Some details_tag =>
      let duration := format_experience_detail <$> duration_tag details_tag in
      Some {| position := Some (PyStr.strip (position_text tag));
              duration := duration;
              details :=
                Some (format_experience_detail
                        (PyStr.replace (default "" duration) ""
                                       (details_get_text details_tag))) |}
  | None => None
  end.

Definition experiences_of (s : soup) : list Experience :=
  match work_experience_header s with
  | Some experience_section => omap experience_of_tag experience_section
  | None => []
  end.

Definition experience_dict (e : Experience) : pyval :=
  PDict [("position", optional_str (position e));
         ("duration", optional_str (duration e));
         ("details", optional_str (details e))].

Definition entries_of_tag (tag : position_tag) : list pyval :=
  experience_dict <$> option_list (experience_of_tag tag).

(** An entry of a document of the API holds the role [e]: its three keys
    are there, each a string or [null]. *)
Definition entry_has (exp : pyval) (e : Experience) : Prop :=
  py_getitem exp "position" = Ok (optional_str (position e)) /\
  py_getitem exp "datesDiff" = Ok (optional_str (duration e)) /\
  py_getitem exp "company" = Ok (optional_str (details e)).

(** The dictionary [parse_resume] builds, the misspelt key apart. *)
Definition resume_dict (s : soup) (filling : Z) : gmap string pyval :=
  {[ "salary_expectation" := PStr "";
     "experience" := PList (experience_dict <$> experiences_of s);
     "filling_percentage" := PInt filling ]}.

(** The record made of a page reached through the listing link [link],
    its score being [filling]. *)
Definition resume_of_page `{!Environ} (link : string) (s : soup) (filling : Z)
  : Resume :=
  {| href := base_url ++ link;
     salary_expectation := Some "";
     experience := Some (experiences_of s);
     filling_percentage := filling |}.

(** The outcome of the request for a detail page: [None] for a page that
    could not be fetched. *)
Definition detail_page `{!Requests, !Environ} (link : string)
  : result (option string) :=
  match requests_get (build_url_with_scraper_api (base_url ++ link)) with
  | Ok text => Ok (Some text)
  | Raise RequestException => Ok None
  | Raise e => Raise e
  end.

(** The listing links whose page was fetched, each with its page. *)
Definition kept_pages (hrefs : list string) (fetched : list (option string))
  : list (string * string) :=
  omap (fun '(link, o) => pair link <$> fetched_html o) (zip hrefs fetched).

(** The score the specification gives: [100 * m / t] rounded to the
    nearest integer, ties to even as Python's [round] has them, and 0 for
    no tokens. *)
Definition spec_score (meaningful total : Z) : Z :=
  if total =? 0 then 0
  else Float64.round_half_even (100 * (meaningful # Z.to_pos total))%Q.

(** The same with ties rounded up. *)
Definition spec_score_half_up (meaningful total : Z) : Z :=
  if total =? 0 then 0
  else Qfloor ((100 * (meaningful # Z.to_pos total)) + (1 # 2))%Q.

(** Whether a token counts as meaningful. *)
Definition meaningful `{!Nltk} (word : string) : Prop :=
  PyStr.isalnum word = true /\ word ∉ stopwords_english.

End Aux.

Module Aux2.



End Aux2.

(** Sample bots: one over two parsers with fixed answers, one over the
    two adapters. *)
Module SampleBot.
Import Sample.

Definition resume_with (link : string) (filling : Z) : Resume :=
  {| href := link; salary_expectation := None; experience := None;
     filling_percentage := filling |}.

Definition stub_bot : TelegramResumeBot.t StubParser StubParser :=
  {| TelegramResumeBot.work_ua_parser :=
       {| stub_answer := Ok (Some [resume_with "w1" 40; resume_with "w2" 90]) |};
     TelegramResumeBot.robota_ua_parser :=
       {| stub_answer := Ok (Some [resume_with "r1" 90; resume_with "r2" 10]) |} |}.

Definition bot : TelegramResumeBot.t WorkUaParser.t RobotaUaParser.t :=
  {| TelegramResumeBot.work_ua_parser := work_ua_parser;
     TelegramResumeBot.robota_ua_parser := robota_ua_parser |}.

(** The validated search options of [chat_search_options]. *)
Definition chat_options : SearchOptions :=
  {| search := "python"; region := Some ""; salary_from := Some 0;
     salary_to := Some 0; experience_tags := Some [] |}.

End SampleBot.

(** ** Further definitions *)

(** Whether an outcome is a value. *)
Definition succeeds {A} (r : result A) : bool :=
  match r with Ok _ => true | Raise _ => false end.

(** Further sample services. *)
Module SampleFaults.
Import Sample.

(** The sample web with the third listing page of "java" unreachable. *)
Definition requests_third_page_down : Requests := {|
  requests_get :=
    sample_get [(scraper ++ "https://www.work.ua/en/resumes/?search=java&page=3")%string];
  requests_post _ _ := Ok robota_response;
|}.

(** The API answering the second request, the one that carries [count],
    with a redirect. *)
Definition requests_api_redirect : Requests := {|
  requests_get := sample_get [];
  requests_post _ payload :=
    match payload !! "count" with
    | None => Ok robota_response
    | Some _ => Ok {| status_code := 302; json := Ok (PDict []) |}
    end;
|}.


(** A bot over a first parser with a fixed answer and the API adapter. *)
Definition api_bot : TelegramResumeBot.t StubParser RobotaUaParser.t :=
  {| TelegramResumeBot.work_ua_parser :=
       {| stub_answer := Ok (Some [SampleBot.resume_with "w1" 40]) |};
     TelegramResumeBot.robota_ua_parser := robota_ua_parser |}.

End SampleFaults.

(** ** telegram_bot.telegram_resume_bot: the conversation handlers

    The handlers work on [__user_data], a dictionary from chat ids to
    entries.  A handler sends messages, updates the dictionary in place
    and may raise; what it has written before it raises stays written. *)

Module Handlers.

(** [int(s)]: surrounding white space, a sign, and decimal digits with
    single underscores between them; more than 4300 digits are
    refused, as is anything else ([None] stands for the [ValueError]). *)
Fixpoint digit_groups (after_digit : bool) (s : string) : bool :=
  match s with
  | EmptyString => after_digit
  | String c s' =>
      if PyStr.is_digit c then digit_groups true s'
      else if Ascii.eqb c "_" then after_digit && digit_groups false s'
      else false
  end.

Fixpoint only_digits (s : string) : string :=
  match s with
  | EmptyString => EmptyString
  | String c s' =>
      if PyStr.is_digit c then String c (only_digits s') else only_digits s'
  end.

Definition py_int (s : string) : option Z :=
  let s := PyStr.strip s in
  let '(negative, body) :=
    match s with
    | String "-" body => (true, body)
    | String "+" body => (false, body)
    | _ => (false, s)
    end in
  let digits := only_digits body in
  if digit_groups false body && (String.length digits <=? 4300)%nat
  then Some (if negative then - PyStr.int_of_digits digits
             else PyStr.int_of_digits digits)
  else None.

(** [models.User.UserState] *)
Inductive UserState :=
| ASKING_KEYWORDS
| ASKING_REGION
| ASKING_SALARY
| ASKING_EXPERIENCE
| ASKING_SALARY_FROM
| ASKING_SALARY_TO
| FREE.

(** An entry of [__user_data]: the dictionary with the keys [state] and
    [search_options]. *)
Record user := {
  state : UserState;
  search_options : gmap string pyval;
}.

(** The option tables loaded at construction; the experience table maps
    a string to a string. *)
Record t := {
  SALARY_FROM_OPTIONS : list (string * pyval);
  SALARY_TO_OPTIONS : list (string * pyval);
  EXPERIENCE_OPTIONS : list (string * string);
}.

(** What a handler raises: [KeyError(chat_id)] from [__user_data], the
    [ValueError] of [int], or an exception of the values. *)
Inductive raised :=
| UnknownChat (chat_id : Z)
| ValueError
| Py (e : py_error).

(** The caption of a button: a text, a text after a check mark, or the
    captions of the two buttons of the last row. *)
Inductive caption :=
| Plain (text : string)
| Ticked (text : string)
| ResetCaption
| CompleteCaption.

Record InlineKeyboardButton := {
  button_text : caption;
  callback_data : string;
}.

Definition keyboard : Type := list (list InlineKeyboardButton).

(** The messages sent or edited, one constructor for each text of the
    source, with the values put into it. *)
Inductive message :=
| Hello
| Goodbye
| AllParametersCleared
| PleaseProvideSearchQuery
| PleaseProvideRegion
| PleaseTypeStart
| NotChoosingAnyParameter
| SearchQuerySetTo (text : string)
| RegionSetTo (text : string)
| PleaseChooseExperience (reply_markup : keyboard)
| ExperienceSelectionCompleted (selected_text : string)
| ExperienceOptionsReset (reply_markup : keyboard)
| ExperienceOptionsSelected (selected_text : string) (reply_markup : keyboard)
| SelectMinimumSalary (reply_markup : keyboard)
| SelectMaximumSalary (reply_markup : keyboard)
| SalaryRangeSet.

(** The outcome of a handler. *)
Record handled := {
  sent : list message;
  data : gmap Z user;
  exception : option raised;
}.

Definition done (sent : list message) (user_data : gmap Z user) : handled :=
  {| sent := sent; data := user_data; exception := None |}.

Definition raise (sent : list message) (user_data : gmap Z user) (e : raised)
  : handled :=
  {| sent := sent; data := user_data; exception := Some e |}.

(** [self.__user_data[chat_id]["state"] = state], after the messages
    [sent]. *)
Definition set_state (chat_id : Z) (s : UserState) (sent : list message)
    (user_data : gmap Z user) : handled :=
  match user_data !! chat_id with
  | Some u =>
      done sent (<[chat_id := {| state := s;
                                 search_options := search_options u |}]> user_data)
  | None => raise sent user_data (UnknownChat chat_id)
  end.

Definition start (chat_id : Z) (user_data : gmap Z user) : handled :=
  let user_data :=
    <[chat_id := {| state := FREE;
                    search_options :=
                      {[ "search" := PStr "";
                         "region" := PStr "";
                         "salary_from" := PInt 0;
                         "salary_to" := PInt 0;
                         "experience" := PList [] ]} |}]> user_data in
  done [Hello] user_data.

Definition stop (chat_id : Z) (user_data : gmap Z user) : handled :=
  match user_data !! chat_id with
  | Some _ => done [Goodbye] (delete chat_id user_data)
  | None => raise [] user_data (UnknownChat chat_id)
  end.

Definition clear (chat_id : Z) (user_data : gmap Z user) : handled :=
  let user_data :=
    <[chat_id := {| state := FREE;
                    search_options :=
                      {[ "search" := PStr "";
                         "region" := PStr "";
                         "salary_from" := PStr "";
                         "salary_to" := PStr "";
                         "experience" := PList [] ]} |}]> user_data in
  done [AllParametersCleared] user_data.

Definition set_parameter (chat_id : Z) (text : string)
    (user_data : gmap Z user) : handled :=
  if String.prefix "/keywords" text
  then set_state chat_id ASKING_KEYWORDS [PleaseProvideSearchQuery] user_data
  else if String.prefix "/region" text
  then set_state chat_id ASKING_REGION [PleaseProvideRegion] user_data
  else done [] user_data.

Definition accept_parameter (chat_id : Z) (text : string)
    (user_data : gmap Z user) : handled :=
  match user_data !! chat_id with
  | None => done [PleaseTypeStart] user_data
  | Some u =>
      let '(sent, options) :=
        match state u with
        | FREE => ([NotChoosingAnyParameter], search_options u)
        | ASKING_KEYWORDS =>
            ([SearchQuerySetTo text],
             <["search" := PStr text]> (search_options u))
        | ASKING_REGION =>
            ([RegionSetTo text],
             <["region" := PStr text]> (search_options u))
        | _ => ([], search_options u)
        end in
      done sent (<[chat_id := {| state := FREE; search_options := options |}]>
                   user_data)
  end.

(** [d[k] = v] on a dictionary kept as its items: the value of a key
    that is there is replaced where it stands. *)
Fixpoint dict_set (k v : string) (d : list (string * string))
  : list (string * string) :=
  match d with
  | [] => [(k, v)]
  | (k', v') :: d' =>
      if String.eqb k' k then (k', v) :: d' else (k', v') :: dict_set k v d'
  end.

Fixpoint mapping_get (d : list (string * string)) (k : string) : option string :=
  match d with
  | [] => None
  | (k', v) :: d' => if String.eqb k' k then Some v else mapping_get d' k
  end.

(** [__get_experience_mapping] *)
Definition get_experience_mapping (self : t) : list (string * string) :=
  foldl (fun mapping '(key, label) => dict_set label key mapping)
        [] (EXPERIENCE_OPTIONS self).

(** [x == v] for a string [x]. *)
Definition is_str (x : string) (v : pyval) : bool :=
  match v with
  | PStr s => String.eqb s x
  | _ => false
  end.

(** [x in v] for a string [x]. *)
Definition py_in (x : string) (v : pyval) : result bool :=
  match v with
  | PList l => Ok (existsb (is_str x) l)
  | PStr s => Ok (PyStr.contains x s)
  | PDict d => Ok (bool_decide (x ∈ dict_keys d))
  | _ => Raise TypeError
  end.

(** [l.remove(x)] when [x in l]. *)
Fixpoint list_remove (x : string) (l : list pyval) : list pyval :=
  match l with
  | [] => []
  | y :: l' => if is_str x y then l' else y :: list_remove x l'
  end.

(** [__build_experience_keyboard] *)
Definition build_experience_keyboard (self : t) (selected_experience : pyval)
  : result keyboard :=
  rows ← rmapM (fun '(key, label) =>
                  ticked ← py_in label selected_experience;
                  Ok [ {| button_text := if ticked : bool then Ticked label
                                         else Plain label;
                          callback_data := key |} ])
               (get_experience_mapping self);
  Ok (rows ++ [ [ {| button_text := ResetCaption;
                     callback_data := "experience_reset" |};
                  {| button_text := CompleteCaption;
                     callback_data := "experience_complete" |} ] ])%list.

Definition experience (self : t) (chat_id : Z) (user_data : gmap Z user)
  : handled :=
  match user_data !! chat_id with
  | None => raise [] user_data (UnknownChat chat_id)
  | Some u =>
      match kw_getitem (search_options u) "experience" with
      | Raise e => raise [] user_data (Py e)
      | Ok selected =>
          match build_experience_keyboard self selected with
          | Raise e => raise [] user_data (Py e)
          | Ok reply_markup =>
              set_state chat_id ASKING_EXPERIENCE
                        [PleaseChooseExperience reply_markup] user_data
          end
      end
  end.

(** [", ".join(selected) if selected else "None"] *)
Definition selected_text (selected_experience : pyval) : result string :=
  if py_truthy selected_experience
  then items ← py_iter selected_experience;
       strs ← rmapM WorkUaParser.as_str items;
       Ok (PyStr.join ", " strs)
  else Ok "None".

(** The [remove] or [append] on the selected list. *)
Definition toggle (selected_option : string) (selected_experience : pyval)
  : result pyval :=
  match selected_experience with
  | PList l =>
      Ok (PList (if existsb (is_str selected_option) l
                 then list_remove selected_option l
                 else (l ++ [PStr selected_option])%list))
  | PStr _ | PDict _ => Raise AttributeError
  | _ => Raise TypeError
  end.

(** [experience_callback].  The list read from the search options is
    the one the options hold, so [remove] and [append] change the
    options; the list that [.get] makes up for a missing key belongs to no
    one.  After a reset the options hold a new list and the keyboard is
    built from the old one. *)
Definition experience_callback (self : t) (chat_id : Z) (query_data : string)
    (user_data : gmap Z user) : handled :=
  match user_data !! chat_id with
  | None => raise [] user_data (UnknownChat chat_id)
  | Some u =>
      let selected_experience :=
        default (PList []) (search_options u !! "experience") in
      let experience_mapping := get_experience_mapping self in
      if String.eqb query_data "experience_complete" then
        match selected_text selected_experience with
        | Raise e => raise [] user_data (Py e)
        | Ok text =>
            set_state chat_id FREE [ExperienceSelectionCompleted text] user_data
        end
      else if String.eqb query_data "experience_reset" then
        let user_data :=
          <[chat_id := {| state := state u;
                          search_options :=
                            <["experience" := PList []]> (search_options u) |}]>
            user_data in
        match build_experience_keyboard self selected_experience with
        | Raise e => raise [] user_data (Py e)
        | Ok reply_markup => done [ExperienceOptionsReset reply_markup] user_data
        end
      else
        match mapping_get experience_mapping query_data with
        | None => raise [] user_data (Py (KeyError query_data))
        | Some selected_option =>
            match toggle selected_option selected_experience with
            | Raise e => raise [] user_data (Py e)
            | Ok selected_experience =>
                let user_data :=
                  match search_options u !! "experience" with
                  | Some _ =>
                      <[chat_id := {| state := state u;
                                      search_options :=
                                        <["experience" := selected_experience]>
                                          (search_options u) |}]> user_data
                  | None => user_data
                  end in
                match (text ← selected_text selected_experience;
                       reply_markup ←
                         build_experience_keyboard self selected_experience;
                       Ok (ExperienceOptionsSelected text reply_markup)) with
                | Raise e => raise [] user_data (Py e)
                | Ok m => done [m] user_data
                end
            end
        end
  end.

Section Salary.
Context `{!Builtins}.

Definition salary_keyboard (prefix : string) (options : list (string * pyval))
  : keyboard :=
  map (fun '(label, value) =>
         [ {| button_text := Plain label;
              callback_data := prefix ++ py_format value |} ])
      options.

Definition salary (self : t) (chat_id : Z) (user_data : gmap Z user) : handled :=
  match set_state chat_id ASKING_SALARY_FROM [] user_data with
  | {| data := user_data; exception := None |} =>
      done [SelectMinimumSalary
              (salary_keyboard "salary_from:" (SALARY_FROM_OPTIONS self))]
           user_data
  | failed => failed
  end.

(** [self.__user_data[chat_id]["search_options"][key] = int(data.split(":")[1])]
    and the new state: the right-hand side is evaluated first. *)
Definition set_salary (chat_id : Z) (key : string) (query_data : string)
    (s : UserState) (sent : list message) (user_data : gmap Z user) : handled :=
  match list_getitem (PyStr.split ":" query_data) 1 with
  | Raise e => raise [] user_data (Py e)
  | Ok figure =>
      match py_int figure with
      | None => raise [] user_data ValueError
      | Some n =>
          match user_data !! chat_id with
          | None => raise [] user_data (UnknownChat chat_id)
          | Some u =>
              done sent
                (<[chat_id := {| state := s;
                                 search_options :=
                                   <[key := PInt n]> (search_options u) |}]>
                   user_data)
          end
      end
  end.

Definition salary_callback (self : t) (chat_id : Z) (query_data : string)
    (user_data : gmap Z user) : handled :=
  if String.prefix "salary_from:" query_data then
    set_salary chat_id "salary_from" query_data ASKING_SALARY_TO
      [SelectMaximumSalary (salary_keyboard "salary_to:" (SALARY_TO_OPTIONS self))]
      user_data
  else if String.prefix "salary_to:" query_data then
    set_salary chat_id "salary_to" query_data FREE [SalaryRangeSet] user_data
  else done [] user_data.

(** The updates the handlers of [run] are registered for. *)
Inductive update :=
| StartCommand (chat_id : Z)
| StopCommand (chat_id : Z)
| ClearCommand (chat_id : Z)
| ParameterCommand (chat_id : Z) (text : string)
| ExperienceCommand (chat_id : Z)
| ExperienceQuery (chat_id : Z) (query_data : string)
| SalaryCommand (chat_id : Z)
| SalaryQuery (chat_id : Z) (query_data : string)
| TextMessage (chat_id : Z) (text : string).

Definition handle (self : t) (u : update) : gmap Z user -> handled :=
  match u with
  | StartCommand chat_id => start chat_id
  | StopCommand chat_id => stop chat_id
  | ClearCommand chat_id => clear chat_id
  | ParameterCommand chat_id text => set_parameter chat_id text
  | ExperienceCommand chat_id => experience self chat_id
  | ExperienceQuery chat_id query_data => experience_callback self chat_id query_data
  | SalaryCommand chat_id => salary self chat_id
  | SalaryQuery chat_id query_data => salary_callback self chat_id query_data
  | TextMessage chat_id text => accept_parameter chat_id text
  end.

(** The dictionary after a run of updates, from an empty one when the bot
    starts; an update whose handler raises is over, the next one is
    handled. *)
Definition run_from (self : t) (user_data : gmap Z user) (updates : list update)
  : gmap Z user :=
  foldl (fun user_data u => data (handle self u user_data)) user_data updates.

End Salary.

(** [search_resumes], from the update on. *)
Definition search_resumes `{!Pydantic} {W R : Type}
    `{!BaseParser.BaseParser W, !BaseParser.BaseParser R}
    (bot : TelegramResumeBot.t W R) (chat_id : Z) (user_data : gmap Z user)
  : raised + TelegramResumeBot.reply :=
  match user_data !! chat_id with
  | None => inl (UnknownChat chat_id)
  | Some u =>
      match TelegramResumeBot.search_resumes bot (search_options u) with
      | Ok reply => inr reply
      | Raise e => inl (Py e)
      end
  end.

End Handlers.

(** Auxiliary notions for the statements about the handlers. *)
Module HandlersAux.
Import Handlers.

(** Search options as the handlers make and keep them. *)
Record settled (self : t) (options : gmap string pyval) : Prop := {
  settled_search : exists s, options !! "search" = Some (PStr s);
  settled_region : exists r, options !! "region" = Some (PStr r);
  settled_salary_from :
    options !! "salary_from" = Some (PStr "") \/
    exists n, options !! "salary_from" = Some (PInt n);
  settled_salary_to :
    options !! "salary_to" = Some (PStr "") \/
    exists n, options !! "salary_to" = Some (PInt n);
  settled_experience :
    exists tags, options !! "experience" = Some (PList (PStr <$> tags)) /\
                 NoDup tags /\
                 Forall (fun tag => tag ∈ (EXPERIENCE_OPTIONS self).*1) tags;
}.

(** The tags left by [list_remove]. *)
Fixpoint remove_first (x : string) (tags : list string) : list string :=
  match tags with
  | [] => []
  | y :: tags' => if String.eqb y x then tags' else y :: remove_first x tags'
  end.

(** The tags after a press on the button of [selected_option]. *)
Definition toggled (selected_option : string) (tags : list string) : list string :=
  if bool_decide (selected_option ∈ tags)
  then remove_first selected_option tags
  else (tags ++ [selected_option])%list.

(** Every chat has settled search options. *)
Definition all_settled (self : t) (user_data : gmap Z user) : Prop :=
  forall chat_id u, user_data !! chat_id = Some u ->
                    settled self (search_options u).

(** The updates that leave the lower salary bound of a chat as it is. *)
Definition keeps_salary_from (chat_id : Z) (u : update) : Prop :=
  match u with
  | StartCommand c | StopCommand c => c <> chat_id
  | SalaryQuery c query_data =>
      c <> chat_id \/ String.prefix "salary_from:" query_data = false
  | _ => True
  end.

(** The chat an update comes from. *)
Definition chat_of (u : update) : Z :=
  match u with
  | StartCommand c | StopCommand c | ClearCommand c | ParameterCommand c _
  | ExperienceCommand c | ExperienceQuery c _ | SalaryCommand c
  | SalaryQuery c _ | TextMessage c _ => c
  end.

End HandlersAux.

(** More auxiliary notions for the statements about the handlers. *)
Module KeyboardAux.
Import Handlers.

(** The row of the experience keyboard for one item of the mapping. *)
Definition experience_row (tags : list string) (item : string * string)
  : list InlineKeyboardButton :=
  [ {| button_text := if bool_decide (item.2 ∈ tags) then Ticked item.2
                      else Plain item.2;
       callback_data := item.1 |} ].

Definition last_row : list InlineKeyboardButton :=
  [ {| button_text := ResetCaption; callback_data := "experience_reset" |};
    {| button_text := CompleteCaption; callback_data := "experience_complete" |} ].

(** A button with a check mark. *)
Definition ticked (b : InlineKeyboardButton) : bool :=
  match button_text b with Ticked _ => true | _ => false end.

End KeyboardAux.

(** A sample conversation. *)
Module SampleChat.
Import Handlers.

Definition handlers : Handlers.t := {|
  SALARY_FROM_OPTIONS := [("10 000", PInt 10000); ("Any", PInt 0)];
  SALARY_TO_OPTIONS := [("20 000", PInt 20000)];
  EXPERIENCE_OPTIONS := [("No experience", "experience_0");
                         ("1 to 2 years", "experience_1")];
|}.

(** The options of a chat after [/start]. *)
Definition start_options : gmap string pyval :=
  {[ "search" := PStr ""; "region" := PStr "";
     "salary_from" := PInt 0; "salary_to" := PInt 0;
     "experience" := PList [] ]}.

(** Chat 1 after [/start], and after a press on its first experience
    button. *)
Definition started : gmap Z user :=
  {[ 1 := {| state := FREE; search_options := start_options |} ]}.

Definition selected : gmap Z user :=
  {[ 1 := {| state := FREE;
             search_options :=
               <["experience" := PList [PStr "No experience"]]> start_options |} ]}.

(** [/start], the keywords, one experience option. *)
Definition updates : list update :=
  [ StartCommand 1; ParameterCommand 1 "/keywords"; TextMessage 1 "python";
    ExperienceQuery 1 "experience_0" ].

End SampleChat.

(** * Properties *)

Local Open Scope list_scope.

(** ** Ranking: [list.sort(reverse=True)] and the five best *)

Section SortFacts.
Context {A : Type} (key : A -> Z).
Import TelegramResumeBot.

Let lt (x y : A) : bool := key x <? key y.
Let ascending (x y : A) : Prop := key x <= key y.

Lemma insort_right_Permutation (x : A) (l : list A) :
  insort_right lt x l ≡ₚ x :: l.
Proof.
  induction l as [|y l IH]; simpl; [done|].
  destruct (lt x y); [done|]. rewrite IH. apply Permutation_swap.
Qed.

Lemma insort_right_sorted (x : A) (l : list A) :
  StronglySorted ascending l -> StronglySorted ascending (insort_right lt x l).
Proof.
  induction 1 as [|y l Hl IH Hy]; simpl.
  - repeat constructor.
  - unfold lt at 1. destruct (Z.ltb_spec (key x) (key y)) as [Hxy|Hxy].
    + constructor; [by constructor|].
      constructor; [unfold ascending; lia|].
      eapply Forall_impl; [exact Hy|]. unfold ascending. intros; simpl in *; lia.
    + constructor; [done|].
      rewrite (insort_right_Permutation x l). constructor; [done|done].
Qed.

Lemma filter_none (P : A -> Prop) `{!forall a, Decision (P a)} (l : list A) :
  Forall (fun a => ~ P a) l -> filter P l = [].
Proof.
  induction 1 as [|a l Ha _ IH]; [done|]. by rewrite filter_cons_False.
Qed.

(** An element is inserted behind the elements of the same key. *)
Lemma insort_right_filter (v : Z) (x : A) (l : list A) :
  StronglySorted ascending l ->
  filter (fun a => key a = v) (insort_right lt x l)
  = filter (fun a => key a = v) (l ++ [x]).
Proof.
  induction 1 as [|y l Hl IH Hy]; simpl; [done|].
  unfold lt at 1. destruct (Z.ltb_spec (key x) (key y)) as [Hxy|Hxy].
  - change (y :: l ++ [x]) with ((y :: l) ++ [x]).
    rewrite filter_app, (filter_cons _ x (y :: l)), (filter_cons _ x []), filter_nil.
    destruct (decide (key x = v)) as [Hv|Hv]; [|by rewrite app_nil_r].
    assert (filter (fun a => key a = v) (y :: l) = []) as ->; [|done].
    apply filter_none. constructor; [lia|].
    eapply Forall_impl; [exact Hy|]. unfold ascending. intros; simpl in *; lia.
  - rewrite !filter_cons, IH. by destruct (decide (key y = v)).
Qed.

Lemma list_sort_spec (l acc : list A) :
  StronglySorted ascending acc ->
  let sorted := foldl (fun sorted x => insort_right lt x sorted) acc l in
  StronglySorted ascending sorted /\
  sorted ≡ₚ acc ++ l /\
  forall v, filter (fun a => key a = v) sorted
            = filter (fun a => key a = v) (acc ++ l).
Proof.
  revert acc. induction l as [|x l IH]; intros acc Hacc; simpl.
  - by rewrite app_nil_r.
  - destruct (IH (insort_right lt x acc) (insort_right_sorted x acc Hacc))
      as (Hs & Hp & Hf).
    split; [done|]. split.
    + rewrite Hp, insort_right_Permutation. simpl. apply Permutation_middle.
    + intros v. rewrite Hf. change (x :: l) with ([x] ++ l).
      rewrite !filter_app, insort_right_filter by done.
      by rewrite filter_app, <- app_assoc.
Qed.

Lemma StronglySorted_reverse (R : relation A) (l : list A) :
  StronglySorted R l -> StronglySorted (flip R) (reverse l).
Proof.
  induction 1 as [|x l Hl IH Hx]; [constructor|].
  rewrite reverse_cons. apply StronglySorted_app_2; [|done|repeat constructor].
  intros a b Ha Hb. apply list_elem_of_singleton in Hb as ->.
  rewrite Forall_forall in Hx. apply Hx. by apply elem_of_reverse.
Qed.

(** [sort(reverse=True)] permutes its argument, orders it by descending
    key and keeps the elements of equal key in their original order. *)
Lemma list_sort_reverse_spec (l : list A) :
  let sorted := list_sort_reverse lt l in
  sorted ≡ₚ l /\
  StronglySorted (fun a b => key b <= key a) sorted /\
  forall v, filter (fun a => key a = v) sorted = filter (fun a => key a = v) l.
Proof.
  unfold list_sort_reverse, list_sort.
  destruct (list_sort_spec (reverse l) [] (SSorted_nil _)) as (Hs & Hp & Hf).
  simpl in *. split; [|split].
  - by rewrite reverse_Permutation, Hp, reverse_Permutation.
  - by apply (StronglySorted_reverse ascending).
  - intros v. by rewrite filter_reverse, Hf, filter_reverse, reverse_involutive.
Qed.

End SortFacts.

(** ** Floating-point arithmetic *)

Module Float64Facts.
Import Float64.
Local Open Scope Q_scope.

Lemma round_half_even_error (x : Q) :
  Qabs (inject_Z (round_half_even x) - x) <= 1 # 2.
Proof.
  unfold round_half_even.
  pose proof (Qfloor_le x) as Hlo.
  pose proof (Qlt_floor x) as Hhi.
  rewrite inject_Z_plus in Hhi. change (inject_Z 1) with 1 in Hhi.
  set (f := Qfloor x) in *.
  apply Qabs_case; intros _;
    destruct (Qcompare_spec (x - inject_Z f) (1 # 2)) as [He|Hl|Hg];
    try destruct (Z.even f); rewrite ?inject_Z_plus;
    change (inject_Z 1) with 1; lra.
Qed.

Lemma round_half_even_Z (x : Q) (z : Z) :
  x == inject_Z z -> round_half_even x = z.
Proof.
  intros Hx. unfold round_half_even.
  assert (Qfloor x = z) as -> by (rewrite Hx; apply Qfloor_Z).
  destruct (Qcompare_spec (x - inject_Z z) (1 # 2)) as [He|Hl|Hg]; try lra.
  reflexivity.
Qed.

Lemma round_half_even_nonneg (x : Q) : 0 <= x -> (0 <= round_half_even x)%Z.
Proof.
  intros Hx. unfold round_half_even.
  assert (0 <= Qfloor x)%Z as Hf.
  { change 0%Z with (Qfloor 0). by apply Qfloor_resp_le. }
  destruct (Qcompare _ _); try destruct (Z.even _); lia.
Qed.

Lemma two_pow_pos (e : Z) : 0 < two ^ e.
Proof. by apply Qpower_0_lt. Qed.

Lemma two_pow_add (a b : Z) : two ^ (a + b) == two ^ a * two ^ b.
Proof. by apply Qpower_plus. Qed.

Lemma two_pow_succ (a : Z) : two ^ (a + 1) == 2 * two ^ a.
Proof. rewrite two_pow_add. change (two ^ 1) with 2. ring. Qed.

Lemma two_pow_Z (n : Z) : (0 <= n)%Z -> inject_Z (2 ^ n) == two ^ n.
Proof. intros Hn. by rewrite Zpower_Qpower. Qed.

Lemma two_pow_mono (a b : Z) : (a <= b)%Z -> two ^ a <= two ^ b.
Proof. intros Hab. by apply Qpower_le_compat_l. Qed.

Lemma two_pow_lt_inv (a b : Z) : two ^ a < two ^ b -> (a < b)%Z.
Proof. intros Hab. by apply (Qpower_lt_compat_l_inv two). Qed.

Lemma log2_bounds_Q (p : Z) :
  (0 < p)%Z ->
  two ^ Z.log2 p <= inject_Z p /\ inject_Z p < two ^ (Z.log2 p + 1).
Proof.
  intros Hp. destruct (Z.log2_spec p Hp) as [Hlo Hhi].
  pose proof (Z.log2_nonneg p) as Hnn.
  rewrite <- !two_pow_Z by lia. split.
  - by rewrite <- Zle_Qle.
  - rewrite <- Zlt_Qlt. by rewrite <- Z.add_1_r in Hhi.
Qed.

Lemma floor_log2_spec (q : Q) :
  0 < q ->
  two ^ floor_log2 q <= q /\ q < two ^ (floor_log2 q + 1).
Proof.
  intros Hq. unfold floor_log2.
  destruct q as [p d]; simpl Qnum; simpl Qden.
  assert (0 < p)%Z as Hp by (unfold Qlt in Hq; simpl in Hq; lia).
  destruct (log2_bounds_Q p Hp) as [Hp1 Hp2].
  destruct (log2_bounds_Q (Zpos d) eq_refl) as [Hd1 Hd2].
  set (lp := Z.log2 p) in *. set (ld := Z.log2 (Zpos d)) in *.
  pose proof (two_pow_pos lp) as Hlp. pose proof (two_pow_pos ld) as Hld.
  pose proof (two_pow_pos (lp - ld)) as Hk.
  assert (two ^ lp == two ^ (lp - ld) * two ^ ld) as Esplit.
  { rewrite <- two_pow_add. by replace (lp - ld + ld)%Z with lp by lia. }
  rewrite two_pow_succ in Hp2, Hd2.
  assert (p # d == inject_Z p / inject_Z (Zpos d)) as Eq by apply Qmake_Qdiv.
  assert (0 < inject_Z (Zpos d)) as HD by (rewrite <- (Zlt_Qlt 0); lia).
  assert (two ^ (lp - ld - 1) < p # d) as Hlow.
  { rewrite Eq. apply Qlt_shift_div_l; [done|].
    assert (two ^ (lp - ld) == 2 * two ^ (lp - ld - 1)) as E1.
    { rewrite <- two_pow_succ. by replace (lp - ld - 1 + 1)%Z with (lp - ld)%Z by lia. }
    pose proof (two_pow_pos (lp - ld - 1)). nra. }
  assert (p # d < two ^ (lp - ld + 1)) as Hup.
  { rewrite Eq. apply Qlt_shift_div_r; [done|]. rewrite two_pow_succ. nra. }
  destruct (Qle_bool (two ^ (lp - ld)) (p # d)) eqn:Hb.
  - apply Qle_bool_iff in Hb. done.
  - assert (~ two ^ (lp - ld) <= p # d) as Hn.
    { intros H. apply Qle_bool_iff in H. congruence. }
    apply Qnot_le_lt in Hn. split; [by apply Qlt_le_weak|].
    by replace (lp - ld - 1 + 1)%Z with (lp - ld)%Z by lia.
Qed.

Lemma floor_log2_unique (q : Q) (f : Z) :
  two ^ f <= q -> q < two ^ (f + 1) -> floor_log2 q = f.
Proof.
  intros Hlo Hhi.
  assert (0 < q) as Hq by (pose proof (two_pow_pos f); lra).
  destruct (floor_log2_spec q Hq) as [Hlo' Hhi'].
  assert (floor_log2 q < f + 1)%Z by (apply two_pow_lt_inv; lra).
  assert (f < floor_log2 q + 1)%Z by (apply two_pow_lt_inv; lra).
  lia.
Qed.

Import Aux.

Lemma round_pos_error (q : Q) :
  Qabs (round_pos q - q) <= two ^ ulp_exponent q * (1 # 2).
Proof.
  unfold round_pos. set (e := ulp_exponent q).
  pose proof (two_pow_pos e) as He.
  set (s := q / two ^ e).
  assert (q == s * two ^ e) as Hs.
  { unfold s. field. lra. }
  pose proof (round_half_even_error s) as Hr.
  assert (inject_Z (round_half_even s) * two ^ e - q
          == (inject_Z (round_half_even s) - s) * two ^ e) as -> by (rewrite Hs at 1; ring).
  rewrite Qabs_Qmult, (Qabs_pos (two ^ e)) by lra.
  rewrite (Qmult_comm (two ^ e)). apply Qmult_le_compat_r; lra.
Qed.

Lemma ulp_exponent_normal (q : Q) :
  two ^ (-1022) <= q -> ulp_exponent q = (floor_log2 q - 52)%Z.
Proof.
  intros Hq. pose proof (two_pow_pos (-1022)).
  destruct (floor_log2_spec q) as [_ Hhi]; [lra|].
  assert (-1022 < floor_log2 q + 1)%Z by (apply two_pow_lt_inv; lra).
  unfold ulp_exponent. lia.
Qed.

Lemma two_pow_floor_log2 (q : Q) (k : Z) :
  0 < q -> two ^ (floor_log2 q - k) <= q * two ^ (- k).
Proof.
  intros Hq. destruct (floor_log2_spec q Hq) as [Hlo _].
  replace (floor_log2 q - k)%Z with (floor_log2 q + - k)%Z by lia.
  rewrite two_pow_add. apply Qmult_le_compat_r; [done|].
  apply Qlt_le_weak, two_pow_pos.
Qed.

Lemma round_pos_rel_error (q : Q) :
  two ^ (-1022) <= q -> Qabs (round_pos q - q) <= q * u.
Proof.
  intros Hq. pose proof (two_pow_pos (-1022)).
  pose proof (round_pos_error q) as Hr.
  rewrite (ulp_exponent_normal q Hq) in Hr.
  pose proof (two_pow_floor_log2 q 52) as Hf.
  change (two ^ (- (52))) with (1 # 4503599627370496) in Hf.
  unfold u. lra.
Qed.

Lemma round_pos_abs_error (q : Q) :
  0 < q -> Qabs (round_pos q - q) <= (q + 1) * u.
Proof.
  intros Hq. pose proof (round_pos_error q) as Hr.
  pose proof (two_pow_floor_log2 q 52 Hq) as Hf.
  change (two ^ (- (52))) with (1 # 4503599627370496) in Hf.
  unfold ulp_exponent in Hr.
  destruct (Z.max_spec (floor_log2 q - 52) (-1074)) as [[_ E]|[_ E]];
    rewrite E in Hr; unfold u.
  - pose proof (two_pow_mono (-1074) (-52) ltac:(lia)) as Hm.
    change (two ^ (-52)) with (1 # 4503599627370496) in Hm. lra.
  - lra.
Qed.

Lemma round_pos_nonneg (q : Q) : 0 < q -> 0 <= round_pos q.
Proof.
  intros Hq. unfold round_pos. pose proof (two_pow_pos (ulp_exponent q)).
  apply Qmult_le_0_compat; [|lra].
  rewrite <- (Zle_Qle 0). apply round_half_even_nonneg.
  apply Qle_shift_div_l; lra.
Qed.

Lemma round_pos_Z (q : Q) (k : Z) :
  (0 < k < 2 ^ 53)%Z -> q == inject_Z k -> round_pos q == inject_Z k.
Proof.
  intros Hk Hq.
  assert (0 < q) as Hq0 by (rewrite Hq, <- (Zlt_Qlt 0); lia).
  destruct (floor_log2_spec q Hq0) as [Hlo _].
  assert (floor_log2 q < 53)%Z as Hf.
  { apply two_pow_lt_inv. rewrite <- (two_pow_Z 53) by lia.
    eapply Qle_lt_trans; [exact Hlo|]. rewrite Hq, <- Zlt_Qlt. lia. }
  unfold round_pos. set (e := ulp_exponent q).
  assert (e <= 0)%Z as He by (unfold e, ulp_exponent; lia).
  pose proof (two_pow_pos e) as Hpe.
  assert (two ^ e * two ^ (- e) == 1) as Hinv.
  { rewrite <- two_pow_add. by replace (e + - e)%Z with 0%Z by lia. }
  assert (q / two ^ e == inject_Z (k * 2 ^ (- e))) as Hs.
  { rewrite inject_Z_mult, two_pow_Z, Hq by lia.
    apply (Qmult_inj_r _ _ (two ^ e)); [lra|].
    transitivity (inject_Z k); [field; lra|].
    rewrite <- Qmult_assoc, (Qmult_comm (two ^ (- e))), Hinv. ring. }
  rewrite (round_half_even_Z _ _ Hs).
  rewrite inject_Z_mult, two_pow_Z by lia.
  rewrite <- Qmult_assoc, (Qmult_comm (two ^ (- e))), Hinv. ring.
Qed.

Lemma Qnum_pos (q : Q) : 0 < q -> exists p, Qnum q = Zpos p.
Proof.
  destruct q as [[|p|p] d]; unfold Qlt; simpl; intros H; try lia. by exists p.
Qed.

Lemma round_binary64_pos (q : Q) :
  0 < q -> round_pos q < max_float_bound ->
  round_binary64 q = Finite (round_pos q).
Proof.
  intros Hq Hr. unfold round_binary64.
  destruct (Qnum_pos q Hq) as [p ->].
  destruct (Qle_bool max_float_bound (round_pos q)) eqn:Hb; [|done].
  apply Qle_bool_iff in Hb. lra.
Qed.

Lemma small_below_max (r : Q) : r <= 1024 -> r < max_float_bound.
Proof.
  intros Hr. unfold max_float_bound.
  pose proof (two_pow_mono 11 1024 ltac:(lia)) as Hm.
  change (two ^ 11) with 2048 in Hm. lra.
Qed.

Lemma round_binary64_zero (q : Q) : Qnum q = 0%Z -> round_binary64 q = Finite 0.
Proof. intros H. unfold round_binary64. by rewrite H. Qed.

Lemma Qnum_zero_or_pos (q : Q) : 0 <= q -> Qnum q = 0%Z \/ 0 < q.
Proof.
  destruct q as [[|p|p] d]; unfold Qle, Qlt; simpl; intros H; [by left|right; lia|lia].
Qed.

Lemma Qceiling_between (x : Q) (k : Z) :
  inject_Z k < x -> x <= inject_Z (k + 1) -> Qceiling x = (k + 1)%Z.
Proof.
  intros Hlo Hhi.
  pose proof (Qle_ceiling x) as H1. pose proof (Qceiling_lt x) as H2.
  assert (k < Qceiling x)%Z by (rewrite Zlt_Qlt; lra).
  assert (Qceiling x - 1 < k + 1)%Z by (rewrite Zlt_Qlt; lra).
  lia.
Qed.

(** The quotient of two counts, [0 <= m <= t], is a float in [0, 1 + 2u]. *)
Lemma int_truediv_ratio (m t : Z) :
  (0 <= m <= t)%Z -> (0 < t)%Z ->
  exists x, int_truediv m t = Ok x /\ 0 <= x <= 1 + 2 * u /\
            (m = 0%Z -> Qnum x = 0%Z) /\
            (two ^ (-1022) <= m # Z.to_pos t ->
             Qabs (x - (m # Z.to_pos t)) <= (m # Z.to_pos t) * u).
Proof.
  intros Hm Ht. destruct t as [|d|d]; try lia. simpl Z.to_pos.
  unfold int_truediv.
  destruct (Z.eq_dec m 0%Z) as [->|Hm0].
  - exists 0. rewrite round_binary64_zero by done. unfold u. repeat split; try lra; try done.
  - assert (0 < m # d) as Hq by (unfold Qlt; simpl; lia).
    assert (m # d <= 1) as Hq1 by (unfold Qle; simpl; lia).
    pose proof (round_pos_abs_error _ Hq) as He.
    pose proof (round_pos_nonneg _ Hq) as Hn.
    apply Qabs_diff_Qle_condition in He.
    assert (round_pos (m # d) <= 1 + 2 * u) as Hub by (unfold u in *; lra).
    exists (round_pos (m # d)).
    rewrite round_binary64_pos; [|done|apply small_below_max; unfold u in *; lra].
    repeat split; try done. by apply round_pos_rel_error.
Qed.

(** [round((m / t) * 100)] *)
Local Abbreviation percentage m t :=
  (q ← int_truediv m t; py_round (float_mul q 100)).

Lemma percentage_range (m t : Z) :
  (0 <= m <= t)%Z -> (0 < t)%Z ->
  exists s, percentage m t = Ok s /\ (0 <= s <= 100)%Z.
Proof.
  intros Hm Ht.
  destruct (int_truediv_ratio m t Hm Ht) as (x & -> & [Hx0 Hx1] & _ & _).
  simpl. unfold float_mul.
  destruct (Qnum_zero_or_pos x Hx0) as [Hz|Hpos].
  - rewrite round_binary64_zero by (simpl; lia).
    exists 0%Z. split; [done|lia].
  - assert (0 < x * 100) as Hq by lra.
    pose proof (round_pos_abs_error _ Hq) as He.
    pose proof (round_pos_nonneg _ Hq) as Hn.
    apply Qabs_diff_Qle_condition in He.
    assert (round_pos (x * 100) <= 100 + (1 # 4)) as Hub by (unfold u in *; nra).
    rewrite round_binary64_pos; [|done|apply small_below_max; lra].
    eexists. split; [done|].
    pose proof (round_half_even_error (round_pos (x * 100))) as Hr.
    apply Qabs_diff_Qle_condition in Hr.
    pose proof (round_half_even_nonneg _ Hn).
    split; [done|].
    assert (round_half_even (round_pos (x * 100)) < 101)%Z; [|lia].
    rewrite Zlt_Qlt. change (inject_Z 101) with 101. lra.
Qed.

Lemma percentage_zero (t : Z) : (0 < t)%Z -> percentage 0 t = Ok 0%Z.
Proof.
  intros Ht.
  destruct (int_truediv_ratio 0 t ltac:(lia) Ht) as (x & -> & _ & Hz & _).
  simpl. unfold float_mul. rewrite round_binary64_zero; [done|].
  simpl. rewrite Hz; [done|done].
Qed.

Lemma percentage_nearest (m t : Z) :
  (1 <= m <= t)%Z -> (t < 2 ^ 44)%Z ->
  exists s, percentage m t = Ok s /\
            Qabs (inject_Z s - 100 * (m # Z.to_pos t)) <= 1 # 2.
Proof.
  intros Hm Ht.
  destruct (int_truediv_ratio m t ltac:(lia) ltac:(lia)) as (x & -> & _ & _ & Hx).
  destruct t as [|d|d]; try lia. simpl Z.to_pos in *.
  assert (1 # 17592186044416 <= m # d) as Hlow by (unfold Qle; simpl; lia).
  assert (m # d <= 1) as Hq1 by (unfold Qle; simpl; lia).
  pose proof (two_pow_mono (-1022) (-46) ltac:(lia)) as Hmono.
  change (two ^ (-46)) with (1 # 70368744177664) in Hmono.
  specialize (Hx ltac:(lra)). apply Qabs_diff_Qle_condition in Hx.
  simpl. unfold float_mul. unfold u in *.
  assert (0 < x * 100) as Hq by lra.
  pose proof (round_pos_rel_error (x * 100) ltac:(lra)) as He.
  apply Qabs_diff_Qle_condition in He. unfold u in *.
  assert (round_pos (x * 100) <= 101) as Hub by nra.
  rewrite round_binary64_pos; [|done|apply small_below_max; lra].
  eexists. split; [done|].
  pose proof (round_half_even_error (round_pos (x * 100))) as Hr.
  apply Qabs_diff_Qle_condition in Hr.
  set (s := round_half_even (round_pos (x * 100))) in *.
  assert (- ((1 # 2) + (1 # 35184372088832)) <= inject_Z s - 100 * (m # d)
          <= (1 # 2) + (1 # 35184372088832)) as [Hs1 Hs2] by (split; nra).
  assert (Z.pos d < 17592186044416)%Z as Hd by lia.
  revert Hs1 Hs2 Hd. clear. intros Hs1 Hs2 Hd.
  unfold Qabs, Qle, Qminus, Qplus, Qopp, Qmult, inject_Z in *. simpl in *.
  lia.
Qed.

Lemma total_pages_of_exact (N : Z) :
  (0 < N < 2 ^ 52)%Z ->
  WorkUaParser.total_pages_of N = Ok ((N + 13) / 14)%Z.
Proof.
  intros HN. unfold WorkUaParser.total_pages_of, int_truediv.
  assert (0 < N # 14) as Hq by (unfold Qlt; simpl; lia).
  pose proof (Z.div_mod N 14 ltac:(lia)) as Hdm.
  pose proof (Z.mod_pos_bound N 14 ltac:(lia)) as Hr.
  set (k := (N / 14)%Z) in *. set (r := (N mod 14)%Z) in *.
  assert ((N + 13) / 14 = if decide (r = 0%Z) then k else k + 1)%Z as ->.
  { case_decide.
    - symmetry. apply (Z.div_unique _ 14 k 13); lia.
    - symmetry. apply (Z.div_unique _ 14 (k + 1) (r - 1)); lia. }
  assert (two ^ (-1022) <= N # 14) as Hnorm.
  { pose proof (two_pow_mono (-1022) (-4) ltac:(lia)) as Hmono.
    change (two ^ (-4)) with (1 # 16) in Hmono.
    assert (1 # 16 <= N # 14) by (unfold Qle; simpl; lia). lra. }
  pose proof (round_pos_rel_error _ Hnorm) as He.
  apply Qabs_diff_Qle_condition in He. unfold u in He.
  assert (N # 14 <= 4503599627370496 # 14) as Hmax by (unfold Qle; simpl; lia).
  rewrite round_binary64_pos; [|done|].
  2:{ unfold max_float_bound.
      pose proof (two_pow_mono 53 1024 ltac:(lia)) as Hm.
      change (two ^ 53) with 9007199254740992 in Hm. lra. }
  simpl. f_equal. unfold math_ceil. case_decide as Hr0.
  - assert (N # 14 == inject_Z k) as Hk by (unfold Qeq; simpl; lia).
    rewrite (Qceiling_comp _ _ (round_pos_Z _ k ltac:(lia) Hk)). apply Qceiling_Z.
  - apply Qceiling_between.
    + assert (inject_Z k + (1 # 14) <= N # 14)
        by (unfold Qle, Qplus, inject_Z; simpl; lia). lra.
    + assert (N # 14 <= inject_Z k + (13 # 14))
        by (unfold Qle, Qplus, inject_Z; simpl; lia).
      rewrite inject_Z_plus. change (inject_Z 1) with 1. lra.
Qed.
End Float64Facts.

(** ** The fuzzy vocabulary matcher *)

Section MatcherFacts.
Context `{!RapidFuzz, !Environ}.
Local Open Scope Q_scope.

(** The loop returns the first choice of highest score among the best so
    far and the choices still to be scored. *)
Lemma extractOne_loop_spec (query : string) (choices : list string)
    (best : option (string * Q)) :
  (forall b sb, best = Some (b, sb) -> sb = token_sort_ratio query b) ->
  (best = None -> choices <> []) ->
  exists w,
    extractOne_loop query choices best = Some (w, token_sort_ratio query w) /\
    (w ∈ choices \/ exists sb, best = Some (w, sb)) /\
    (forall c, c ∈ choices -> token_sort_ratio query c <= token_sort_ratio query w) /\
    (forall b sb, best = Some (b, sb) -> sb <= token_sort_ratio query w).
Proof.
  revert best. induction choices as [|c rest IH]; intros best Hbest Hne.
  - destruct best as [[b sb]|]; [|by destruct Hne].
    exists b. simpl. rewrite (Hbest b sb eq_refl). split; [done|].
    split; [right; eauto|]. split; [intros c Hc; by apply elem_of_nil in Hc|].
    intros ? ? [= <- <-]. apply Qle_refl.
  - simpl. set (score := token_sort_ratio query c).
    set (best' := match best with
                  | Some (_, best_score) =>
                      if Qlt_le_dec best_score score then Some (c, score) else best
                  | None => Some (c, score)
                  end).
    assert (exists w', best' = Some (w', token_sort_ratio query w') /\
                       (w' = c \/ exists sb, best = Some (w', sb)) /\
                       score <= token_sort_ratio query w' /\
                       (forall b sb, best = Some (b, sb) ->
                                     sb <= token_sort_ratio query w'))
      as (w' & Hb' & Hw' & Hsc & Hold).
    { unfold best'. destruct best as [[b sb]|].
      - destruct (Qlt_le_dec sb score) as [Hlt|Hle].
        + exists c. split; [done|]. split; [by left|]. split; [apply Qle_refl|].
          intros ? ? [= <- <-]. by apply Qlt_le_weak.
        + exists b. rewrite (Hbest b sb eq_refl) in *.
          split; [done|]. split; [right; eauto|]. split; [done|].
          intros ? ? [= <- <-]. apply Qle_refl.
      - exists c. split; [done|]. split; [by left|]. split; [apply Qle_refl|]. done. }
    destruct (Qeq_bool score 100) eqn:Hstop.
    + apply Qeq_bool_iff in Hstop.
      exists w'. split; [done|]. split.
      { destruct Hw' as [->|?]; [left; by left|by right]. }
      split; [|done].
      intros c' _. destruct (token_sort_ratio_range query c') as [_ Hmax]. lra.
    + destruct (IH best') as (w & Hres & Hw & Hall & Hbw).
      { intros b sb. rewrite Hb'. by intros [= <- <-]. }
      { rewrite Hb'. done. }
      exists w. split; [done|]. split.
      { destruct Hw as [Hw|[sb Hw]]; [left; by right|].
        rewrite Hb' in Hw. injection Hw as <- <-.
        destruct Hw' as [->|?]; [left; by left|by right]. }
      specialize (Hbw w' _ Hb'). split.
      * intros c' Hc'. apply elem_of_cons in Hc' as [->|Hc']; [|by apply Hall].
        fold score. lra.
      * intros b sb Hb. specialize (Hold b sb Hb). lra.
Qed.

Lemma extractOne_spec (query : string) (choices : list string) :
  choices <> [] ->
  exists w,
    extractOne (Some query) choices = Some (w, token_sort_ratio query w) /\
    w ∈ choices /\
    forall c, c ∈ choices -> token_sort_ratio query c <= token_sort_ratio query w.
Proof.
  intros Hne.
  destruct (extractOne_loop_spec query choices None) as (w & Hres & Hw & Hall & _);
    [done|done|].
  exists w. split; [done|]. split; [|done].
  by destruct Hw as [?|[? ?]].
Qed.

End MatcherFacts.

(** C3.  For a term and a vocabulary, [get_most_similar_word] returns
    the first vocabulary entry of highest token sort ratio when that ratio
    is strictly above [WORD_SIMILARITY_THRESHOLD], and [None] when it is
    at or below it; an empty vocabulary or an absent term gives [None]. *)
Theorem get_most_similar_word_spec `{!RapidFuzz, !Environ}
    (word : string) (vocabulary : list string) :
  get_most_similar_word (Some word) [] = None /\
  get_most_similar_word None vocabulary = None /\
  (vocabulary <> [] ->
   exists best,
     best ∈ vocabulary /\
     (forall v, v ∈ vocabulary ->
                (token_sort_ratio word v <= token_sort_ratio word best)%Q) /\
     ((inject_Z WORD_SIMILARITY_THRESHOLD < token_sort_ratio word best)%Q ->
      get_most_similar_word (Some word) vocabulary = Some best) /\
     ((token_sort_ratio word best <= inject_Z WORD_SIMILARITY_THRESHOLD)%Q ->
      get_most_similar_word (Some word) vocabulary = None)).
Proof.
  split; [done|]. split; [done|]. intros Hne.
  destruct (extractOne_spec word vocabulary Hne) as (best & Hres & Hin & Hmax).
  exists best. split; [done|]. split; [done|].
  unfold get_most_similar_word. rewrite Hres.
  destruct (Qlt_le_dec _ _) as [Hlt|Hle]; split; intros Hs; try done; lra.
Qed.

Section MatcherWitness.
Import Sample.

Lemma get_most_similar_word_spec_witness :
  get_most_similar_word (Some "Kyyiv") ["Kyiv"; "Lviv"] = Some "Kyiv" /\
  get_most_similar_word (Some "Zzzzzz") ["Kyiv"; "Lviv"] = None.
Proof.
  split.
  - destruct (get_most_similar_word_spec "Kyyiv" ["Kyiv"; "Lviv"])
      as (_ & _ & Hv).
    destruct (Hv ltac:(done)) as (best & Hin & Hmax & Hsome & _).
    assert (best = "Kyiv") as ->.
    { apply elem_of_cons in Hin as [->|Hin]; [done|].
      apply list_elem_of_singleton in Hin as ->.
      specialize (Hmax "Kyiv" ltac:(by left)). vm_compute in Hmax. by destruct Hmax. }
    apply Hsome. by vm_compute.
  - destruct (get_most_similar_word_spec "Zzzzzz" ["Kyiv"; "Lviv"])
      as (_ & _ & Hv).
    destruct (Hv ltac:(done)) as (best & Hin & _ & _ & Hnone).
    apply Hnone.
    apply elem_of_cons in Hin as [->|Hin]; [by vm_compute|].
    apply list_elem_of_singleton in Hin as ->. by vm_compute.
Defined.

End MatcherWitness.

(** ** Listing pages *)

Lemma elem_of_py_range (start stop step x : Z) :
  0 < step ->
  x ∈ py_range start stop step <->
  start <= x < stop /\ (x - start) mod step = 0.
Proof.
  intros Hstep. unfold py_range. rewrite list_elem_of_fmap. split.
  - intros (i & -> & Hi). apply elem_of_seq in Hi.
    replace (start + Z.of_nat i * step - start) with (Z.of_nat i * step) by lia.
    rewrite Z.mod_mul by lia. split; [|done].
    assert (Z.of_nat i < (stop - start + step - 1) / step) as Hlt by lia.
    assert (Z.of_nat i + 1 <= (stop - start + step - 1) / step) as Hle by lia.
    pose proof (Z.mul_div_le (stop - start + step - 1) step Hstep). nia.
  - intros [[Hlo Hhi] Hmod]. apply Z.mod_divide in Hmod as [k Hk]; [|lia].
    exists (Z.to_nat k). assert (0 <= k) by nia.
    split; [lia|]. apply elem_of_seq. split; [lia|]. simpl.
    assert (k + 1 <= (stop - start + step - 1) / step); [|lia].
    apply Z.div_le_lower_bound; [lia|]. nia.
Qed.

Lemma NoDup_py_range (start stop step : Z) :
  0 < step -> NoDup (py_range start stop step).
Proof.
  intros Hstep. unfold py_range. apply NoDup_fmap_2; [|apply NoDup_seq].
  intros i j Hij. nia.
Qed.

(** Page 1, the even pages and the odd pages from 3 on are the pages
    [1..total_pages], each once. *)
Lemma page_order_Permutation (total_pages : Z) :
  1 <= total_pages ->
  1 :: py_range 2 (total_pages + 1) 2 ++ py_range 3 (total_pages + 1) 2
  ≡ₚ seqZ 1 total_pages.
Proof.
  intros Ht. apply NoDup_Permutation.
  - apply NoDup_cons. split.
    + intros [H|H]%elem_of_app; apply elem_of_py_range in H; lia.
    + apply NoDup_app. repeat split; try (apply NoDup_py_range; lia).
      intros x. rewrite !elem_of_py_range by lia.
      intros [_ H2] [_ H3]. revert H2 H3. clear. Z.div_mod_to_equations. lia.
  - apply NoDup_seqZ.
  - intros x. rewrite elem_of_cons, elem_of_app, !elem_of_py_range, elem_of_seqZ by lia.
    split.
    + intros [->|[[? _]|[? _]]]; lia.
    + intros Hx. destruct (decide (x = 1)) as [->|Hne]; [by left|right].
      destruct (Z.eq_dec ((x - 2) mod 2) 0) as [He|Ho]; [left; lia|right].
      revert Ho. clear -Hx Hne. Z.div_mod_to_equations. lia.
Qed.

Section ListingFacts.
Context `{!Pydantic, !Requests, !Bs4, !Nltk, !RapidFuzz, !Builtins, !Environ}.
Import WorkUaParser.

Import Aux.

Lemma fetch_mapM_get_page (payload : gmap string pyval) (body : Z -> string)
    (pages : list Z) (log : list request) :
  (forall p, p ∈ pages -> requests_get (page_url payload p) = Ok (body p)) ->
  fetch_mapM (get_page payload) pages log
  = (log ++ (ListingPage <$> pages), Ok (body <$> pages)).
Proof.
  revert log. induction pages as [|p pages IH]; intros log Hget; simpl.
  - by rewrite app_nil_r.
  - unfold mbind, fetch_bind, get_page at 1.
    rewrite (Hget p) by by left.
    rewrite IH by (intros; apply Hget; by right).
    unfold mret, fetch_ret. by rewrite <- app_assoc.
Qed.

(** C4 (as amended).  When the first page announces [N] candidates,
    [0 < N < 2^52], the page count is [ceil(N / 14)] and, every listing
    request succeeding, [get_resume_pages] requests page 1, then the even
    pages, then the odd pages from 3 on: each of the pages
    [1..ceil(N / 14)] exactly once. *)
Theorem get_resume_pages_every_page_once
    (self : t) (params : SearchOptions) (payload : gmap string pyval)
    (body : Z -> string) (N : Z) (log : list request) :
  unpack_search_options self params = Ok payload ->
  get_total_candidates (body 1) = Ok N ->
  0 < N < 2 ^ 52 ->
  let total_pages := Qceiling (N # 14) in
  let order :=
    1 :: py_range 2 (total_pages + 1) 2 ++ py_range 3 (total_pages + 1) 2 in
  (forall p, 1 <= p <= total_pages ->
             requests_get (page_url payload p) = Ok (body p)) ->
  total_pages_of N = Ok total_pages /\
  get_resume_pages self params log
  = (log ++ (ListingPage <$> order), Ok (body <$> order)) /\
  order ≡ₚ seqZ 1 total_pages /\
  NoDup order.
Proof.
  intros Hpayload Htotal HN total_pages order Hget.
  assert (total_pages = (N + 13) / 14) as Hceil.
  { unfold total_pages, Qceiling, Qfloor, Qopp. simpl.
    Z.div_mod_to_equations. lia. }
  assert (1 <= total_pages) as Hpos.
  { rewrite Hceil. Z.div_mod_to_equations. lia. }
  assert (total_pages_of N = Ok total_pages) as Hpages.
  { rewrite Hceil. by apply Float64Facts.total_pages_of_exact. }
  assert (order ≡ₚ seqZ 1 total_pages) as Hperm
    by by apply page_order_Permutation.
  split; [done|]. split; [|split; [done|]].
  - unfold get_resume_pages, mbind, fetch_bind, lift.
    rewrite Hpayload. unfold get_page at 1.
    rewrite (Hget 1) by lia. rewrite Htotal, Hpages.
    assert (forall p, p ∈ order -> 1 <= p <= total_pages) as Hin.
    { intros p Hp. rewrite Hperm in Hp. apply elem_of_seqZ in Hp. lia. }
    rewrite (fetch_mapM_get_page payload body (py_range 2 (total_pages + 1) 2)).
    2:{ intros p Hp. apply Hget, Hin. right. apply elem_of_app. by left. }
    rewrite (fetch_mapM_get_page payload body (py_range 3 (total_pages + 1) 2)).
    2:{ intros p Hp. apply Hget, Hin. right. apply elem_of_app. by right. }
    unfold mret, fetch_ret, order.
    rewrite !fmap_cons, !fmap_app, <- !app_assoc. done.
  - rewrite Hperm. apply NoDup_seqZ.
Qed.

End ListingFacts.

Section ListingWitness.
Import Sample Aux.
#[local] Existing Instance requests_up.

Lemma get_resume_pages_every_page_once_witness :
  WorkUaParser.get_resume_pages work_ua_parser (search_for "java" None) []
  = ([ListingPage 1; ListingPage 2; ListingPage 3],
     Ok ["<listing java>"; "<listing java>"; "<listing java>"]).
Proof.
  destruct (get_resume_pages_every_page_once
              work_ua_parser (search_for "java" None)
              {[ "search" := PStr "java" ]} (fun _ => "<listing java>") 30 [])
    as (_ & Hpages & _).
  - reflexivity.
  - reflexivity.
  - split; reflexivity.
  - intros p Hp.
    assert (p = 1 \/ p = 2 \/ p = 3) as [->|[->| ->]]
      by (change (Qceiling (30 # 14)) with 3 in Hp; lia);
      reflexivity.
  - exact Hpages.
Defined.

(** C4, the counterexample: for [14 * 2^52 + 1] candidates the quotient
    by 14 rounds to [2^52] as a float, and [math.ceil] gives one page
    fewer than [ceil(N / 14)]. *)
Lemma total_pages_of_beyond_double_precision :
  let N := 14 * 2 ^ 52 + 1 in
  WorkUaParser.total_pages_of N = Ok (2 ^ 52) /\
  Qceiling (N # 14) = 2 ^ 52 + 1 /\
  WorkUaParser.total_pages_of N <> Ok (Qceiling (N # 14)).
Proof. vm_compute. repeat split; congruence. Qed.

End ListingWitness.

(** ** Parsing a resume page *)

(** Lookups in dictionaries given by their insertions. *)
Ltac map_lookups :=
  repeat first
    [ rewrite lookup_insert | rewrite lookup_singleton | rewrite lookup_empty
    | rewrite lookup_union | case_decide; subst ];
  try done; try congruence.

Section ParseFacts.
Context `{!Pydantic, !Requests, !Bs4, !Nltk, !RapidFuzz, !Builtins, !Environ}.
Import WorkUaParser Aux.

(** The score of a text is produced, and lies between 0 and 100. *)
Lemma filling_percentage_of_range (all_text : string) :
  exists z, filling_percentage_of all_text = Ok z /\ 0 <= z <= 100.
Proof.
  unfold filling_percentage_of.
  set (tokens := word_tokenize (PyStr.lower all_text)).
  set (meaningful := filter _ tokens).
  pose proof (length_filter _ tokens : (length meaningful <= length tokens)%nat) as Hle.
  destruct (Z.eqb_spec (Z.of_nat (length tokens)) 0) as [Hz|Hnz]; simpl.
  - exists 0. split; [done|lia].
  - apply Float64Facts.percentage_range; lia.
Qed.

Lemma add_position_spec (resume : gmap string pyval) (tag : position_tag)
    (l : list pyval) :
  resume !! "experience" = Some (PList l) ->
  add_position resume tag
  = <["experience" := PList (l ++ entries_of_tag tag)]> resume.
Proof.
  intros Hl. unfold add_position, entries_of_tag, experience_of_tag.
  destruct (position_details_tag tag) as [d|]; simpl.
  - unfold append_experience. apply map_eq. intros k.
    rewrite lookup_alter, lookup_insert. case_decide as Hk; [|done].
    subst k. by rewrite Hl.
  - rewrite app_nil_r. symmetry. by apply insert_id.
Qed.

Lemma foldl_add_position (section : list position_tag)
    (resume : gmap string pyval) (l : list pyval) :
  resume !! "experience" = Some (PList l) ->
  foldl add_position resume section
  = <["experience" :=
        PList (l ++ (experience_dict <$> omap experience_of_tag section))]> resume.
Proof.
  revert resume l. induction section as [|tag section IH]; intros resume l Hl; simpl.
  - rewrite app_nil_r. symmetry. by apply insert_id.
  - rewrite (add_position_spec resume tag l Hl).
    rewrite (IH _ (l ++ entries_of_tag tag)) by apply lookup_insert_eq.
    rewrite insert_insert_eq. do 2 f_equal.
    rewrite <- app_assoc. f_equal. unfold entries_of_tag.
    by destruct (experience_of_tag tag).
Qed.

(** What [parse_resume] returns: an [IndexError] when a salary is
    announced and nothing follows, and otherwise the dictionary of the
    page, the salary under the key ["salary expectation"]. *)
Lemma parse_resume_spec (html : string) :
  let s := BeautifulSoup html in
  exists z,
    filling_percentage_of (soup_get_text_stripped s) = Ok z /\
    0 <= z <= 100 /\
    parse_resume html =
      match salary_of s with
      | Some (Raise e) => Raise e
      | Some (Ok salary) =>
          Ok (<["salary expectation" := PStr salary]> (resume_dict s z))
      | None => Ok (resume_dict s z)
      end.
Proof.
  intros s.
  destruct (filling_percentage_of_range (soup_get_text_stripped s))
    as (z & Hz & Hrange).
  exists z. split; [done|]. split; [done|].
  unfold parse_resume, salary_of. fold s.
  set (base := ({[ "salary_expectation" := PStr ""; "experience" := PList [];
                   "filling_percentage" := PInt 0 ]} : gmap string pyval)).
  assert (forall resume : gmap string pyval,
            resume !! "experience" = Some (PList []) ->
            match work_experience_header s with
            | Some section => foldl add_position resume section
            | None => resume
            end
            = <["experience" := PList (experience_dict <$> experiences_of s)]> resume)
    as Hexp.
  { intros resume Hl. unfold experiences_of.
    destruct (work_experience_header s) as [section|].
    - by rewrite (foldl_add_position section resume [] Hl).
    - symmetry. by apply insert_id. }
  assert (<["filling_percentage" := PInt z]>
            (<["experience" := PList (experience_dict <$> experiences_of s)]> base)
          = resume_dict s z) as Hdict.
  { unfold base, resume_dict. apply map_eq. intros k.
    map_lookups. }
  destruct (description_meta s) as [content|]; simpl.
  2:{ rewrite Hz. simpl. by rewrite Hexp, Hdict. }
  destruct (PyStr.contains _ _); simpl.
  2:{ rewrite Hz. simpl. by rewrite Hexp, Hdict. }
  destruct (list_getitem _ 0) as [word|e]; simpl; [|done].
  rewrite Hz. simpl. rewrite Hexp by done.
  reflexivity.
Qed.

Lemma validate_optional_str_optional (o : option string) :
  validate_optional_str (optional_str o) = Ok o.
Proof.
  destruct o as [s|]; simpl; [|done]. by rewrite validate_str_str.
Qed.

Lemma validate_experience_dict (e : Experience) :
  validate_Experience (experience_dict e) = Ok e.
Proof.
  destruct e as [p d t]. unfold validate_Experience, experience_dict, Experience_init.
  simpl position; simpl duration; simpl details.
  assert (forall k v, (list_to_map [("position", optional_str p);
                                    ("duration", optional_str d);
                                    ("details", optional_str t)]
                        : gmap string pyval) !! k = Some v ->
                      field (list_to_map [("position", optional_str p);
                                          ("duration", optional_str d);
                                          ("details", optional_str t)]) k = Ok v)
    as Hfield by (intros k v Hk; unfold field; by rewrite Hk).
  rewrite (Hfield "position" (optional_str p)) by reflexivity.
  rewrite (Hfield "duration" (optional_str d)) by reflexivity.
  rewrite (Hfield "details" (optional_str t)) by reflexivity.
  simpl. by rewrite !validate_optional_str_optional.
Qed.

Lemma validate_experience_dicts (es : list Experience) :
  rmapM validate_Experience (experience_dict <$> es) = Ok es.
Proof.
  induction es as [|e es IH]; [done|].
  rewrite fmap_cons. change (rmapM validate_Experience (experience_dict e :: (experience_dict <$> es)))
    with (y ← validate_Experience (experience_dict e);
          ys ← rmapM validate_Experience (experience_dict <$> es); Ok (y :: ys)).
  by rewrite validate_experience_dict, IH.
Qed.

(** The record built from the dictionary of a page: the key
    ["salary expectation"] is not a field of [Resume] and is ignored. *)
Lemma Resume_init_parsed (s : soup) (z : Z) (link : string)
    (resume : gmap string pyval) :
  (resume = resume_dict s z \/
   exists salary, resume = <["salary expectation" := PStr salary]> (resume_dict s z)) ->
  Resume_init (resume ∪ {[ "href" := PStr (base_url ++ link) ]})
  = Ok (resume_of_page link s z).
Proof.
  intros Hresume. unfold Resume_init.
  assert (forall k v, (resume ∪ {[ "href" := PStr (base_url ++ link) ]}) !! k = Some v ->
                      field (resume ∪ {[ "href" := PStr (base_url ++ link) ]}) k = Ok v)
    as Hfield by (intros k v Hk; unfold field; by rewrite Hk).
  rewrite (Hfield "href" (PStr (base_url ++ link)))
    by (destruct Hresume as [->|[? ->]]; reflexivity).
  rewrite (Hfield "salary_expectation" (PStr ""))
    by (destruct Hresume as [->|[? ->]]; reflexivity).
  rewrite (Hfield "experience" (PList (experience_dict <$> experiences_of s)))
    by (destruct Hresume as [->|[? ->]]; reflexivity).
  rewrite (Hfield "filling_percentage" (PInt z))
    by (destruct Hresume as [->|[? ->]]; reflexivity).
  simpl. rewrite !validate_str_str, validate_int_int. simpl.
  by rewrite validate_experience_dicts.
Qed.

(** The loop over the fetched pages: the record of the page at index [k]
    takes the link at index [i - 1 + k] of [hrefs]. *)
Lemma parse_resumes_spec (hrefs : list string) (i : nat) (resume_htmls : list string)
    (resumes : list Resume) :
  (1 <= i)%nat ->
  parse_resumes hrefs i resume_htmls = Ok resumes ->
  length resumes = length resume_htmls /\
  forall k r,
    resumes !! k = Some r ->
    exists html link z,
      resume_htmls !! k = Some html /\
      hrefs !! (i - 1 + k)%nat = Some link /\
      filling_percentage_of (soup_get_text_stripped (BeautifulSoup html)) = Ok z /\
      0 <= z <= 100 /\
      r = resume_of_page link (BeautifulSoup html) z.
Proof.
  revert i resumes.
  induction resume_htmls as [|html rest IH]; intros i resumes Hi; simpl.
  - intros [= <-]. split; [done|]. intros k r Hk. by rewrite lookup_nil in Hk.
  - destruct (parse_resume_spec html) as (z & Hz & Hrange & Hparse).
    rewrite Hparse. clear Hparse.
    set (s := BeautifulSoup html) in *.
    assert ((exists resume : gmap string pyval,
              (resume = resume_dict s z \/
               exists salary, resume = <["salary expectation" := PStr salary]>
                                      (resume_dict s z)) /\
              match salary_of s with
              | Some (Ok salary) =>
                  Ok (<["salary expectation" := PStr salary]> (resume_dict s z))
              | Some (Raise e) => Raise e
              | None => Ok (resume_dict s z)
              end = Ok resume) \/
              exists e, match salary_of s with
                        | Some (Ok salary) =>
                            Ok (<["salary expectation" := PStr salary]> (resume_dict s z))
                        | Some (Raise e) => Raise e
                        | None => Ok (resume_dict s z)
                        end = Raise e) as [(resume & Hresume & ->)|[e ->]].
    { destruct (salary_of s) as [[salary|e]|]; eauto 8. }
    2:{ done. }
    simpl. rewrite bool_decide_eq_false_2.
    2:{ apply map_size_non_empty_iff.
        destruct Hresume as [->|[? ->]]; apply insert_non_empty. }
    unfold list_getitem. destruct (hrefs !! (i - 1)%nat) as [link|] eqn:Hlink; [|done].
    simpl. rewrite (Resume_init_parsed _ z link resume Hresume). simpl.
    destruct (parse_resumes hrefs (S i) rest) as [rs|] eqn:Hrest; [|done].
    simpl. intros [= <-]. destruct (IH (S i) rs ltac:(lia) Hrest) as [Hlen Hrs].
    split; [simpl; by rewrite Hlen|].
    intros [|k] r Hk; simpl in Hk.
    + injection Hk as <-. exists html, link, z. by rewrite Nat.add_0_r.
    + destruct (Hrs k r Hk) as (html' & link' & z' & ? & Hl' & ?).
      exists html', link', z'. split; [done|]. split; [|done].
      rewrite <- Hl'. f_equal. lia.
Qed.

Lemma fetch_details (hrefs : list string) (log log' : list request)
    (fetched : list (option string)) :
  fetch_mapM get_resume_html_from_href hrefs log = (log', Ok fetched) ->
  log' = log ++ (DetailPage <$> hrefs) /\
  Forall2 (fun link o => detail_page link = Ok o) hrefs fetched.
Proof.
  revert log fetched. induction hrefs as [|link hrefs IH]; intros log fetched; simpl.
  - unfold mret, fetch_ret. intros [= <- <-]. by rewrite app_nil_r.
  - unfold mbind, fetch_bind, get_resume_html_from_href at 1.
    fold (detail_page link). destruct (detail_page link) as [o|] eqn:Hd; [|done].
    destruct (fetch_mapM _ hrefs _) as [log1 [os|]] eqn:Hrest; [|done].
    unfold mret, fetch_ret. intros [= <- <-].
    destruct (IH _ _ Hrest) as [-> Hall].
    split; [by rewrite <- app_assoc|]. by constructor.
Qed.

Lemma kept_pages_htmls (hrefs : list string) (fetched : list (option string)) :
  length hrefs = length fetched ->
  omap fetched_html fetched = (kept_pages hrefs fetched).*2.
Proof.
  revert fetched. induction hrefs as [|link hrefs IH]; intros [|o fetched] Hlen;
    try done. simpl in Hlen. specialize (IH fetched ltac:(lia)).
  unfold kept_pages in *. simpl.
  destruct (fetched_html o) eqn:Ho; simpl; [f_equal|]; exact IH.
Qed.

(** What a successful [search_resumes] went through. *)
Lemma search_resumes_inv (self : t) (params : SearchOptions)
    (log log' : list request) (resumes : list Resume) :
  search_resumes self params log = (log', Ok resumes) ->
  exists page_htmls fetched,
    let hrefs := concat (map get_resume_href_from_html page_htmls) in
    (get_resume_pages self params log).2 = Ok page_htmls /\
    Forall2 (fun link o => detail_page link = Ok o) hrefs fetched /\
    parse_resumes hrefs 1 (kept_pages hrefs fetched).*2 = Ok resumes.
Proof.
  unfold search_resumes, mbind, fetch_bind.
  destruct (get_resume_pages self params log) as [log1 [page_htmls|]]; [|done].
  destruct (fetch_mapM _ _ log1) as [log2 [fetched|]] eqn:Hfetch; [|done].
  unfold lift. intros [= <- Hparse].
  destruct (fetch_details _ _ _ _ Hfetch) as [_ Hall].
  exists page_htmls, fetched. simpl. split; [done|]. split; [done|].
  rewrite <- kept_pages_htmls; [done|]. by eapply Forall2_length.
Qed.

End ParseFacts.

(** ** Unpacking a document of the API *)

Section RobotaFacts.
Context `{!Pydantic, !Requests, !RapidFuzz, !Builtins, !Environ}.
Import RobotaUaParser Aux.

Lemma field_lookup (kw : gmap string pyval) (k : string) (v : pyval) :
  kw !! k = Some v -> field kw k = Ok v.
Proof. intros Hk. unfold field. by rewrite Hk. Qed.

(** The score of a record is the validated [fillingPercentage] of its
    document, whatever its value. *)
Lemma resume_of_document_filling (doc : pyval) (r : Resume) :
  resume_of_document doc = Ok r ->
  exists v, py_getitem doc "fillingPercentage" = Ok v /\
            validate_int v = Ok (filling_percentage r).
Proof.
  unfold resume_of_document, unpack_resume_from_response.
  destruct (py_getitem doc "resumeId") as [id|]; [simpl|done].
  destruct (py_getitem doc "salary") as [sal|]; [simpl|done].
  destruct (format_salary_expectation sal) as [salary|]; [simpl|done].
  destruct (py_getitem doc "experience") as [ev|]; [simpl|done].
  destruct (py_iter ev) as [exps|]; [simpl|done].
  destruct (rmapM unpack_experience exps) as [es|]; [simpl|done].
  destruct (py_getitem doc "fillingPercentage") as [v|]; [simpl|done].
  unfold Resume_init.
  rewrite (field_lookup _ "href" (PStr (base_url ++ "/candidates/" ++ py_format id)))
    by reflexivity.
  rewrite (field_lookup _ "salary_expectation" (PStr salary)) by reflexivity.
  rewrite (field_lookup _ "experience" (PList es)) by reflexivity.
  rewrite (field_lookup _ "filling_percentage" v) by reflexivity.
  simpl. rewrite !validate_str_str. simpl.
  destruct (rmapM validate_Experience es) as [es'|]; [simpl|done].
  destruct (validate_int v) as [z|] eqn:Hv; [simpl|done].
  intros [= <-]. by exists v.
Qed.

(** A document missing one of its keys is an error. *)
Lemma resume_of_document_missing_salary (items : list (string * pyval)) (id : pyval) :
  dict_get items "resumeId" = Some id ->
  dict_get items "salary" = None ->
  resume_of_document (PDict items) = Raise (KeyError "salary").
Proof.
  intros Hid Hsal. unfold resume_of_document, unpack_resume_from_response.
  simpl. unfold dict_getitem. by rewrite Hid, Hsal.
Qed.

Lemma unpack_experiences (exps : list pyval) (es : list Experience) :
  Forall2 entry_has exps es ->
  rmapM unpack_experience exps = Ok (Aux.experience_dict <$> es).
Proof.
  induction 1 as [|exp e exps es (Hp & Hd & Hc) _ IH]; [done|].
  change (rmapM unpack_experience (exp :: exps))
    with (y ← unpack_experience exp; ys ← rmapM unpack_experience exps; Ok (y :: ys)).
  rewrite IH. unfold unpack_experience. by rewrite Hp, Hd, Hc.
Qed.

(** A document with all its keys, the salary a string, the score an
    integer and the roles strings or [null], gives its record. *)
Lemma resume_of_document_complete (items : list (string * pyval)) (id : pyval)
    (salary : string) (exps : list pyval) (es : list Experience) (z : Z) :
  dict_get items "resumeId" = Some id ->
  dict_get items "salary" = Some (PStr salary) ->
  dict_get items "experience" = Some (PList exps) ->
  Forall2 entry_has exps es ->
  dict_get items "fillingPercentage" = Some (PInt z) ->
  resume_of_document (PDict items)
  = Ok {| href := base_url ++ "/candidates/" ++ py_format id;
          salary_expectation :=
            Some (PyStr.replace PyStr.nbsp " " (PyStr.strip salary));
          experience := Some es;
          filling_percentage := z |}.
Proof.
  intros Hid Hsal Hexp Hes Hfill.
  unfold resume_of_document, unpack_resume_from_response.
  simpl. unfold dict_getitem. rewrite Hid, Hsal, Hexp, Hfill. simpl.
  rewrite (unpack_experiences exps es Hes). simpl.
  unfold Resume_init.
  rewrite (field_lookup _ "href" (PStr (base_url ++ "/candidates/" ++ py_format id)))
    by reflexivity.
  rewrite (field_lookup _ "salary_expectation"
             (PStr (PyStr.replace PyStr.nbsp " " (PyStr.strip salary)))) by reflexivity.
  rewrite (field_lookup _ "experience" (PList (Aux.experience_dict <$> es)))
    by reflexivity.
  rewrite (field_lookup _ "filling_percentage" (PInt z)) by reflexivity.
  simpl. rewrite !validate_str_str, validate_int_int. simpl.
  by rewrite validate_experience_dicts.
Qed.

End RobotaFacts.

(** ** The completeness score *)

Section ScoreClaims.
Context `{!Nltk}.
Import WorkUaParser Aux.

(** C2 (as amended).  The score of a text with [t] tokens, [m] of them
    meaningful, is an integer between 0 and 100; it is 0 when there are
    no tokens; and for fewer than [2^44] tokens it is an integer nearest
    to [100 * m / t]: at most one half away from it. *)
Theorem filling_percentage_of_nearest (all_text : string) :
  let tokens := word_tokenize (PyStr.lower all_text) in
  let t := Z.of_nat (length tokens) in
  let m := Z.of_nat (length (filter meaningful tokens)) in
  exists score,
    filling_percentage_of all_text = Ok score /\
    0 <= score <= 100 /\
    (t = 0 -> score = 0) /\
    (m = 0 -> score = 0) /\
    (0 < t < 2 ^ 44 ->
     (Qabs (inject_Z score - 100 * (m # Z.to_pos t)) <= 1 # 2)%Q).
Proof.
  intros tokens t m.
  assert (0 <= m <= t) as Hm.
  { unfold m, t. pose proof (length_filter meaningful tokens). lia. }
  unfold filling_percentage_of. fold tokens.
  change (filter _ tokens) with (filter meaningful tokens). fold t m.
  destruct (Z.eqb_spec t 0) as [Hz|Hnz]; simpl.
  - exists 0. repeat split; try done; lia.
  - destruct (Z.eq_dec m 0) as [Hm0|Hm0].
    + exists 0. rewrite Hm0.
      split; [apply Float64Facts.percentage_zero; lia|].
      repeat split; try done; try lia.
    + destruct (Z_lt_le_dec t (2 ^ 44)) as [Hsmall|Hbig].
      * destruct (Float64Facts.percentage_nearest m t) as (score & Hs & Hnear);
          [lia|lia|].
        destruct (Float64Facts.percentage_range m t) as (score' & Hs' & Hrange);
          [lia|lia|].
        rewrite Hs in Hs'. injection Hs' as <-.
        exists score. repeat split; try done; try lia.
      * destruct (Float64Facts.percentage_range m t) as (score & Hs & Hrange);
          [lia|lia|].
        exists score. repeat split; try done; try lia.
Qed.

End ScoreClaims.

Section ScoreWitness.
Import Sample WorkUaParser Aux.

Lemma filling_percentage_of_nearest_witness :
  exists score,
    filling_percentage_of "Data analyst of the team" = Ok score /\
    (Qabs (inject_Z score - 100 * (3 # 5)) <= 1 # 2)%Q.
Proof.
  destruct (filling_percentage_of_nearest "Data analyst of the team")
    as (score & Hs & _ & _ & _ & Hnear).
  exists score. split; [exact Hs|]. apply Hnear. vm_compute. split; reflexivity.
Defined.

(** C2, the counterexample: 115 meaningful tokens out of 200 score 57,
    where [100 * 115 / 200 = 57.5] rounds to 58 (to even and upwards
    alike): the quotient [115 / 200] is rounded to binary64 before it is
    scaled, and the product falls below the tie. *)
Lemma filling_percentage_of_tie :
  let tokens := word_tokenize (PyStr.lower tie_text) in
  let t := Z.of_nat (length tokens) in
  let m := Z.of_nat (length (filter meaningful tokens)) in
  t = 200 /\ m = 115 /\
  filling_percentage_of tie_text = Ok 57 /\
  spec_score m t = 58 /\
  spec_score_half_up m t = 58 /\
  filling_percentage_of tie_text <> Ok (spec_score m t).
Proof. vm_compute. repeat split; congruence. Qed.

End ScoreWitness.

(** ** The records of the two adapters *)

Section RecordClaims.
Context `{!Pydantic, !Requests, !Bs4, !Nltk, !RapidFuzz, !Builtins, !Environ}.
Import Aux.

(** Every record [WorkUaParser.search_resumes] returns is the record of a
    fetched page, under the listing link of the same index. *)
Lemma search_resumes_records (self : WorkUaParser.t) (params : SearchOptions)
    (log log' : list request) (resumes : list Resume) :
  WorkUaParser.search_resumes self params log = (log', Ok resumes) ->
  exists hrefs fetched,
    Forall2 (fun link o => detail_page link = Ok o) hrefs fetched /\
    length resumes = length (kept_pages hrefs fetched) /\
    forall k r,
      resumes !! k = Some r ->
      exists origin html link z,
        kept_pages hrefs fetched !! k = Some (origin, html) /\
        hrefs !! k = Some link /\
        0 <= z <= 100 /\
        r = resume_of_page link (BeautifulSoup html) z.
Proof.
  intros Hsearch.
  destruct (search_resumes_inv _ _ _ _ _ Hsearch)
    as (page_htmls & fetched & _ & Hall & Hparse).
  set (hrefs := concat (map WorkUaParser.get_resume_href_from_html page_htmls)) in *.
  destruct (parse_resumes_spec hrefs 1 _ resumes ltac:(lia) Hparse) as [Hlen Hrs].
  exists hrefs, fetched. split; [done|].
  rewrite length_fmap in Hlen. split; [done|].
  intros k r Hk. destruct (Hrs k r Hk) as (html & link & z & Hhtml & Hlink & _ & Hz & ->).
  rewrite list_lookup_fmap in Hhtml.
  destruct (kept_pages hrefs fetched !! k) as [[origin html']|] eqn:Hkept; [|done].
  simpl in Hhtml. injection Hhtml as ->.
  simpl in Hlink. by exists origin, html, link, z.
Qed.

(** C5 (as amended).  Every record of the document-scraping adapter has
    a [filling_percentage] between 0 and 100, and so has the dictionary
    [parse_resume] returns; a record of the API adapter has the validated
    [fillingPercentage] of its document, an integer of the response taken
    as it is. *)
Theorem filling_percentage_invariant :
  (forall html d,
     WorkUaParser.parse_resume html = Ok d ->
     exists z, d !! "filling_percentage" = Some (PInt z) /\ 0 <= z <= 100) /\
  (forall self params log log' resumes r,
     WorkUaParser.search_resumes self params log = (log', Ok resumes) ->
     r ∈ resumes -> 0 <= filling_percentage r <= 100) /\
  (forall doc r,
     RobotaUaParser.resume_of_document doc = Ok r ->
     exists v, py_getitem doc "fillingPercentage" = Ok v /\
               validate_int v = Ok (filling_percentage r)) /\
  (forall doc r z,
     RobotaUaParser.resume_of_document doc = Ok r ->
     py_getitem doc "fillingPercentage" = Ok (PInt z) ->
     filling_percentage r = z).
Proof.
  split; [|split; [|split]].
  - intros html d Hd.
    destruct (parse_resume_spec html) as (z & _ & Hz & Hparse).
    rewrite Hd in Hparse. exists z. split; [|done].
    destruct (salary_of (BeautifulSoup html)) as [[salary|e]|];
      try done; by injection Hparse as ->.
  - intros self params log log' resumes r Hsearch Hr.
    destruct (search_resumes_records _ _ _ _ _ Hsearch) as (hrefs & fetched & _ & _ & Hrs).
    apply list_elem_of_lookup in Hr as [k Hk].
    destruct (Hrs k r Hk) as (? & ? & ? & z & _ & _ & Hz & ->). done.
  - apply resume_of_document_filling.
  - intros doc r z Hr Hz.
    destruct (resume_of_document_filling doc r Hr) as (v & Hv & Hvalid).
    rewrite Hz in Hv. injection Hv as <-.
    rewrite validate_int_int in Hvalid. by injection Hvalid.
Qed.

(** C9.  The salary a page names is stored under the key
    ["salary expectation"], the key ["salary_expectation"] keeps its
    initial empty string, and so the record made of the page, and every
    record [search_resumes] returns, has the empty string for its
    [salary_expectation]. *)
Theorem salary_expectation_always_empty :
  (forall html d,
     WorkUaParser.parse_resume html = Ok d ->
     d !! "salary_expectation" = Some (PStr "") /\
     (forall salary,
        salary_of (BeautifulSoup html) = Some (Ok salary) ->
        d !! "salary expectation" = Some (PStr salary)) /\
     (forall link,
        exists r,
          Resume_init (d ∪ {[ "href" := PStr (WorkUaParser.base_url ++ link) ]}) = Ok r /\
          salary_expectation r = Some "")) /\
  (forall self params log log' resumes r,
     WorkUaParser.search_resumes self params log = (log', Ok resumes) ->
     r ∈ resumes -> salary_expectation r = Some "").
Proof.
  split.
  - intros html d Hd.
    destruct (parse_resume_spec html) as (z & _ & _ & Hparse).
    rewrite Hd in Hparse.
    destruct (salary_of (BeautifulSoup html)) as [[salary|e]|]; try done;
      injection Hparse as ->.
    + split; [done|]. split; [by intros ? [= <-]|].
      intros link. exists (resume_of_page link (BeautifulSoup html) z).
      split; [apply Resume_init_parsed; eauto|reflexivity].
    + split; [done|]. split; [done|].
      intros link. exists (resume_of_page link (BeautifulSoup html) z).
      split; [apply Resume_init_parsed; eauto|reflexivity].
  - intros self params log log' resumes r Hsearch Hr.
    destruct (search_resumes_records _ _ _ _ _ Hsearch) as (hrefs & fetched & _ & _ & Hrs).
    apply list_elem_of_lookup in Hr as [k Hk].
    destruct (Hrs k r Hk) as (? & ? & ? & z & _ & _ & Hz & ->). done.
Qed.

(** C6 (as amended).  In the document-scraping adapter every page gives
    its record, except a page whose description has nothing but white
    space after its last ["salary starting at"], on which [parse_resume]
    raises [IndexError].  Whether the description is missing, names no
    salary or names one, the record has the empty string for its salary;
    its experience is empty when the page has no experience section and
    otherwise has one role for each heading that has its paragraph, a
    heading without paragraph being left out and a missing duration being
    [None].  In the API adapter a document gives its record when every key
    is there, the salary a string and each field of a role a string or
    [null] ([null] becomes [None]); a document without its [salary] key
    is a [KeyError]. *)
Theorem optional_fields :
  (forall html link,
     let s := BeautifulSoup html in
     (forall content,
        description_meta s = Some content ->
        PyStr.contains "salary starting at" (default "" content) = true ->
        PyStr.split_whitespace
          (List.last (PyStr.split "salary starting at" (default "" content)) "")
        <> []) ->
     exists d r,
       WorkUaParser.parse_resume html = Ok d /\
       Resume_init (d ∪ {[ "href" := PStr (WorkUaParser.base_url ++ link) ]})
       = Ok r /\
       href r = (WorkUaParser.base_url ++ link)%string /\
       salary_expectation r = Some "" /\
       0 <= filling_percentage r <= 100 /\
       experience r
       = Some
           match work_experience_header s with
           | None => []
           | Some experience_section =>
               omap (fun tag =>
                       match position_details_tag tag with
                       | None => None
                       | Some details_tag =>
                           let duration :=
                             WorkUaParser.format_experience_detail
                               <$> duration_tag details_tag in
                           Some {| position := Some (PyStr.strip (position_text tag));
                                   duration := duration;
                                   details :=
                                     Some (WorkUaParser.format_experience_detail
                                             (PyStr.replace
                                                (default "" duration) ""
                                                (details_get_text details_tag))) |}
                       end)
                    experience_section
           end) /\
  (forall html content,
     description_meta (BeautifulSoup html) = Some content ->
     PyStr.contains "salary starting at" (default "" content) = true ->
     PyStr.split_whitespace
       (List.last (PyStr.split "salary starting at" (default "" content)) "")
     = [] ->
     WorkUaParser.parse_resume html = Raise IndexError) /\
  (forall items id salary exps es z,
     dict_get items "resumeId" = Some id ->
     dict_get items "salary" = Some (PStr salary) ->
     dict_get items "experience" = Some (PList exps) ->
     Forall2 entry_has exps es ->
     dict_get items "fillingPercentage" = Some (PInt z) ->
     RobotaUaParser.resume_of_document (PDict items)
     = Ok {| href := RobotaUaParser.base_url ++ "/candidates/" ++ py_format id;
             salary_expectation :=
               Some (PyStr.replace PyStr.nbsp " " (PyStr.strip salary));
             experience := Some es;
             filling_percentage := z |}) /\
  (forall items id,
     dict_get items "resumeId" = Some id ->
     dict_get items "salary" = None ->
     RobotaUaParser.resume_of_document (PDict items) = Raise (KeyError "salary")).
Proof.
  split; [|split; [|split]].
  - intros html link s Hsalary.
    destruct (parse_resume_spec html) as (z & _ & Hz & Hparse).
    fold s in Hparse.
    assert (forall e, salary_of s <> Some (Raise e)) as Hnoraise.
    { intros e. unfold salary_of.
      destruct (description_meta s) as [content|] eqn:Hmeta; [|done].
      destruct (PyStr.contains _ _) eqn:Hcontains; [|done].
      specialize (Hsalary content eq_refl Hcontains). unfold list_getitem.
      by destruct (PyStr.split_whitespace _). }
    assert (exists d,
              WorkUaParser.parse_resume html = Ok d /\
              (d = resume_dict s z \/
               exists salary,
                 d = <["salary expectation" := PStr salary]> (resume_dict s z)))
      as (d & Hd & Hshape).
    { destruct (salary_of s) as [[salary|e]|].
      - eexists. split; [exact Hparse|]. right. by exists salary.
      - by destruct (Hnoraise e).
      - eexists. split; [exact Hparse|]. by left. }
    exists d, (resume_of_page link s z).
    split; [exact Hd|]. split; [by apply Resume_init_parsed|].
    split; [reflexivity|]. split; [reflexivity|]. split; [exact Hz|].
    reflexivity.
  - intros html content Hmeta Hcontains Hnothing.
    destruct (parse_resume_spec html) as (z & _ & _ & ->).
    unfold salary_of. rewrite Hmeta, Hcontains, Hnothing. reflexivity.
  - apply resume_of_document_complete.
  - apply resume_of_document_missing_salary.
Qed.

End RecordClaims.

Section RecordWitnesses.
Import Sample Aux.
#[local] Existing Instance requests_up.

Lemma filling_percentage_invariant_witness :
  0 <= 85 <= 100 /\
  exists r,
    RobotaUaParser.resume_of_document (robota_document (PInt 85)) = Ok r /\
    filling_percentage r = 85.
Proof.
  split; [lia|].
  destruct filling_percentage_invariant as (_ & _ & _ & Hapi).
  exists {| href := "https://robota.ua/candidates/7";
            salary_expectation := Some "1000 USD";
            experience := Some [ {| position := Some "QA engineer";
                                    duration := Some "1 year";
                                    details := None |} ];
            filling_percentage := 85 |}.
  assert (RobotaUaParser.resume_of_document (robota_document (PInt 85))
          = Ok {| href := "https://robota.ua/candidates/7";
                  salary_expectation := Some "1000 USD";
                  experience := Some [ {| position := Some "QA engineer";
                                          duration := Some "1 year";
                                          details := None |} ];
                  filling_percentage := 85 |}) as Hdoc
    by (vm_compute; reflexivity).
  split; [exact Hdoc|].
  apply (Hapi (robota_document (PInt 85)) _ 85 Hdoc). vm_compute. reflexivity.
Defined.

(** C5, the counterexample: a document of the API whose
    [fillingPercentage] is 150 gives a record of score 150. *)
Lemma filling_percentage_out_of_range :
  exists r,
    RobotaUaParser.resume_of_document (robota_document (PInt 150)) = Ok r /\
    ~ (0 <= filling_percentage r <= 100).
Proof.
  exists {| href := "https://robota.ua/candidates/7";
            salary_expectation := Some "1000 USD";
            experience := Some [ {| position := Some "QA engineer";
                                    duration := Some "1 year";
                                    details := None |} ];
            filling_percentage := 150 |}.
  split; [vm_compute; reflexivity|]. simpl. lia.
Qed.

Lemma salary_expectation_always_empty_witness :
  let d := <["salary expectation" := PStr "5000"]>
             (resume_dict (BeautifulSoup "<resume 2>") 92) in
  WorkUaParser.parse_resume "<resume 2>" = Ok d /\
  salary_of (BeautifulSoup "<resume 2>") = Some (Ok "5000") /\
  d !! "salary expectation" = Some (PStr "5000") /\
  d !! "salary_expectation" = Some (PStr "").
Proof.
  intros d.
  assert (WorkUaParser.parse_resume "<resume 2>" = Ok d) as Hd
    by (vm_compute; reflexivity).
  assert (salary_of (BeautifulSoup "<resume 2>") = Some (Ok "5000")) as Hsal
    by (vm_compute; reflexivity).
  destruct salary_expectation_always_empty as [Hparse _].
  destruct (Hparse "<resume 2>" d Hd) as (Hempty & Htypo & _).
  split; [exact Hd|]. split; [exact Hsal|].
  split; [exact (Htypo "5000" Hsal)|exact Hempty].
Defined.

Lemma optional_fields_witness :
  exists d r,
    WorkUaParser.parse_resume "<resume 2>" = Ok d /\
    Resume_init (d ∪ {[ "href" := PStr (WorkUaParser.base_url ++ "/resumes/2/") ]})
    = Ok r /\
    salary_expectation r = Some "" /\
    experience r
    = Some [ {| position := Some "Backend developer";
                duration := Some "2 years";
                details := Some "Acme" |};
             {| position := Some "Intern";
                duration := None;
                details := Some "Initech" |} ].
Proof.
  destruct optional_fields as (Hwork & _).
  destruct (Hwork "<resume 2>" "/resumes/2/")
    as (d & r & Hd & Hr & _ & Hsalary & _ & Hexperience).
  - intros content Hmeta _. vm_compute in Hmeta. injection Hmeta as <-.
    vm_compute. intros Hwords. discriminate Hwords.
  - exists d, r. split; [exact Hd|]. split; [exact Hr|].
    split; [exact Hsalary|]. rewrite Hexperience. vm_compute. reflexivity.
Defined.

(** C6, the counterexample: a document of the API that has no [salary]
    gives no record. *)
Lemma missing_salary_raises :
  RobotaUaParser.resume_of_document robota_document_without_salary
  = Raise (KeyError "salary").
Proof. vm_compute. reflexivity. Qed.

(** C10.  The first of two listing links cannot be fetched and the
    second can: the one record returned is made of the page of
    ["/resumes/2/"] and carries the address of ["/resumes/1/"]. *)
Theorem search_resumes_href_of_dropped_link :
  let search := @WorkUaParser.search_resumes
                  pydantic requests_first_resume_down bs4 nltk rapidfuzz
                  builtins environ in
  @detail_page requests_first_resume_down environ "/resumes/1/" = Ok None /\
  @detail_page requests_first_resume_down environ "/resumes/2/"
  = Ok (Some "<resume 2>") /\
  search work_ua_parser (search_for "python" None) []
  = ([ListingPage 1; DetailPage "/resumes/1/"; DetailPage "/resumes/2/"],
     Ok [resume_of_page "/resumes/1/" (BeautifulSoup "<resume 2>") 92]) /\
  href (resume_of_page "/resumes/1/" (BeautifulSoup "<resume 2>") 92)
  <> (WorkUaParser.base_url ++ "/resumes/2/")%string.
Proof. vm_compute. repeat split; congruence. Qed.

End RecordWitnesses.

(** ** Outcomes and loops *)


Lemma bind_ok {A B} (m : result A) (k : A -> result B) (b : B) :
  mbind k m = Ok b -> exists a, m = Ok a /\ k a = Ok b.
Proof. destruct m as [a|e']; simpl; [by exists a|done]. Qed.


Lemma rmapM_ok {A B} (f : A -> result B) (l : list A) (ys : list B) :
  rmapM f l = Ok ys -> Forall2 (fun x y => f x = Ok y) l ys.
Proof.
  revert ys. induction l as [|x l IH]; simpl; intros ys.
  - intros [= <-]. constructor.
  - intros (y & Hy & (ys' & Hys & [= <-])%bind_ok)%bind_ok.
    constructor; [done|by apply IH].
Qed.


Lemma omap_length_le {A B} (f : A -> option B) (l : list A) :
  (length (omap f l) <= length l)%nat.
Proof.
  induction l as [|x l IH]; [done|].
  change (omap f (x :: l)) with
    (match f x with Some y => y :: omap f l | None => omap f l end).
  destruct (f x); simpl; lia.
Qed.

Lemma rmapM_Forall2 {A B} (f : A -> result B) (l : list A) (ys : list B) :
  Forall2 (fun x y => f x = Ok y) l ys -> rmapM f l = Ok ys.
Proof.
  induction 1 as [|x y l ys Hx _ IH]; simpl; [done|].
  by rewrite Hx, IH.
Qed.

Lemma rmapM_first_raise {A B} (f : A -> result B) (before after : list A)
    (x : A) (e : py_error) :
  Forall (fun x => is_ok (f x)) before ->
  f x = Raise e ->
  rmapM f (before ++ x :: after) = Raise e.
Proof.
  intros Hbefore Hx. induction Hbefore as [|x' before [y Hy] _ IH]; simpl.
  - by rewrite Hx.
  - by rewrite Hy, IH.
Qed.

(** ** Lookups that cannot miss *)

Section LookupFacts.
Context `{!RapidFuzz, !Builtins, !Environ}.

Lemma dict_get_key (d : list (string * pyval)) (k : string) :
  k ∈ dict_keys d -> exists v, dict_get d k = Some v.
Proof.
  unfold dict_keys. induction d as [|[k' v] d IH]; simpl.
  - by intros ?%elem_of_nil.
  - destruct (String.eqb_spec k' k) as [->|Hne]; [by exists v|].
    intros [?|?]%elem_of_cons; [congruence|by apply IH].
Qed.

Lemma get_most_similar_word_elem (word : option string)
    (vocabulary : list string) (matched : string) :
  get_most_similar_word word vocabulary = Some matched ->
  matched ∈ vocabulary.
Proof.
  unfold get_most_similar_word.
  destruct word as [query|]; [|done].
  destruct vocabulary as [|c vocabulary]; [done|].
  destruct (extractOne_spec query (c :: vocabulary)) as (w & -> & Hw & _); [done|].
  destruct (Qlt_le_dec _ _); [|done]. by intros [= <-].
Qed.

Lemma work_ua_region_stage (self : WorkUaParser.t) (r : string)
    (payload : gmap string pyval) :
  exists v,
    match get_most_similar_word (Some r) (dict_keys (WorkUaParser.REGIONS self)) with
    | Some matched =>
        if PyStr.truthy matched
        then v ← dict_getitem (WorkUaParser.REGIONS self) matched;
             Ok (<["region" := v]> payload)
        else Ok (<["region" := PNone]> payload)
    | None => Ok (<["region" := PNone]> payload)
    end = Ok (<["region" := v]> payload).
Proof.
  destruct (get_most_similar_word _ _) as [matched|] eqn:Hm; [|by exists PNone].
  destruct (PyStr.truthy matched); [|by exists PNone].
  apply get_most_similar_word_elem, dict_get_key in Hm as [v Hv].
  exists v. unfold dict_getitem. by rewrite Hv.
Qed.

Lemma robota_ua_region_stage (self : RobotaUaParser.t) (params : SearchOptions) :
  exists region_id,
    match get_most_similar_word (region params)
            (dict_keys (RobotaUaParser.REGIONS self)) with
    | Some name =>
        if PyStr.truthy name
        then dict_getitem (RobotaUaParser.REGIONS self) name else Ok PNone
    | None => Ok PNone
    end = Ok region_id.
Proof.
  destruct (get_most_similar_word _ _) as [name|] eqn:Hm; [|by exists PNone].
  destruct (PyStr.truthy name); [|by exists PNone].
  apply get_most_similar_word_elem, dict_get_key in Hm as [v Hv].
  exists v. unfold dict_getitem. by rewrite Hv.
Qed.

End LookupFacts.

(** ** Search options *)

Section OptionsClaims.
Context `{!RapidFuzz, !Builtins, !Environ}.
Import Aux Aux2.









End OptionsClaims.

Section OptionsWitness.
Import Sample Aux Aux2.



End OptionsWitness.


(** ** The bot's search *)

Section BotClaims.
Context `{!Pydantic} {W R : Type}.
Context `{!BaseParser.BaseParser W, !BaseParser.BaseParser R}.
Import TelegramResumeBot.

Lemma list_sort_reverse_length (l : list Resume) :
  length (list_sort_reverse Resume_lt l) = length l.
Proof.
  destruct (list_sort_reverse_spec filling_percentage l) as (Hp & _).
  by apply Permutation_length.
Qed.

(** With keywords given and both parsers answering, the reply is the
    count of the records and the five best. *)
Lemma search_resumes_both (self : t W R) (kw : gmap string pyval)
    (so : SearchOptions) (w r : list Resume) :
  is_Some (kw !! "search") ->
  SearchOptions_init kw = Ok so ->
  BaseParser.search_resumes (work_ua_parser self) so = Ok (Some w) ->
  BaseParser.search_resumes (robota_ua_parser self) so = Ok (Some r) ->
  search_resumes self kw = Ok (Found (length (w ++ r)) (top_resumes_of w r)).
Proof.
  intros [v Hv] Hso Hw Hr. unfold search_resumes, top_resumes_of.
  rewrite Hv, Hso. simpl. rewrite Hw. simpl. rewrite Hr. simpl.
  by rewrite list_sort_reverse_length.
Qed.

(** C1.  The records of the two parsers are concatenated, sorted by
    descending [filling_percentage] with records of equal score kept in
    their order, and the first five are returned: [min 5 total] records,
    all of them from the input, none oftener than it is there. *)
Theorem search_resumes_ranking (self : t W R) (kw : gmap string pyval)
    (so : SearchOptions) (w r : list Resume) :
  is_Some (kw !! "search") ->
  SearchOptions_init kw = Ok so ->
  BaseParser.search_resumes (work_ua_parser self) so = Ok (Some w) ->
  BaseParser.search_resumes (robota_ua_parser self) so = Ok (Some r) ->
  exists ranked,
    search_resumes self kw = Ok (Found (length (w ++ r)) (take 5 ranked)) /\
    ranked ≡ₚ w ++ r /\
    StronglySorted (fun a b => filling_percentage b <= filling_percentage a) ranked /\
    (forall v, filter (fun a => filling_percentage a = v) ranked
               = filter (fun a => filling_percentage a = v) (w ++ r)) /\
    length (take 5 ranked) = (5 `min` (length w + length r))%nat /\
    take 5 ranked ⊆+ w ++ r /\
    (NoDup (w ++ r) -> NoDup (take 5 ranked)).
Proof.
  intros Hkw Hso Hw Hr.
  destruct (list_sort_reverse_spec filling_percentage (w ++ r)) as (Hp & Hs & Hf).
  exists (list_sort_reverse Resume_lt (w ++ r)).
  split; [by apply (search_resumes_both self kw so)|].
  split; [done|]. split; [done|]. split; [done|].
  assert (take 5 (list_sort_reverse Resume_lt (w ++ r)) ⊆+ w ++ r) as Hsub.
  { rewrite <- Hp at 2. apply sublist_submseteq, sublist_take. }
  split; [|split; [done|]].
  - rewrite length_take, list_sort_reverse_length, length_app. done.
  - intros Hnd. eapply sublist_NoDup; [|apply sublist_take]. by rewrite Hp.
Qed.

(** C8 (as amended).  The parsers are called one after the other and no
    exception is caught: when the first raises the second is not asked
    and the exception is the outcome, and so it is when the second
    raises; a ranked list is sent when both answer, non-empty when either
    has a record. *)
Theorem search_resumes_propagates (self : t W R) (kw : gmap string pyval)
    (so : SearchOptions) :
  is_Some (kw !! "search") ->
  SearchOptions_init kw = Ok so ->
  (forall e,
     BaseParser.search_resumes (work_ua_parser self) so = Raise e ->
     search_resumes self kw = Raise e) /\
  (forall w e,
     BaseParser.search_resumes (work_ua_parser self) so = Ok w ->
     BaseParser.search_resumes (robota_ua_parser self) so = Raise e ->
     search_resumes self kw = Raise e) /\
  (forall w r,
     BaseParser.search_resumes (work_ua_parser self) so = Ok (Some w) ->
     BaseParser.search_resumes (robota_ua_parser self) so = Ok (Some r) ->
     search_resumes self kw = Ok (Found (length (w ++ r)) (top_resumes_of w r)) /\
     (w ++ r <> [] -> top_resumes_of w r <> [])).
Proof.
  intros [v Hv] Hso. split; [|split].
  - intros e Hw. unfold search_resumes. rewrite Hv, Hso. simpl. by rewrite Hw.
  - intros w e Hw Hr. unfold search_resumes. rewrite Hv, Hso. simpl.
    rewrite Hw. simpl. by rewrite Hr.
  - intros w r Hw Hr. split; [apply (search_resumes_both self kw so); eauto|].
    intros Hne Htop. apply Hne.
    apply (f_equal length) in Htop. unfold top_resumes_of in Htop.
    rewrite length_take, list_sort_reverse_length in Htop.
    change (length (@nil Resume)) with 0%nat in Htop.
    apply length_zero_iff_nil. lia.
Qed.

End BotClaims.

Section BotWitness.
Import Sample SampleBot TelegramResumeBot.

Lemma search_resumes_ranking_witness :
  exists ranked,
    search_resumes stub_bot chat_search_options = Ok (Found 4 (take 5 ranked)) /\
    ranked ≡ₚ [resume_with "w1" 40; resume_with "w2" 90;
               resume_with "r1" 90; resume_with "r2" 10].
Proof.
  destruct (search_resumes_ranking stub_bot chat_search_options chat_options
              [resume_with "w1" 40; resume_with "w2" 90]
              [resume_with "r1" 90; resume_with "r2" 10])
    as (ranked & Hres & Hperm & _).
  - exists (PStr "python"). vm_compute. reflexivity.
  - vm_compute. reflexivity.
  - reflexivity.
  - reflexivity.
  - exists ranked. split; [exact Hres|exact Hperm].
Defined.

(** The two records of score 90 keep their order, the one of the first
    parser before the one of the second. *)
Example stable_order_of_equal_scores :
  search_resumes stub_bot chat_search_options
  = Ok (Found 4 [resume_with "w2" 90; resume_with "r1" 90;
                 resume_with "w1" 40; resume_with "r2" 10]).
Proof. vm_compute. reflexivity. Qed.

Lemma search_resumes_propagates_witness :
  search_resumes stub_bot chat_search_options
  = Ok (Found 4 (top_resumes_of [resume_with "w1" 40; resume_with "w2" 90]
                                [resume_with "r1" 90; resume_with "r2" 10])).
Proof.
  destruct (search_resumes_propagates stub_bot chat_search_options chat_options)
    as (_ & _ & Hboth).
  - exists (PStr "python"). vm_compute. reflexivity.
  - vm_compute. reflexivity.
  - destruct (Hboth [resume_with "w1" 40; resume_with "w2" 90]
                    [resume_with "r1" 90; resume_with "r2" 10]) as [Hres _].
    + reflexivity.
    + reflexivity.
    + exact Hres.
Defined.

(** C8, the counterexample: with the listing pages unreachable and the
    API answering with one record, the API adapter alone returns its
    record and the bot's search ends in the exception. *)
Lemma search_resumes_one_source_down :
  @RobotaUaParser.search_resumes pydantic requests_work_ua_down rapidfuzz
      builtins environ Sample.robota_ua_parser chat_options
  = Ok (Some [ {| href := "https://robota.ua/candidates/7";
                  salary_expectation := Some "1000 USD";
                  experience := Some [ {| position := Some "QA engineer";
                                          duration := Some "1 year";
                                          details := None |} ];
                  filling_percentage := 85 |} ]) /\
  @search_resumes pydantic WorkUaParser.t RobotaUaParser.t
      (@BaseParser.work_ua pydantic requests_work_ua_down bs4 nltk rapidfuzz
                           builtins environ)
      (@BaseParser.robota_ua pydantic requests_work_ua_down rapidfuzz builtins
                             environ)
      bot chat_search_options
  = Raise RequestException.
Proof. split; vm_compute; reflexivity. Qed.

End BotWitness.

(** ** The document-scraping search, end to end *)

Lemma succeeds_not_raise {A} (r : result A) (e : py_error) :
  succeeds r = true -> r <> Raise e.
Proof. by destruct r. Qed.

Section WorkSearchFacts.
Context `{!Pydantic, !Requests, !Bs4, !Nltk, !RapidFuzz, !Builtins, !Environ}.
Import WorkUaParser Aux.

Lemma fetch_details_total (hrefs : list string) (log : list request) :
  (forall link, link ∈ hrefs -> exists o, detail_page link = Ok o) ->
  exists fetched,
    fetch_mapM get_resume_html_from_href hrefs log
    = (log ++ (DetailPage <$> hrefs), Ok fetched).
Proof.
  revert log. induction hrefs as [|link hrefs IH]; intros log Hall; simpl.
  - exists []. unfold mret, fetch_ret. by rewrite app_nil_r.
  - destruct (Hall link ltac:(by left)) as [o Ho].
    destruct (IH (log ++ [DetailPage link])) as [fetched Hf].
    { intros l Hl. apply Hall. by right. }
    exists (o :: fetched).
    unfold mbind, fetch_bind, get_resume_html_from_href at 1.
    fold (detail_page link). rewrite Ho, Hf.
    unfold mret, fetch_ret. by rewrite <- app_assoc.
Qed.

Lemma kept_pages_cons (link : string) (hrefs : list string)
    (o : option string) (fetched : list (option string)) :
  kept_pages (link :: hrefs) (o :: fetched)
  = match fetched_html o with
    | Some html => (link, html) :: kept_pages hrefs fetched
    | None => kept_pages hrefs fetched
    end.
Proof. unfold kept_pages. simpl. by destruct (fetched_html o). Qed.

Lemma kept_pages_length (hrefs : list string) (fetched : list (option string)) :
  (length (kept_pages hrefs fetched) <= length hrefs)%nat.
Proof.
  revert fetched. induction hrefs as [|link hrefs IH]; intros [|o fetched];
    try (unfold kept_pages; simpl; lia).
  rewrite kept_pages_cons. specialize (IH fetched).
  destruct (fetched_html o); simpl; lia.
Qed.


Lemma parse_resumes_total (hrefs : list string) (i : nat) (resume_htmls : list string) :
  (1 <= i)%nat ->
  (i - 1 + length resume_htmls <= length hrefs)%nat ->
  Forall (fun html => forall e, parse_resume html <> Raise e) resume_htmls ->
  exists resumes, parse_resumes hrefs i resume_htmls = Ok resumes.
Proof.
  intros Hi Hlen Hall. revert i Hi Hlen.
  induction Hall as [|html rest Hhtml _ IH]; intros i Hi Hlen; simpl.
  - by exists [].
  - destruct (parse_resume_spec html) as (z & _ & _ & Hparse).
    destruct (parse_resume html) as [resume|e] eqn:Hp; [|by destruct (Hhtml e)].
    simpl. rewrite bool_decide_eq_false_2.
    2:{ apply map_size_non_empty_iff.
        destruct (salary_of (BeautifulSoup html)) as [[?|?]|];
          [|discriminate Hparse|]; injection Hparse as ->; apply insert_non_empty. }
    simpl in Hlen.
    destruct (lookup_lt_is_Some_2 hrefs (i - 1)) as [link Hlink]; [lia|].
    unfold list_getitem. rewrite Hlink. simpl.
    rewrite (Resume_init_parsed (BeautifulSoup html) z link resume).
    2:{ destruct (salary_of (BeautifulSoup html)) as [[sal|?]|];
          [|discriminate Hparse|]; injection Hparse as ->;
          [right; exists sal; reflexivity|left; reflexivity]. }
    simpl. destruct (IH (S i)) as [rs ->]; [lia|lia|]. by eexists.
Qed.


Lemma kept_pages_elem (hrefs : list string) (fetched : list (option string))
    (origin html : string) :
  Forall2 (fun link o => detail_page link = Ok o) hrefs fetched ->
  (origin, html) ∈ kept_pages hrefs fetched ->
  origin ∈ hrefs /\ detail_page origin = Ok (Some html).
Proof.
  induction 1 as [|link o hrefs fetched Hd _ IH]; [by intros ?%elem_of_nil|].
  rewrite kept_pages_cons.
  destruct (fetched_html o) as [h|] eqn:Ho.
  - intros [[= <- <-]|Hin]%elem_of_cons.
    + split; [by left|]. rewrite Hd. f_equal.
      destruct o as [t|]; simpl in Ho; [|done].
      destruct (PyStr.truthy t); [by injection Ho as ->|done].
    + destruct (IH Hin). split; [by right|done].
  - intros Hin. destruct (IH Hin). split; [by right|done].
Qed.

(** What a successful [search_resumes] went through, requests
    included. *)
Lemma search_resumes_inv_log (self : t) (params : SearchOptions)
    (log log' : list request) (resumes : list Resume) :
  search_resumes self params log = (log', Ok resumes) ->
  exists page_htmls log1 fetched,
    let hrefs := concat (map get_resume_href_from_html page_htmls) in
    get_resume_pages self params log = (log1, Ok page_htmls) /\
    log' = log1 ++ (DetailPage <$> hrefs) /\
    Forall2 (fun link o => detail_page link = Ok o) hrefs fetched /\
    parse_resumes hrefs 1 (kept_pages hrefs fetched).*2 = Ok resumes.
Proof.
  unfold search_resumes, mbind, fetch_bind.
  destruct (get_resume_pages self params log) as [log1 [page_htmls|]]; [|done].
  destruct (fetch_mapM _ _ log1) as [log2 [fetched|]] eqn:Hfetch; [|done].
  unfold lift. intros [= <- Hparse].
  destruct (fetch_details _ _ _ _ Hfetch) as [-> Hall].
  exists page_htmls, log1, fetched. simpl. split; [done|]. split; [done|].
  split; [done|].
  rewrite <- kept_pages_htmls; [done|]. by eapply Forall2_length.
Qed.

(** X1.  A search that succeeds has requested, after the listing pages,
    the detail page of every listing link once and in listing order,
    whether or not the page could be fetched, and returns at most one
    record per link. *)
Theorem search_resumes_requests (self : t) (params : SearchOptions)
    (log log' : list request) (resumes : list Resume) :
  search_resumes self params log = (log', Ok resumes) ->
  exists page_htmls log1,
    let hrefs := concat (map get_resume_href_from_html page_htmls) in
    get_resume_pages self params log = (log1, Ok page_htmls) /\
    log' = log1 ++ (DetailPage <$> hrefs) /\
    (length resumes <= length hrefs)%nat.
Proof.
  intros Hsearch.
  destruct (search_resumes_inv_log _ _ _ _ _ Hsearch)
    as (page_htmls & log1 & fetched & Hpages & Hlog & _ & Hparse).
  exists page_htmls, log1. simpl. split; [done|]. split; [done|].
  destruct (parse_resumes_spec _ 1 _ resumes ltac:(lia) Hparse) as [-> _].
  rewrite length_fmap. apply kept_pages_length.
Qed.


(** X3.  Once the listing pages are fetched the search cannot fail for a
    detail page that could not be requested: it succeeds as soon as the
    requests for detail pages raise nothing but [RequestException] and no
    fetched page makes [parse_resume] raise. *)
Theorem search_resumes_succeeds (self : t) (params : SearchOptions)
    (log log1 : list request) (page_htmls : list string) :
  get_resume_pages self params log = (log1, Ok page_htmls) ->
  let hrefs := concat (map get_resume_href_from_html page_htmls) in
  (forall link e,
     link ∈ hrefs ->
     requests_get (build_url_with_scraper_api (base_url ++ link)) = Raise e ->
     e = RequestException) ->
  (forall link text e,
     link ∈ hrefs -> detail_page link = Ok (Some text) ->
     parse_resume text <> Raise e) ->
  exists resumes,
    search_resumes self params log
    = (log1 ++ (DetailPage <$> hrefs), Ok resumes).
Proof.
  intros Hpages hrefs Hreq Hparse.
  destruct (fetch_details_total hrefs log1) as [fetched Hfetch].
  { intros link Hlink. unfold detail_page.
    destruct (requests_get _) as [text|e] eqn:Hget; [by eexists|].
    rewrite (Hreq link e Hlink Hget). by eexists. }
  destruct (fetch_details _ _ _ _ Hfetch) as [_ Hall].
  destruct (parse_resumes_total hrefs 1 (kept_pages hrefs fetched).*2)
    as [resumes Hres].
  - lia.
  - rewrite length_fmap. pose proof (kept_pages_length hrefs fetched). lia.
  - apply Forall_forall. intros html Hhtml e.
    apply list_elem_of_fmap in Hhtml as ([origin html'] & -> & Hin).
    destruct (kept_pages_elem _ _ _ _ Hall Hin) as [Ho Hd].
    by apply (Hparse origin).
  - exists resumes. unfold search_resumes, mbind, fetch_bind.
    rewrite Hpages. fold hrefs. rewrite Hfetch. unfold lift.
    rewrite (kept_pages_htmls hrefs fetched); [by rewrite Hres|].
    by eapply Forall2_length.
Qed.

End WorkSearchFacts.

Section WorkSearchWitness.
Import Sample Aux WorkUaParser.

Lemma search_resumes_requests_witness :
  exists page_htmls log1,
    let hrefs := concat (map get_resume_href_from_html page_htmls) in
    @get_resume_pages requests_first_resume_down bs4 rapidfuzz builtins environ
      work_ua_parser (search_for "python" None) [] = (log1, Ok page_htmls) /\
    [ListingPage 1; DetailPage "/resumes/1/"; DetailPage "/resumes/2/"]
    = log1 ++ (DetailPage <$> hrefs) /\
    (length [resume_of_page "/resumes/1/" (BeautifulSoup "<resume 2>") 92]
     <= length hrefs)%nat.
Proof.
  apply (@search_resumes_requests pydantic requests_first_resume_down bs4 nltk
           rapidfuzz builtins environ work_ua_parser (search_for "python" None) []).
  vm_compute. reflexivity.
Defined.


Lemma search_resumes_succeeds_witness :
  exists resumes,
    @search_resumes pydantic requests_first_resume_down bs4 nltk rapidfuzz
      builtins environ work_ua_parser (search_for "python" None) []
    = ([ListingPage 1] ++ (DetailPage <$> ["/resumes/1/"; "/resumes/2/"]),
       Ok resumes).
Proof.
  apply (@search_resumes_succeeds pydantic requests_first_resume_down bs4 nltk
           rapidfuzz builtins environ work_ua_parser (search_for "python" None)
           [] [ListingPage 1] ["<listing python>"]).
  - vm_compute. reflexivity.
  - intros link e Hin.
    change (link ∈ ["/resumes/1/"; "/resumes/2/"]) in Hin.
    apply elem_of_cons in Hin as [->|Hin].
    { vm_compute. intros Heq. by injection Heq as <-. }
    apply list_elem_of_singleton in Hin as ->.
    vm_compute. intros Heq. discriminate Heq.
  - intros link text e Hin.
    change (link ∈ ["/resumes/1/"; "/resumes/2/"]) in Hin.
    apply elem_of_cons in Hin as [->|Hin].
    { intros Hd. vm_compute in Hd. discriminate Hd. }
    apply list_elem_of_singleton in Hin as ->.
    intros Hd.
    assert (text = "<resume 2>") as ->.
    { vm_compute in Hd. by injection Hd as <-. }
    apply succeeds_not_raise. vm_compute. reflexivity.
Defined.

End WorkSearchWitness.

(** ** The candidate count of a listing page *)

Section CandidateCount.
Context `{!Bs4, !Environ}.
Import WorkUaParser.

Lemma span_spec (p : ascii -> bool) (s : string) :
  s = ((span p s).1 ++ (span p s).2)%string /\
  PyStr.forall_chars p (span p s).1 = true.
Proof.
  induction s as [|c s IH]; simpl; [done|].
  destruct (p c) eqn:Hc; simpl; [|done].
  destruct (span p s) as [a b]. simpl in *. destruct IH as [IH1 IH2].
  rewrite Hc, IH2. split; [|done]. rewrite IH1 at 1. reflexivity.
Qed.

Lemma span_app (p : ascii -> bool) (a b : string) :
  PyStr.forall_chars p a = true ->
  match b with EmptyString => True | String c _ => p c = false end ->
  span p (a ++ b)%string = (a, b).
Proof.
  intros Ha Hb. induction a as [|c a IH]; simpl in *.
  - destruct b as [|c b]; simpl; [done|]. by rewrite Hb.
  - apply andb_true_iff in Ha as [Hc Ha]. by rewrite Hc, IH.
Qed.

Lemma int_of_digits_nonneg (s : string) :
  PyStr.forall_chars PyStr.is_digit s = true -> 0 <= PyStr.int_of_digits s.
Proof.
  unfold PyStr.int_of_digits.
  assert (forall acc, 0 <= acc ->
            PyStr.forall_chars PyStr.is_digit s = true ->
            0 <= fold_left (fun acc c => 10 * acc + (Z.of_nat (nat_of_ascii c) - 48))
                           (list_ascii_of_string s) acc) as Hgen.
  { induction s as [|c s IH]; intros acc Hacc Hs; simpl in *; [done|].
    apply andb_true_iff in Hs as [Hc Hs]. apply IH; [|done].
    unfold PyStr.is_digit, PyStr.in_range in Hc.
    apply andb_true_iff in Hc as [Hlo _]. apply Nat.leb_le in Hlo. lia. }
  by apply Hgen.
Qed.

Lemma match_candidates_at_digits (s group1 : string) :
  match_candidates_at s = Some group1 ->
  PyStr.forall_chars PyStr.is_digit group1 = true.
Proof.
  unfold match_candidates_at.
  destruct (span_spec PyStr.is_digit s) as [_ Hd].
  destruct (span PyStr.is_digit s) as [digits rest].
  destruct (span PyStr.is_space rest) as [spaces rest'].
  destruct (_ && _); [|done]. by intros [= <-].
Qed.

Lemma search_candidates_digits (s group1 : string) :
  search_candidates s = Some group1 ->
  PyStr.forall_chars PyStr.is_digit group1 = true.
Proof.
  induction s as [|c s IH]; cbn [search_candidates];
    (destruct (match_candidates_at _) eqn:Hm;
     [intros [= <-]; by eapply match_candidates_at_digits|]); [done|exact IH].
Qed.

Lemma match_candidates_at_no_digit (s : string) :
  match s with EmptyString => True | String c _ => PyStr.is_digit c = false end ->
  match_candidates_at s = None.
Proof.
  intros Hs. unfold match_candidates_at.
  destruct s as [|c s]; simpl; [done|]. rewrite Hs.
  by destruct (span PyStr.is_space (String c s)).
Qed.

Lemma search_candidates_skip (prefix s : string) :
  PyStr.forall_chars (fun c => negb (PyStr.is_digit c)) prefix = true ->
  search_candidates (prefix ++ s)%string = search_candidates s.
Proof.
  induction prefix as [|c prefix IH]; simpl; [done|].
  intros [Hc Hp]%andb_true_iff. apply negb_true_iff in Hc.
  rewrite match_candidates_at_no_digit by done. by apply IH.
Qed.

Lemma search_candidates_no_digit (s : string) :
  PyStr.forall_chars (fun c => negb (PyStr.is_digit c)) s = true ->
  search_candidates s = None.
Proof.
  induction s as [|c s IH]; simpl; [done|].
  intros [Hc Hp]%andb_true_iff. apply negb_true_iff in Hc.
  rewrite match_candidates_at_no_digit by done. by apply IH.
Qed.

Lemma char_lower_c_not_space (c : ascii) :
  PyStr.char_lower c = "c"%char -> PyStr.is_space c = false.
Proof.
  destruct c as [[] [] [] [] [] [] [] []]; vm_compute; congruence.
Qed.

Lemma is_space_not_digit (c : ascii) :
  PyStr.is_space c = true -> PyStr.is_digit c = false.
Proof.
  destruct c as [[] [] [] [] [] [] [] []]; vm_compute; congruence.
Qed.

Lemma candidate_prefix_not_space (rest : string) :
  String.prefix "candidate" (PyStr.lower rest) = true ->
  match rest with EmptyString => True | String c _ => PyStr.is_space c = false end.
Proof.
  destruct rest as [|c rest]; [done|].
  unfold PyStr.lower. cbn [PyStr.map_chars String.prefix].
  destruct (ascii_dec "c" (PyStr.char_lower c)) as [Hc|]; [|done].
  intros _. by apply char_lower_c_not_space.
Qed.

Lemma match_candidates_at_count (digits spaces rest : string) :
  digits <> "" -> PyStr.forall_chars PyStr.is_digit digits = true ->
  spaces <> "" -> PyStr.forall_chars PyStr.is_space spaces = true ->
  String.prefix "candidate" (PyStr.lower rest) = true ->
  match_candidates_at (digits ++ spaces ++ rest)%string = Some digits.
Proof.
  intros Hd Hds Hs Hss Hrest. unfold match_candidates_at.
  destruct digits as [|d digits]; [done|].
  destruct spaces as [|c spaces]; [done|].
  rewrite (span_app PyStr.is_digit (String d digits)
             (String c spaces ++ rest)%string); [|done|].
  - rewrite (span_app PyStr.is_space (String c spaces) rest);
      [|done|by apply candidate_prefix_not_space].
    by rewrite Hrest.
  - simpl in Hss. apply andb_true_iff in Hss as [Hc _].
    by apply is_space_not_digit.
Qed.

Lemma get_total_candidates_ge_0 (html : string) (n : Z) :
  get_total_candidates html = Ok n -> 0 <= n.
Proof.
  unfold get_total_candidates.
  destruct (search_candidates _) eqn:Hs; [|done].
  intros [= <-]. apply int_of_digits_nonneg.
  by eapply search_candidates_digits.
Qed.

(** X4. The candidate count read from a listing page is never negative,
    and a page whose text holds no digit has no count: reading it fails
    with the parse error. *)
Theorem get_total_candidates_nonneg (html : string) :
  (forall n, get_total_candidates html = Ok n -> 0 <= n) /\
  (PyStr.forall_chars (fun c => negb (PyStr.is_digit c))
     (soup_get_text (BeautifulSoup html)) = true ->
   get_total_candidates html = Raise ParseException).
Proof.
  split.
  - intros n. apply get_total_candidates_ge_0.
  - intros Hnd. unfold get_total_candidates.
    by rewrite search_candidates_no_digit.
Qed.

(** X5. When the text of a listing page is a digit-free prefix followed
    by a run of at most 4300 digits, white space and a word that starts
    with "candidate" in any letter case, the count is the number the
    digits spell. *)
Theorem get_total_candidates_reads (html prefix digits spaces rest : string) :
  soup_get_text (BeautifulSoup html) = (prefix ++ digits ++ spaces ++ rest)%string ->
  PyStr.forall_chars (fun c => negb (PyStr.is_digit c)) prefix = true ->
  digits <> "" -> PyStr.forall_chars PyStr.is_digit digits = true ->
  (String.length digits <= 4300)%nat ->
  spaces <> "" -> PyStr.forall_chars PyStr.is_space spaces = true ->
  String.prefix "candidate" (PyStr.lower rest) = true ->
  get_total_candidates html = Ok (PyStr.int_of_digits digits).
Proof.
  intros Htext Hp Hd Hds _ Hs Hss Hrest. unfold get_total_candidates.
  rewrite Htext, search_candidates_skip by done.
  pose proof (match_candidates_at_count digits spaces rest
                Hd Hds Hs Hss Hrest) as Hm.
  destruct (digits ++ spaces ++ rest)%string;
    cbn [search_candidates]; by rewrite Hm.
Qed.

End CandidateCount.

Section CandidateCountWitness.
Import Sample.

Lemma get_total_candidates_reads_witness :
  WorkUaParser.get_total_candidates "<listing java>" = Ok 30.
Proof.
  apply (get_total_candidates_reads "<listing java>" "Found " "30" " " "Candidates");
    try (vm_compute; congruence).
  simpl. lia.
Defined.

End CandidateCountWitness.

(** ** Failures while paging through the listing *)

Section ListingFailures.
Context `{!Pydantic, !Requests, !Bs4, !Nltk, !RapidFuzz, !Builtins, !Environ}.
Import WorkUaParser Aux.

Lemma fetch_mapM_get_page_fails (payload : gmap string pyval)
    (body : Z -> string) (before after : list Z) (p : Z) (e : py_error)
    (log : list request) :
  (forall q, q ∈ before -> requests_get (page_url payload q) = Ok (body q)) ->
  requests_get (page_url payload p) = Raise e ->
  fetch_mapM (get_page payload) (before ++ p :: after) log
  = (log ++ (ListingPage <$> before ++ [p]), Raise e).
Proof.
  revert log. induction before as [|q before IH]; intros log Hget Hp; simpl.
  - unfold mbind, fetch_bind, get_page at 1. by rewrite Hp.
  - unfold mbind, fetch_bind, get_page at 1.
    rewrite (Hget q) by by left.
    rewrite IH by (try done; intros; apply Hget; by right).
    by rewrite <- app_assoc.
Qed.

Lemma total_pages_of_small (N : Z) :
  0 <= N <= 14 ->
  exists T, total_pages_of N = Ok T /\ 0 <= T <= 1.
Proof.
  intros HN.
  assert (N = 0 \/ N = 1 \/ N = 2 \/ N = 3 \/ N = 4 \/ N = 5 \/ N = 6 \/ N = 7 \/
          N = 8 \/ N = 9 \/ N = 10 \/ N = 11 \/ N = 12 \/ N = 13 \/ N = 14)
    as Hcases by lia.
  destruct Hcases as [->|Hcases]; [exists 0; vm_compute; repeat split; congruence|].
  exists 1.
  repeat (destruct Hcases as [->|Hcases];
          [vm_compute; repeat split; congruence|]).
  subst N. vm_compute; repeat split; congruence.
Qed.

(** X6. The first listing request is mandatory: when it fails, or when
    its page carries no candidate count, [get_resume_pages] and
    [search_resumes] raise that error after this single request. *)
Theorem get_resume_pages_first_page_fatal
    (self : t) (params : SearchOptions) (payload : gmap string pyval)
    (e : py_error) (log : list request) :
  unpack_search_options self params = Ok payload ->
  (requests_get (page_url payload 1) = Raise e \/
   exists html, requests_get (page_url payload 1) = Ok html /\
                get_total_candidates html = Raise e) ->
  get_resume_pages self params log = (log ++ [ListingPage 1], Raise e) /\
  search_resumes self params log = (log ++ [ListingPage 1], Raise e).
Proof.
  intros Hpayload Hfirst.
  assert (get_resume_pages self params log = (log ++ [ListingPage 1], Raise e))
    as Hpages.
  { unfold get_resume_pages, mbind, fetch_bind, lift.
    rewrite Hpayload. unfold get_page at 1.
    destruct Hfirst as [-> | (html & -> & ->)]; done. }
  split; [done|].
  unfold search_resumes, mbind, fetch_bind. by rewrite Hpages.
Qed.

(** X7. With at most 14 candidates announced, the listing has a single
    page: [get_resume_pages] makes one request and returns that page
    alone. *)
Theorem get_resume_pages_single_page
    (self : t) (params : SearchOptions) (payload : gmap string pyval)
    (html : string) (N : Z) (log : list request) :
  unpack_search_options self params = Ok payload ->
  requests_get (page_url payload 1) = Ok html ->
  get_total_candidates html = Ok N ->
  N <= 14 ->
  get_resume_pages self params log = (log ++ [ListingPage 1], Ok [html]).
Proof.
  intros Hpayload Hget Htotal HN.
  destruct (total_pages_of_small N) as (T & HT & HT01).
  { split; [|done]. by eapply get_total_candidates_ge_0. }
  unfold get_resume_pages, mbind, fetch_bind, lift.
  rewrite Hpayload. unfold get_page at 1. rewrite Hget, Htotal, HT.
  assert (T = 0 \/ T = 1) as [-> | ->] by lia; reflexivity.
Qed.

(** X8. Paging is all or nothing.  After a good first page, the pages
    are requested in the order evens then odds; at the first request that
    fails the error is raised at once: no later listing page and no resume
    page is requested, and the pages already fetched are lost. *)
Theorem get_resume_pages_stops_at_first_failure
    (self : t) (params : SearchOptions) (payload : gmap string pyval)
    (body : Z -> string) (N total_pages : Z)
    (before after : list Z) (p : Z) (e : py_error) (log : list request) :
  unpack_search_options self params = Ok payload ->
  requests_get (page_url payload 1) = Ok (body 1) ->
  get_total_candidates (body 1) = Ok N ->
  total_pages_of N = Ok total_pages ->
  py_range 2 (total_pages + 1) 2 ++ py_range 3 (total_pages + 1) 2
  = before ++ p :: after ->
  (forall q, q ∈ before -> requests_get (page_url payload q) = Ok (body q)) ->
  requests_get (page_url payload p) = Raise e ->
  let requested := log ++ (ListingPage <$> 1 :: before ++ [p]) in
  get_resume_pages self params log = (requested, Raise e) /\
  search_resumes self params log = (requested, Raise e).
Proof.
  intros Hpayload Hfirst Htotal Hpages Horder Hget Hp requested.
  assert (get_resume_pages self params log = (requested, Raise e)) as Hres.
  { unfold get_resume_pages, mbind, fetch_bind, lift.
    rewrite Hpayload. unfold get_page at 1. rewrite Hfirst, Htotal, Hpages.
    unfold requested. rewrite fmap_cons.
    change (log ++ ListingPage 1 :: (ListingPage <$> before ++ [p]))
      with (log ++ [ListingPage 1] ++ (ListingPage <$> before ++ [p])).
    rewrite app_assoc.
    set (evens := py_range 2 (total_pages + 1) 2) in *.
    set (odds := py_range 3 (total_pages + 1) 2) in *.
    apply app_eq_app in Horder as [l [[He Ho]|[Hb Ho]]].
    - destruct l as [|p' l].
      + rewrite app_nil_r in He. simpl in Ho. subst before.
        rewrite (fetch_mapM_get_page payload body evens) by done.
        rewrite <- Ho, (fetch_mapM_get_page_fails payload body [] after p e) by
          (try done; by intros q Hq%elem_of_nil).
        by rewrite app_nil_l, fmap_app, !app_assoc.
      + injection Ho as <- Hafter. rewrite He.
        by rewrite (fetch_mapM_get_page_fails payload body before l p e).
    - rewrite (fetch_mapM_get_page payload body evens).
      2:{ intros q Hq. apply Hget. rewrite Hb. apply elem_of_app. by left. }
      rewrite Ho, (fetch_mapM_get_page_fails payload body l after p e).
      2:{ intros q Hq. apply Hget. rewrite Hb. apply elem_of_app. by right. }
      2:{ done. }
      by rewrite Hb, !fmap_app, !app_assoc. }
  split; [done|].
  unfold search_resumes, mbind, fetch_bind. by rewrite Hres.
Qed.

End ListingFailures.

Section ListingFailuresWitness.
Import Sample SampleFaults Aux.

Lemma get_resume_pages_first_page_fatal_witness :
  WorkUaParser.search_resumes (H0 := requests_work_ua_down)
    work_ua_parser (search_for "python" None) []
  = ([ListingPage 1], Raise RequestException).
Proof.
  destruct (get_resume_pages_first_page_fatal (H0 := requests_work_ua_down)
              work_ua_parser (search_for "python" None)
              {[ "search" := PStr "python" ]} RequestException [])
    as [_ Hsearch].
  - reflexivity.
  - left. reflexivity.
  - exact Hsearch.
Defined.

Lemma get_resume_pages_single_page_witness :
  WorkUaParser.get_resume_pages (H0 := requests_up)
    work_ua_parser (search_for "python" None) []
  = ([ListingPage 1], Ok ["<listing python>"]).
Proof.
  apply (get_resume_pages_single_page (H0 := requests_up)
           work_ua_parser (search_for "python" None)
           {[ "search" := PStr "python" ]} "<listing python>" 2 []).
  - reflexivity.
  - reflexivity.
  - reflexivity.
  - lia.
Defined.

Lemma get_resume_pages_stops_at_first_failure_witness :
  WorkUaParser.search_resumes (H0 := requests_third_page_down)
    work_ua_parser (search_for "java" None) []
  = ([ListingPage 1; ListingPage 2; ListingPage 3], Raise RequestException).
Proof.
  destruct (get_resume_pages_stops_at_first_failure
              (H0 := requests_third_page_down)
              work_ua_parser (search_for "java" None)
              {[ "search" := PStr "java" ]} (fun _ => "<listing java>")
              30 3 [2] [] 3 RequestException [])
    as [_ Hsearch].
  - reflexivity.
  - reflexivity.
  - reflexivity.
  - reflexivity.
  - reflexivity.
  - intros q Hq. apply list_elem_of_singleton in Hq as ->. reflexivity.
  - reflexivity.
  - exact Hsearch.
Defined.

End ListingFailuresWitness.

(** ** Search options of the two adapters *)

Section OptionsFacts.
Context `{!RapidFuzz, !Builtins, !Environ}.


(** X10. A Work.ua query that is built carries the keywords always and
    each filter exactly when its option is set: [region] for a non-empty
    region (also when no region name matched), [salaryfrom] and
    [salaryto] for a non-zero bound, with the id its table gives, and
    [experience] for a non-empty tag list, as the ids of the tags joined
    by [+].  An option that is not set is absent from the query. *)
Theorem work_ua_unpack_search_options_keys
    (self : WorkUaParser.t) (params : SearchOptions)
    (payload : gmap string pyval) :
  WorkUaParser.unpack_search_options self params = Ok payload ->
  payload !! "search" = Some (PStr (search params)) /\
  (is_Some (payload !! "region") <->
   exists r, region params = Some r /\ PyStr.truthy r = true) /\
  payload !! "salaryfrom"
  = (n ← salary_from params;
     if n =? 0 then None
     else dict_get (WorkUaParser.SALARY_FROM_OPTIONS self) (pretty n)) /\
  payload !! "salaryto"
  = (n ← salary_to params;
     if n =? 0 then None
     else dict_get (WorkUaParser.SALARY_TO_OPTIONS self) (pretty n)) /\
  match experience_tags params with
  | Some (tag :: tags) =>
      exists ids,
        Forall2 (fun tag id =>
                   dict_get (WorkUaParser.EXPERIENCE_OPTIONS self) tag
                   = Some (PStr id)) (tag :: tags) ids /\
        payload !! "experience" = Some (PStr (PyStr.join "+" ids))
  | _ => payload !! "experience" = None
  end.
Proof.
  unfold WorkUaParser.unpack_search_options.
  set (p0 := {[ "search" := PStr (search params) ]} : gmap string pyval).
  intros (p1 & Hregion & (p2 & Hfrom & (p3 & Hto & Hexp)%bind_ok)%bind_ok)%bind_ok.
  assert ((p1 = p0 /\ ~ exists r, region params = Some r /\ PyStr.truthy r = true) \/
          (exists v, p1 = <["region" := v]> p0 /\
                     exists r, region params = Some r /\ PyStr.truthy r = true))
    as Hp1.
  { destruct (region params) as [r|];
      [|left; split; [congruence|by intros (? & ? & ?)]].
    destruct (PyStr.truthy r) eqn:Hr;
      [|left; split; [congruence|intros (? & [= <-] & ?); congruence]].
    destruct (work_ua_region_stage self r p0) as [v Hv].
    rewrite Hv in Hregion. injection Hregion as <-.
    right. exists v. split; [done|]. by exists r. }
  assert (exists o, o = (n ← salary_from params;
                         if n =? 0 then None
                         else dict_get (WorkUaParser.SALARY_FROM_OPTIONS self) (pretty n)) /\
                    p2 = match o with Some v => <["salaryfrom" := v]> p1 | None => p1 end)
    as (o2 & Ho2 & Hp2).
  { eexists; split; [reflexivity|].
    destruct (salary_from params) as [n|]; simpl in *; [|congruence].
    destruct (n =? 0); simpl in *; [congruence|].
    unfold dict_getitem in Hfrom. destruct (dict_get _ _); simpl in *; congruence. }
  assert (exists o, o = (n ← salary_to params;
                         if n =? 0 then None
                         else dict_get (WorkUaParser.SALARY_TO_OPTIONS self) (pretty n)) /\
                    p3 = match o with Some v => <["salaryto" := v]> p2 | None => p2 end)
    as (o3 & Ho3 & Hp3).
  { eexists; split; [reflexivity|].
    destruct (salary_to params) as [n|]; simpl in *; [|congruence].
    destruct (n =? 0); simpl in *; [congruence|].
    unfold dict_getitem in Hto. destruct (dict_get _ _); simpl in *; congruence. }
  rewrite <- Ho2, <- Ho3. clear Hregion Hfrom Hto Ho2 Ho3.
  assert (p3 !! "search" = Some (PStr (search params)) /\
          (is_Some (p3 !! "region") <->
           exists r, region params = Some r /\ PyStr.truthy r = true) /\
          p3 !! "salaryfrom" = o2 /\ p3 !! "salaryto" = o3 /\
          p3 !! "experience" = None) as (Hs & Hr & Hf & Ht & He).
  { subst p3 p2.
    destruct Hp1 as [[-> Hno]|(v & -> & Hyes)], o2 as [v2|], o3 as [v3|];
      unfold p0; simplify_map_eq; repeat split; try done;
      try (by intros [? [=]]); try (by intros _); intros []%is_Some_None. }
  destruct (experience_tags params) as [[|tag tags]|].
  - by injection Hexp as <-.
  - apply bind_ok in Hexp as (vs & Hvs & (ids & Hids & [= <-])%bind_ok).
    rewrite !lookup_insert_ne by done. repeat (split; [done|]).
    exists ids. split; [|by rewrite lookup_insert].
    apply rmapM_ok in Hvs, Hids. revert Hvs Hids.
    generalize (tag :: tags). intros l. revert vs ids.
    induction l as [|x l IH]; intros vs ids Hvs Hids.
    + apply Forall2_nil_inv_l in Hvs as ->.
      apply Forall2_nil_inv_l in Hids as ->. constructor.
    + apply Forall2_cons_inv_l in Hvs as (v & vs' & Hv & Hvs & ->).
      apply Forall2_cons_inv_l in Hids as (id & ids' & Hid & Hids & ->).
      constructor; [|by eapply IH].
      unfold dict_getitem in Hv. destruct (dict_get _ x); [|done].
      injection Hv as ->. destruct v; try done. by injection Hid as ->.
  - by injection Hexp as <-.
Qed.

Lemma truthy_id_value (d : list (string * pyval)) (k : string) (v : pyval) :
  RobotaUaParser.truthy_id d k = Some v ->
  dict_get d k = Some v /\ py_truthy v = true.
Proof.
  unfold RobotaUaParser.truthy_id. destruct (dict_get d k) as [v'|]; [|done].
  destruct (py_truthy v') eqn:Hv; [|done]. by intros [= <-].
Qed.


(** X12. Every id a Robota.ua query sends in [experienceIds] is a value
    of the experience table, and there are at most two more ids than
    tags: an unknown tag adds none, and only "More than 5 years" adds the
    two ids of its sub-ranges. *)
Theorem robota_ua_experience_ids_from_table
    (self : RobotaUaParser.t) (params : SearchOptions)
    (payload : gmap string pyval) :
  RobotaUaParser.unpack_search_options self params = Ok payload ->
  exists exps ids,
    experience_tags params = Some exps /\
    payload !! "experienceIds" = Some (PList ids) /\
    Forall (fun id => exists tag,
              dict_get (RobotaUaParser.EXPERIENCE_OPTIONS self) tag = Some id) ids /\
    (length ids <= length exps + 2)%nat /\
    ("More than 5 years" ∉ exps -> (length ids <= length exps)%nat).
Proof.
  unfold RobotaUaParser.unpack_search_options.
  destruct (robota_ua_region_stage self params) as [region_id ->].
  cbn [mbind result_bind].
  destruct (experience_tags params) as [exps|]; cbn [mbind result_bind]; [|done].
  set (ids := omap (RobotaUaParser.truthy_id
                      (RobotaUaParser.EXPERIENCE_OPTIONS self)) exps).
  assert (Forall (fun id => exists tag,
            dict_get (RobotaUaParser.EXPERIENCE_OPTIONS self) tag = Some id) ids)
    as Hids.
  { apply Forall_forall. intros id (tag & _ & Hid)%list_elem_of_omap.
    exists tag. by apply truthy_id_value in Hid as [? _]. }
  assert (length ids <= length exps)%nat as Hlen.
  { apply omap_length_le. }
  destruct (bool_decide_reflect ("More than 5 years" ∈ exps)) as [Hin|Hnin].
  - unfold dict_getitem.
    destruct (dict_get _ "5 to 10 years") as [a|] eqn:Ha;
      cbn [mbind result_bind]; [|done].
    destruct (dict_get _ "More than 10 years") as [b|] eqn:Hb;
      cbn [mbind result_bind]; [|done].
    intros [= <-]. exists exps, (ids ++ [a; b]).
    split; [done|]. split; [by rewrite lookup_insert|].
    split; [|split; [rewrite length_app; simpl; lia|done]].
    apply Forall_app. split; [done|].
    repeat constructor; by eexists.
  - intros [= <-]. exists exps, ids. split; [done|].
    split; [reflexivity|]. split; [done|]. split; [lia|done].
Qed.

End OptionsFacts.

Section OptionsFactsWitness.
Import Sample.


Lemma work_ua_unpack_search_options_keys_witness :
  let params := {| search := "python"; region := Some "Kyiv";
                   salary_from := Some 10000; salary_to := Some 0;
                   experience_tags := Some ["No experience"; "1 to 2 years"] |} in
  let payload : gmap string pyval :=
    {[ "search" := PStr "python"; "region" := PInt 1;
       "salaryfrom" := PInt 2; "experience" := PStr "0+164" ]} in
  WorkUaParser.unpack_search_options work_ua_parser params = Ok payload /\
  payload !! "salaryfrom" = Some (PInt 2) /\
  payload !! "salaryto" = None.
Proof.
  intros params payload.
  assert (WorkUaParser.unpack_search_options work_ua_parser params = Ok payload)
    as Hok by (vm_compute; reflexivity).
  split; [exact Hok|].
  destruct (work_ua_unpack_search_options_keys work_ua_parser params payload Hok)
    as (_ & _ & Hfrom & Hto & _).
  split; [exact Hfrom|exact Hto].
Defined.

Lemma robota_ua_experience_ids_from_table_witness :
  let params := {| search := "python"; region := None;
                   salary_from := None; salary_to := None;
                   experience_tags := Some ["More than 5 years"; "No experience"] |} in
  let payload : gmap string pyval :=
    {[ "cityId" := PNone; "keyWords" := PStr "python";
       "salary" := PDict [("from", PNone); ("to", PNone)];
       "experienceIds" := PList [PStr "1"; PStr "5"; PStr "6"] ]} in
  RobotaUaParser.unpack_search_options robota_ua_parser params = Ok payload /\
  exists exps ids,
    experience_tags params = Some exps /\
    payload !! "experienceIds" = Some (PList ids) /\
    Forall (fun id => exists tag,
              dict_get (RobotaUaParser.EXPERIENCE_OPTIONS robota_ua_parser) tag
              = Some id) ids /\
    (length ids <= length exps + 2)%nat /\
    ("More than 5 years" ∉ exps -> (length ids <= length exps)%nat).
Proof.
  intros params payload.
  assert (RobotaUaParser.unpack_search_options robota_ua_parser params = Ok payload)
    as Hok by (vm_compute; reflexivity).
  split; [exact Hok|].
  exact (robota_ua_experience_ids_from_table robota_ua_parser params payload Hok).
Defined.

End OptionsFactsWitness.

(** ** The Robota.ua search *)

Section RobotaSearchFacts.
Context `{!Pydantic, !Requests, !RapidFuzz, !Builtins, !Environ}.
Import RobotaUaParser.

(** X13. With a second response of status 200, the Robota.ua search is
    all or nothing: it returns one record per document, in the order of
    the response, when every document converts, and the error of the
    first document that does not convert otherwise; the records before
    it are lost. *)
Theorem robota_ua_search_resumes_documents
    (self : t) (params : SearchOptions) (payload : gmap string pyval)
    (response response' : Response) (body total data : pyval)
    (documents : list pyval) :
  unpack_search_options self params = Ok payload ->
  requests_post ROBOTA_UA_RESUMES_URL payload = Ok response ->
  json response = Ok body ->
  py_getitem body "total" = Ok total ->
  requests_post ROBOTA_UA_RESUMES_URL (<["count" := total]> payload) = Ok response' ->
  status_code response' = 200 ->
  json response' = Ok data ->
  py_getitem data "documents" = Ok (PList documents) ->
  (forall resumes,
     search_resumes self params = Ok (Some resumes) <->
     Forall2 (fun doc r => resume_of_document doc = Ok r) documents resumes) /\
  (forall before doc after e,
     documents = before ++ doc :: after ->
     Forall (fun doc => is_ok (resume_of_document doc)) before ->
     resume_of_document doc = Raise e ->
     search_resumes self params = Raise e) /\
  search_resumes self params <> Ok None.
Proof.
  intros Hpayload Hpost Hbody Htotal Hpost' Hstatus Hdata Hdocs.
  assert (search_resumes self params
          = (resumes ← rmapM resume_of_document documents; Ok (Some resumes)))
    as Hsearch.
  { unfold search_resumes. rewrite Hpayload. cbn [mbind result_bind].
    rewrite Hpost. cbn [mbind result_bind]. rewrite Hbody.
    cbn [mbind result_bind]. rewrite Htotal. cbn [mbind result_bind].
    rewrite Hpost'. cbn [mbind result_bind]. rewrite Hstatus.
    cbn [Z.eqb Pos.eqb]. rewrite Hdata. cbn [mbind result_bind].
    rewrite Hdocs. reflexivity. }
  rewrite Hsearch. split; [|split].
  - intros resumes. split.
    + intros (rs & Hrs & [= <-])%bind_ok. by apply rmapM_ok.
    + intros Hall. by rewrite (rmapM_Forall2 _ _ _ Hall).
  - intros before doc after e -> Hbefore Hdoc.
    by rewrite (rmapM_first_raise _ before after doc e).
  - destruct (rmapM resume_of_document documents); done.
Qed.

End RobotaSearchFacts.

Section BotStatusFacts.
Context `{!Pydantic, !Requests, !RapidFuzz, !Builtins, !Environ}.
Context {W : Type} `{!BaseParser.BaseParser W}.
Import TelegramResumeBot.

(** X14. When the second Robota.ua response has a status other than
    200, no list of records comes back: a status from 400 to 599 raises
    the request error, and any other status makes the adapter return
    [None], on which the bot's search fails with a [TypeError] although
    the other source answered. *)
Theorem search_resumes_unexpected_status
    (self : TelegramResumeBot.t W RobotaUaParser.t) (kw : gmap string pyval)
    (so : SearchOptions) (w : option (list Resume))
    (payload : gmap string pyval) (response response' : Response)
    (body total : pyval) :
  is_Some (kw !! "search") ->
  SearchOptions_init kw = Ok so ->
  BaseParser.search_resumes (work_ua_parser self) so = Ok w ->
  RobotaUaParser.unpack_search_options (robota_ua_parser self) so = Ok payload ->
  requests_post ROBOTA_UA_RESUMES_URL payload = Ok response ->
  json response = Ok body ->
  py_getitem body "total" = Ok total ->
  requests_post ROBOTA_UA_RESUMES_URL (<["count" := total]> payload) = Ok response' ->
  status_code response' <> 200 ->
  let client_or_server_error :=
    (400 <=? status_code response') && (status_code response' <? 600) in
  RobotaUaParser.search_resumes (robota_ua_parser self) so
  = (if client_or_server_error then Raise RequestException else Ok None) /\
  search_resumes (H1 := BaseParser.robota_ua) self kw
  = Raise (if client_or_server_error then RequestException else TypeError).
Proof.
  intros [v Hkw] Hso Hwork Hpayload Hpost Hbody Htotal Hpost' Hstatus err.
  assert (RobotaUaParser.search_resumes (robota_ua_parser self) so
          = (if err then Raise RequestException else Ok None)) as Hrobota.
  { unfold RobotaUaParser.search_resumes. rewrite Hpayload.
    cbn [mbind result_bind]. rewrite Hpost. cbn [mbind result_bind].
    rewrite Hbody. cbn [mbind result_bind]. rewrite Htotal.
    cbn [mbind result_bind]. rewrite Hpost'. cbn [mbind result_bind].
    destruct (Z.eqb_spec (status_code response') 200); [done|]. reflexivity. }
  split; [done|].
  unfold search_resumes. rewrite Hkw, Hso. cbn [mbind result_bind].
  rewrite Hwork. cbn [mbind result_bind].
  change (BaseParser.search_resumes (robota_ua_parser self) so)
    with (RobotaUaParser.search_resumes (robota_ua_parser self) so).
  rewrite Hrobota. destruct err; [done|].
  cbn [mbind result_bind]. unfold list_add. by destruct w.
Qed.

End BotStatusFacts.

Section RobotaSearchWitness.
Import Sample SampleBot SampleFaults.

Lemma robota_ua_search_resumes_documents_witness :
  RobotaUaParser.search_resumes (H0 := requests_up) robota_ua_parser chat_options
  = Ok (Some [ {| href := "https://robota.ua/candidates/7";
                  salary_expectation := Some "1000 USD";
                  experience := Some [ {| position := Some "QA engineer";
                                          duration := Some "1 year";
                                          details := None |} ];
                  filling_percentage := 85 |} ]).
Proof.
  destruct (robota_ua_search_resumes_documents (H0 := requests_up)
              robota_ua_parser chat_options
              {[ "cityId" := PNone; "keyWords" := PStr "python";
                 "salary" := PDict [("from", PInt 0); ("to", PInt 0)];
                 "experienceIds" := PList [] ]}
              robota_response robota_response
              (PDict [("total", PInt 1);
                      ("documents", PList [robota_document (PInt 85)])])
              (PInt 1)
              (PDict [("total", PInt 1);
                      ("documents", PList [robota_document (PInt 85)])])
              [robota_document (PInt 85)])
    as [Hall _].
  - vm_compute. reflexivity.
  - reflexivity.
  - reflexivity.
  - reflexivity.
  - reflexivity.
  - reflexivity.
  - reflexivity.
  - reflexivity.
  - apply Hall. constructor; [|constructor]. vm_compute. reflexivity.
Defined.

Lemma search_resumes_unexpected_status_witness :
  RobotaUaParser.search_resumes (H0 := requests_api_redirect)
    robota_ua_parser chat_options = Ok None /\
  TelegramResumeBot.search_resumes
    (H1 := BaseParser.robota_ua (H0 := requests_api_redirect))
    api_bot chat_search_options
  = Raise TypeError.
Proof.
  apply (search_resumes_unexpected_status (H0 := requests_api_redirect)
           api_bot chat_search_options chat_options
           (Some [resume_with "w1" 40])
           {[ "cityId" := PNone; "keyWords" := PStr "python";
              "salary" := PDict [("from", PInt 0); ("to", PInt 0)];
              "experienceIds" := PList [] ]}
           robota_response {| status_code := 302; json := Ok (PDict []) |}
           (PDict [("total", PInt 1);
                   ("documents", PList [robota_document (PInt 85)])])
           (PInt 1)).
  - exists (PStr "python"). vm_compute. reflexivity.
  - vm_compute. reflexivity.
  - reflexivity.
  - vm_compute. reflexivity.
  - reflexivity.
  - reflexivity.
  - reflexivity.
  - vm_compute. reflexivity.
  - vm_compute. congruence.
Defined.

End RobotaSearchWitness.

(** ** The conversation *)

Section HandlerFacts.
Context `{!Builtins}.
Import Handlers HandlersAux.

Lemma is_str_PStr (x y : string) : is_str x (PStr y) = bool_decide (y = x).
Proof.
  simpl. destruct (String.eqb_spec y x);
    [by rewrite bool_decide_true|by rewrite bool_decide_false].
Qed.

Lemma existsb_is_str (x : string) (tags : list string) :
  existsb (is_str x) (PStr <$> tags) = bool_decide (x ∈ tags).
Proof.
  induction tags as [|y tags IH]; [done|].
  rewrite fmap_cons. cbn [existsb]. rewrite IH, is_str_PStr.
  destruct (decide (y = x)) as [->|Hne].
  - rewrite (bool_decide_true (x = x)) by done.
    rewrite (bool_decide_true (x ∈ x :: tags)) by by left. done.
  - rewrite (bool_decide_false (y = x)) by done. simpl.
    apply bool_decide_ext. rewrite elem_of_cons.
    split; [by right|]. intros [?|?]; [congruence|done].
Qed.

Lemma list_remove_PStr (x : string) (tags : list string) :
  list_remove x (PStr <$> tags) = PStr <$> remove_first x tags.
Proof.
  induction tags as [|y tags IH]; [done|].
  rewrite fmap_cons. cbn [list_remove remove_first is_str].
  destruct (String.eqb y x); [done|]. by rewrite fmap_cons, IH.
Qed.

Lemma toggle_tags (selected_option : string) (tags : list string) :
  toggle selected_option (PList (PStr <$> tags))
  = Ok (PList (PStr <$> toggled selected_option tags)).
Proof.
  unfold toggle, toggled. rewrite existsb_is_str.
  destruct (bool_decide _); [by rewrite list_remove_PStr|].
  by rewrite fmap_app.
Qed.

Lemma remove_first_subseteq (x : string) (tags : list string) :
  remove_first x tags ⊆ tags.
Proof.
  induction tags as [|y tags IH]; [done|]. simpl.
  destruct (String.eqb y x).
  - intros z Hz. by right.
  - intros z [->|Hz]%elem_of_cons; [by left|right; by apply IH].
Qed.

Lemma remove_first_NoDup (x : string) (tags : list string) :
  NoDup tags -> NoDup (remove_first x tags) /\ x ∉ remove_first x tags.
Proof.
  induction 1 as [|y tags Hy Hnd [IH1 IH2]]; simpl.
  - split; [constructor|by intros ?%elem_of_nil].
  - destruct (String.eqb_spec y x) as [->|Hne]; [done|].
    split.
    + constructor; [|done]. intros Hin. by apply remove_first_subseteq in Hin.
    + intros [?|?]%elem_of_cons; [congruence|done].
Qed.

Lemma remove_first_notin (x : string) (tags : list string) :
  x ∉ tags -> remove_first x (tags ++ [x]) = tags.
Proof.
  induction tags as [|y tags IH]; simpl; intros Hx.
  - by rewrite String.eqb_refl.
  - destruct (String.eqb_spec y x) as [->|Hne]; [set_solver|].
    rewrite IH; [done|set_solver].
Qed.

Lemma remove_first_Permutation (x : string) (tags : list string) :
  x ∈ tags -> remove_first x tags ++ [x] ≡ₚ tags.
Proof.
  induction tags as [|y tags IH]; simpl; [by intros ?%elem_of_nil|].
  destruct (String.eqb_spec y x) as [->|Hne].
  - intros _. by rewrite <- Permutation_cons_append.
  - intros [?|Hin]%elem_of_cons; [congruence|].
    simpl. by rewrite IH.
Qed.

Lemma toggled_NoDup (x : string) (tags : list string) :
  NoDup tags -> NoDup (toggled x tags).
Proof.
  intros Hnd. unfold toggled. case_bool_decide as Hin.
  - by apply remove_first_NoDup.
  - apply NoDup_app. split; [done|]. split; [|apply NoDup_singleton].
    intros y Hy ->%list_elem_of_singleton. done.
Qed.

Lemma toggled_twice (x : string) (tags : list string) :
  NoDup tags ->
  toggled x (toggled x tags) ≡ₚ tags /\
  (x ∉ tags -> toggled x (toggled x tags) = tags).
Proof.
  intros Hnd.
  assert (x ∉ tags -> toggled x (toggled x tags) = tags) as Hout.
  { intros Hin. unfold toggled. rewrite (bool_decide_false (x ∈ tags)) by done.
    rewrite bool_decide_true by (apply elem_of_app; right; by left).
    by apply remove_first_notin. }
  split; [|done].
  destruct (decide (x ∈ tags)) as [Hin|Hin]; [|by rewrite Hout].
  unfold toggled. rewrite (bool_decide_true (x ∈ tags)) by done.
  rewrite bool_decide_false by by apply remove_first_NoDup.
  by apply remove_first_Permutation.
Qed.

Lemma rmapM_as_str (l : list string) :
  rmapM WorkUaParser.as_str (PStr <$> l) = Ok l.
Proof.
  induction l as [|x l IH]; [done|].
  rewrite fmap_cons. cbn [rmapM WorkUaParser.as_str mbind result_bind].
  by rewrite IH.
Qed.

Lemma selected_text_tags (tags : list string) :
  selected_text (PList (PStr <$> tags))
  = Ok (match tags with [] => "None" | _ => PyStr.join ", " tags end).
Proof.
  destruct tags as [|tag tags]; [done|].
  unfold selected_text.
  change (py_truthy (PList (PStr <$> tag :: tags))) with true.
  cbn [py_iter mbind result_bind]. by rewrite rmapM_as_str.
Qed.

Lemma rmapM_total {A B} (f : A -> result B) (l : list A) :
  (forall x, is_ok (f x)) -> is_ok (rmapM f l).
Proof.
  intros Hf. induction l as [|x l [ys IH]]; [by eexists|].
  destruct (Hf x) as [y Hy]. simpl. rewrite Hy, IH. by eexists.
Qed.

Lemma build_experience_keyboard_total (self : t) (l : list pyval) :
  exists reply_markup, build_experience_keyboard self (PList l) = Ok reply_markup.
Proof.
  unfold build_experience_keyboard.
  match goal with
  | |- context [rmapM ?f ?m] => destruct (rmapM_total f m) as [rows Hrows]
  end.
  - intros [key label]. by eexists.
  - rewrite Hrows. by eexists.
Qed.

Lemma dict_set_values (k v : string) (d : list (string * string)) (P : string -> Prop) :
  P v -> Forall (fun kv => P kv.2) d -> Forall (fun kv => P kv.2) (dict_set k v d).
Proof.
  intros Hv. induction 1 as [|[k' v'] d Hkv Hd IH]; simpl.
  - by repeat constructor.
  - destruct (String.eqb k' k); constructor; done.
Qed.

Lemma mapping_get_value (d : list (string * string)) (k v : string)
    (P : string -> Prop) :
  Forall (fun kv => P kv.2) d -> mapping_get d k = Some v -> P v.
Proof.
  induction 1 as [|[k' v'] d Hkv Hd IH]; simpl; [done|].
  destruct (String.eqb k' k); [by intros [= <-]|done].
Qed.

Lemma get_experience_mapping_values (self : t) (query_data selected_option : string) :
  mapping_get (get_experience_mapping self) query_data = Some selected_option ->
  selected_option ∈ (EXPERIENCE_OPTIONS self).*1.
Proof.
  apply (mapping_get_value _ _ _ (fun v => v ∈ (EXPERIENCE_OPTIONS self).*1)).
  unfold get_experience_mapping.
  assert (forall options mapping,
            Forall (fun kv => kv.2 ∈ (EXPERIENCE_OPTIONS self).*1) mapping ->
            Forall (fun kl => kl.1 ∈ (EXPERIENCE_OPTIONS self).*1) options ->
            Forall (fun kv => kv.2 ∈ (EXPERIENCE_OPTIONS self).*1)
                   (foldl (fun mapping '(key, label) => dict_set label key mapping)
                          mapping options)) as Hfold.
  { induction options as [|[key label] options IH]; intros mapping Hm Ho; [done|].
    apply Forall_cons in Ho as [Hkey Ho]. simpl.
    apply IH; [|done].
    by apply (dict_set_values _ _ _ (fun v => v ∈ (EXPERIENCE_OPTIONS self).*1)). }
  apply Hfold; [constructor|].
  apply Forall_forall. intros [key label] Hin.
  apply list_elem_of_fmap. by exists (key, label).
Qed.

Lemma settled_insert_search (self : t) (options : gmap string pyval) (s : string) :
  settled self options -> settled self (<["search" := PStr s]> options).
Proof.
  intros [? ? ? ? ?]. split; rewrite ?lookup_insert_ne by done; try done.
  exists s. by rewrite lookup_insert_eq.
Qed.

Lemma settled_insert_region (self : t) (options : gmap string pyval) (r : string) :
  settled self options -> settled self (<["region" := PStr r]> options).
Proof.
  intros [? ? ? ? ?]. split; rewrite ?lookup_insert_ne by done; try done.
  exists r. by rewrite lookup_insert_eq.
Qed.

Lemma settled_insert_salary_from (self : t) (options : gmap string pyval) (n : Z) :
  settled self options -> settled self (<["salary_from" := PInt n]> options).
Proof.
  intros [? ? ? ? ?]. split; rewrite ?lookup_insert_ne by done; try done.
  right. exists n. by rewrite lookup_insert_eq.
Qed.

Lemma settled_insert_salary_to (self : t) (options : gmap string pyval) (n : Z) :
  settled self options -> settled self (<["salary_to" := PInt n]> options).
Proof.
  intros [? ? ? ? ?]. split; rewrite ?lookup_insert_ne by done; try done.
  right. exists n. by rewrite lookup_insert_eq.
Qed.

Lemma settled_insert_experience (self : t) (options : gmap string pyval)
    (tags : list string) :
  NoDup tags -> Forall (fun tag => tag ∈ (EXPERIENCE_OPTIONS self).*1) tags ->
  settled self options ->
  settled self (<["experience" := PList (PStr <$> tags)]> options).
Proof.
  intros Hnd Htags [? ? ? ? ?]. split; rewrite ?lookup_insert_ne by done; try done.
  exists tags. by rewrite lookup_insert_eq.
Qed.

Lemma settled_start (self : t) (salary : pyval) :
  salary = PStr "" \/ (exists n, salary = PInt n) ->
  settled self {[ "search" := PStr ""; "region" := PStr "";
                  "salary_from" := salary; "salary_to" := salary;
                  "experience" := PList [] ]}.
Proof.
  intros Hsalary. split.
  - by exists "".
  - by exists "".
  - destruct Hsalary as [->|[n ->]]; [by left|right; by exists n].
  - destruct Hsalary as [->|[n ->]]; [by left|right; by exists n].
  - exists []. split; [done|]. split; constructor.
Qed.

Lemma all_settled_insert (self : t) (user_data : gmap Z user) (chat_id : Z)
    (u : user) :
  all_settled self user_data -> settled self (search_options u) ->
  all_settled self (<[chat_id := u]> user_data).
Proof.
  intros Hall Hu c u'. destruct (decide (c = chat_id)) as [->|Hne].
  - rewrite lookup_insert_eq. by intros [= <-].
  - rewrite lookup_insert_ne by done. apply Hall.
Qed.

Lemma all_settled_set_state (self : t) (chat_id : Z) (s : UserState)
    (sent : list message) (user_data : gmap Z user) :
  all_settled self user_data ->
  all_settled self (data (set_state chat_id s sent user_data)).
Proof.
  intros Hall. unfold set_state.
  destruct (user_data !! chat_id) as [u|] eqn:Hu; [|done].
  simpl. apply all_settled_insert; [done|]. exact (Hall chat_id u Hu).
Qed.

Lemma string_prefix_app (p s : string) :
  String.prefix p s = true -> exists rest, s = (p ++ rest)%string.
Proof.
  revert s. induction p as [|c p IH]; intros s.
  - by exists s.
  - destruct s as [|c' s]; [done|]. cbn [String.prefix].
    destruct (ascii_dec c c') as [->|]; [|done].
    intros [rest ->]%IH. by exists rest.
Qed.

Lemma split_go_cons (sep : string) (skip : nat) (cur s : string) :
  exists part parts, PyStr.split_go sep skip cur s = part :: parts.
Proof.
  revert skip cur. induction s as [|c s IH]; intros skip cur;
    cbn [PyStr.split_go].
  - by eexists _, _.
  - destruct skip as [|k]; [|apply IH].
    destruct (String.prefix sep (String c s)); [|apply IH].
    by eexists _, _.
Qed.

Lemma split_colon_other (c : ascii) (cur s : string) :
  c <> ":"%char ->
  PyStr.split_go ":" 0 cur (String c s) = PyStr.split_go ":" 0 (String c cur) s.
Proof.
  intros Hc. cbn [PyStr.split_go String.prefix].
  destruct (ascii_dec ":" c); [congruence|done].
Qed.

Lemma split_colon (cur s : string) :
  PyStr.split_go ":" 0 cur (String ":" s)
  = PyStr.reverse cur :: PyStr.split_go ":" 0 "" s.
Proof.
  cbn [PyStr.split_go String.prefix String.length Nat.sub].
  destruct (ascii_dec ":" ":"); [|done]. by destruct s.
Qed.

Lemma string_append_cons (c : ascii) (s s' : string) :
  (String c s ++ s')%string = String c (s ++ s')%string.
Proof. reflexivity. Qed.

Lemma string_append_nil (s : string) : ("" ++ s)%string = s.
Proof. reflexivity. Qed.

Lemma salary_figure (prefix rest : string) :
  prefix = "salary_from:" \/ prefix = "salary_to:" ->
  exists key figure parts,
    PyStr.split ":" (prefix ++ rest)%string = key :: figure :: parts /\
    PyStr.split_go ":" 0 "" rest = figure :: parts.
Proof.
  destruct (split_go_cons ":" 0 "" rest) as (part & parts & Hrest).
  intros [-> | ->]; unfold PyStr.split;
    rewrite !string_append_cons, !string_append_nil;
    rewrite !split_colon_other by discriminate;
    rewrite split_colon, Hrest; by eexists _, part, parts.
Qed.

End HandlerFacts.

Section HandlerInvariant.
Context `{!Builtins}.
Import Handlers HandlersAux.

Local Ltac raises_nothing := let e := fresh "e" in intros e; discriminate.

Lemma set_state_step (self : t) (chat_id : Z) (s : UserState)
    (sent : list message) (user_data : gmap Z user) :
  all_settled self user_data ->
  all_settled self (data (set_state chat_id s sent user_data)) /\
  forall e, exception (set_state chat_id s sent user_data) = Some e ->
            data (set_state chat_id s sent user_data) = user_data /\
            e = UnknownChat chat_id.
Proof.
  intros Hall. split; [by apply all_settled_set_state|].
  unfold set_state. destruct (user_data !! chat_id); simpl; [raises_nothing|].
  by intros e [= <-].
Qed.

Lemma set_salary_step (self : t) (chat_id : Z) (prefix key query_data : string)
    (s : UserState) (sent : list message) (user_data : gmap Z user) :
  prefix = "salary_from:" \/ prefix = "salary_to:" ->
  key = "salary_from" \/ key = "salary_to" ->
  String.prefix prefix query_data = true ->
  all_settled self user_data ->
  all_settled self (data (set_salary chat_id key query_data s sent user_data)) /\
  forall e,
    exception (set_salary chat_id key query_data s sent user_data) = Some e ->
    data (set_salary chat_id key query_data s sent user_data) = user_data /\
    (e = UnknownChat chat_id \/ e = ValueError).
Proof.
  intros Hprefix Hkey [rest ->]%string_prefix_app Hall. unfold set_salary.
  destruct (salary_figure prefix rest Hprefix) as (k & figure & parts & -> & _).
  cbn [list_getitem lookup list_lookup].
  destruct (py_int figure) as [n|]; [|split; [done|]; intros e [= <-]; auto].
  destruct (user_data !! chat_id) as [u|] eqn:Hu;
    [|split; [done|]; intros e [= <-]; auto].
  split; [|raises_nothing]. simpl.
  apply all_settled_insert; [done|]. simpl.
  destruct Hkey as [-> | ->];
    [apply settled_insert_salary_from|apply settled_insert_salary_to];
    exact (Hall chat_id u Hu).
Qed.

Lemma experience_callback_step (self : t) (chat_id : Z) (query_data : string)
    (user_data : gmap Z user) :
  all_settled self user_data ->
  all_settled self (data (experience_callback self chat_id query_data user_data)) /\
  forall e,
    exception (experience_callback self chat_id query_data user_data) = Some e ->
    data (experience_callback self chat_id query_data user_data) = user_data /\
    (e = UnknownChat chat_id \/ e = Py (KeyError query_data)).
Proof.
  intros Hall. unfold experience_callback.
  destruct (user_data !! chat_id) as [u|] eqn:Hu;
    [|split; [done|]; intros e [= <-]; auto].
  pose proof (Hall chat_id u Hu) as Hsettled.
  destruct (settled_experience _ _ Hsettled) as (tags & Htags & Hnd & Hin).
  rewrite Htags. cbv zeta. cbn [default from_option id].
  destruct (String.eqb query_data "experience_complete").
  { rewrite selected_text_tags.
    destruct (set_state_step self chat_id FREE
                [ExperienceSelectionCompleted
                   (match tags with [] => "None" | _ => PyStr.join ", " tags end)]
                user_data Hall) as [Hdata Hexc].
    split; [done|]. intros e He. destruct (Hexc e He) as [? ->]. auto. }
  destruct (String.eqb query_data "experience_reset").
  { destruct (build_experience_keyboard_total self (PStr <$> tags)) as [kb ->].
    split; [|raises_nothing]. simpl.
    apply all_settled_insert; [done|]. simpl.
    apply (settled_insert_experience self _ []); [constructor|constructor|done]. }
  destruct (mapping_get _ _) as [selected_option|] eqn:Hoption;
    [|split; [done|]; intros e [= <-]; auto].
  rewrite toggle_tags, selected_text_tags.
  destruct (build_experience_keyboard_total self
              (PStr <$> toggled selected_option tags)) as [kb ->].
  cbn [mbind result_bind].
  split; [|raises_nothing]. simpl.
  apply all_settled_insert; [done|]. simpl.
  apply settled_insert_experience; [by apply toggled_NoDup| |done].
  unfold toggled. case_bool_decide.
  - apply Forall_forall. intros tag Htag%remove_first_subseteq.
    by eapply Forall_forall in Hin.
  - apply Forall_app. split; [done|]. constructor; [|constructor].
    by eapply get_experience_mapping_values.
Qed.

Lemma handle_step (self : t) (u : update) (user_data : gmap Z user) :
  all_settled self user_data ->
  all_settled self (data (handle self u user_data)) /\
  forall e,
    exception (handle self u user_data) = Some e ->
    data (handle self u user_data) = user_data /\
    ((exists chat_id, e = UnknownChat chat_id) \/ e = ValueError \/
     exists query_data, e = Py (KeyError query_data)).
Proof.
  intros Hall. destruct u as [c|c|c|c text|c|c q|c|c q|c text]; cbn [handle].
  - split; [|raises_nothing]. unfold start. simpl.
    apply all_settled_insert; [done|]. simpl.
    apply settled_start. right. by exists 0.
  - unfold stop. destruct (user_data !! c) as [u|] eqn:Hu; simpl.
    + split; [|raises_nothing].
      intros c' u' [_ Hu']%lookup_delete_Some. by apply (Hall c').
    + split; [done|]. intros e [= <-]. split; [done|]. left. by exists c.
  - split; [|raises_nothing]. unfold clear. simpl.
    apply all_settled_insert; [done|]. simpl.
    apply settled_start. by left.
  - unfold set_parameter.
    destruct (String.prefix "/keywords" text);
      [|destruct (String.prefix "/region" text)].
    + destruct (set_state_step self c ASKING_KEYWORDS [PleaseProvideSearchQuery]
                  user_data Hall) as [Hdata Hexc].
      split; [done|]. intros e He. destruct (Hexc e He) as [? ->].
      split; [done|]. left. by exists c.
    + destruct (set_state_step self c ASKING_REGION [PleaseProvideRegion]
                  user_data Hall) as [Hdata Hexc].
      split; [done|]. intros e He. destruct (Hexc e He) as [? ->].
      split; [done|]. left. by exists c.
    + split; [done|raises_nothing].
  - unfold experience. destruct (user_data !! c) as [u|] eqn:Hu.
    2:{ split; [done|]. intros e [= <-]. split; [done|]. left. by exists c. }
    destruct (settled_experience _ _ (Hall c u Hu)) as (tags & Htags & _).
    unfold kw_getitem. rewrite Htags.
    destruct (build_experience_keyboard_total self (PStr <$> tags)) as [kb ->].
    destruct (set_state_step self c ASKING_EXPERIENCE [PleaseChooseExperience kb]
                user_data Hall) as [Hdata Hexc].
    split; [done|]. intros e He. destruct (Hexc e He) as [? ->].
    split; [done|]. left. by exists c.
  - destruct (experience_callback_step self c q user_data Hall) as [Hdata Hexc].
    split; [done|]. intros e He. destruct (Hexc e He) as [? [-> | ->]].
    + split; [done|]. left. by exists c.
    + split; [done|]. right; right. by exists q.
  - unfold salary, set_state. destruct (user_data !! c) as [u|] eqn:Hu; simpl.
    + split; [|raises_nothing].
      apply all_settled_insert; [done|]. exact (Hall c u Hu).
    + split; [done|]. intros e [= <-]. split; [done|]. left. by exists c.
  - unfold salary_callback.
    destruct (String.prefix "salary_from:" q) eqn:Hfrom;
      [|destruct (String.prefix "salary_to:" q) eqn:Hto].
    + destruct (set_salary_step self c "salary_from:" "salary_from" q
                  ASKING_SALARY_TO
                  [SelectMaximumSalary
                     (salary_keyboard "salary_to:" (SALARY_TO_OPTIONS self))]
                  user_data) as [Hdata Hexc]; auto.
      split; [done|]. intros e He. destruct (Hexc e He) as [? [-> | ->]].
      * split; [done|]. left. by exists c.
      * split; [done|]. right; by left.
    + destruct (set_salary_step self c "salary_to:" "salary_to" q
                  FREE [SalaryRangeSet] user_data) as [Hdata Hexc]; auto.
      split; [done|]. intros e He. destruct (Hexc e He) as [? [-> | ->]].
      * split; [done|]. left. by exists c.
      * split; [done|]. right; by left.
    + split; [done|raises_nothing].
  - unfold accept_parameter. destruct (user_data !! c) as [u|] eqn:Hu.
    2:{ split; [done|raises_nothing]. }
    pose proof (Hall c u Hu) as Hsettled.
    destruct (state u); simpl; (split; [|raises_nothing]);
      (apply all_settled_insert; [done|]); simpl;
      first [exact Hsettled
            |by apply settled_insert_search
            |by apply settled_insert_region].
Qed.

Lemma run_from_settled (self : t) (updates : list update)
    (user_data : gmap Z user) :
  all_settled self user_data ->
  all_settled self (run_from self user_data updates).
Proof.
  revert user_data. induction updates as [|u updates IH]; intros user_data Hall;
    [done|].
  apply IH. by apply handle_step.
Qed.

Lemma all_settled_empty (self : t) : all_settled self ∅.
Proof. intros c u Hu. by rewrite lookup_empty in Hu. Qed.

Lemma conversation_settled_aux (self : t) (updates : list update)
    (chat_id : Z) (u : user) :
  run_from self ∅ updates !! chat_id = Some u ->
  settled self (search_options u).
Proof.
  apply (run_from_settled self updates ∅ (all_settled_empty self)).
Qed.

End HandlerInvariant.

Section ConversationFacts.
Context `{!Pydantic, !Builtins} {W R : Type}.
Context `{!BaseParser.BaseParser W, !BaseParser.BaseParser R}.
Import Handlers HandlersAux.

(** X15. Whatever updates arrive, in whatever order and whether their
    handlers raise or not, every chat of [__user_data] keeps search
    options with the five keys of [/start]: the keywords and the region
    are strings, each salary bound is an [int] or the empty string, and
    the experience is a list of distinct keys of the experience table. *)
Theorem conversation_keeps_options_settled (self : t) (updates : list update)
    (chat_id : Z) (u : user) :
  run_from self ∅ updates !! chat_id = Some u ->
  settled self (search_options u).
Proof.
  apply (run_from_settled self updates ∅ (all_settled_empty self)).
Qed.


(** X17. The request for keywords is never the answer to [/search]: the
    options of a chat always have the key [search], so the test for it
    never fires.  A chat that has only typed [/start] searches for the
    empty string, in the empty region, with both salary bounds 0 and no
    experience. *)
Theorem keywords_request_unreachable (bot : TelegramResumeBot.t W R) (self : t)
    (updates : list update) (chat_id : Z) :
  let user_data := run_from self ∅ updates in
  search_resumes bot chat_id user_data
  <> inr TelegramResumeBot.PleaseProvideKeywords /\
  (user_data !! chat_id = None ->
   search_resumes bot chat_id user_data = inl (UnknownChat chat_id)) /\
  (exists u, data (start chat_id user_data) !! chat_id = Some u /\
             SearchOptions_init (search_options u)
             = Ok {| search := ""; region := Some ""; salary_from := Some 0;
                     salary_to := Some 0; experience_tags := Some [] |}).
Proof.
  intros user_data. split; [|split].
  - unfold search_resumes.
    destruct (user_data !! chat_id) as [u|] eqn:Hu; [|done].
    destruct (settled_search _ _ (conversation_settled_aux self updates chat_id u Hu))
      as [s Hs].
    unfold TelegramResumeBot.search_resumes. rewrite Hs.
    destruct (SearchOptions_init _) as [so|]; cbn [mbind result_bind]; [|done].
    destruct (BaseParser.search_resumes (TelegramResumeBot.work_ua_parser bot) so)
      as [w|]; cbn [mbind result_bind]; [|done].
    destruct (BaseParser.search_resumes (TelegramResumeBot.robota_ua_parser bot) so)
      as [r|]; cbn [mbind result_bind]; [|done].
    destruct (TelegramResumeBot.list_add w r); cbn [mbind result_bind]; done.
  - intros Hu. unfold search_resumes. by rewrite Hu.
  - eexists. split; [apply lookup_insert_eq|].
    cbn [search_options]. unfold SearchOptions_init, field.
    repeat (rewrite ?lookup_insert_eq, ?lookup_insert_ne by done;
            cbn [mbind result_bind validate_optional_str validate_optional_int
                 validate_optional_str_list rmapM];
            rewrite ?validate_str_str, ?validate_int_int).
    done.
Qed.

End ConversationFacts.

Section ClearFacts.
Context `{!Pydantic, !Builtins} {W R : Type}.
Context `{!BaseParser.BaseParser W, !BaseParser.BaseParser R}.
Import Handlers HandlersAux.

(** The lower salary bound of a chat is the empty string. *)
Let cleared (chat_id : Z) (user_data : gmap Z user) : Prop :=
  exists u, user_data !! chat_id = Some u /\
            search_options u !! "salary_from" = Some (PStr "").

Lemma cleared_insert (chat_id c : Z) (u : user) (user_data : gmap Z user) :
  cleared chat_id user_data ->
  (c = chat_id -> search_options u !! "salary_from" = Some (PStr "")) ->
  cleared chat_id (<[c := u]> user_data).
Proof.
  intros (u0 & Hu0 & Hfrom) Hu. destruct (decide (c = chat_id)) as [->|Hne].
  - exists u. split; [apply lookup_insert_eq|by apply Hu].
  - exists u0. by rewrite lookup_insert_ne.
Qed.

Lemma cleared_set_state (chat_id c : Z) (s : UserState) (sent : list message)
    (user_data : gmap Z user) :
  cleared chat_id user_data ->
  cleared chat_id (data (set_state c s sent user_data)).
Proof.
  intros Hcleared. unfold set_state.
  destruct (user_data !! c) as [u|] eqn:Hu; [|done]. simpl.
  apply cleared_insert; [done|]. intros ->.
  destruct Hcleared as (u0 & Hu0 & Hfrom). simpl. congruence.
Qed.

Lemma handle_cleared (self : t) (chat_id : Z) (u : update)
    (user_data : gmap Z user) :
  all_settled self user_data ->
  keeps_salary_from chat_id u ->
  cleared chat_id user_data ->
  cleared chat_id (data (handle self u user_data)).
Proof.
  intros Hall Hkeeps Hcleared.
  pose proof Hcleared as (u0 & Hu0 & Hfrom).
  destruct u as [c|c|c|c text|c|c q|c|c q|c text]; cbn [handle];
    cbn [keeps_salary_from] in Hkeeps.
  - unfold start. simpl. apply cleared_insert; [done|]. congruence.
  - unfold stop. destruct (user_data !! c) as [u|] eqn:Hu; [|done]. simpl.
    exists u0. by rewrite lookup_delete_ne.
  - unfold clear. simpl. apply cleared_insert; [done|]. by intros _.
  - unfold set_parameter.
    destruct (String.prefix "/keywords" text);
      [|destruct (String.prefix "/region" text)];
      [by apply cleared_set_state..|done].
  - unfold experience. destruct (user_data !! c) as [u|] eqn:Hu; [|done].
    destruct (kw_getitem _ _); [|done].
    destruct (build_experience_keyboard _ _); [|done].
    by apply cleared_set_state.
  - unfold experience_callback.
    destruct (user_data !! c) as [u|] eqn:Hu; [|done].
    assert (c = chat_id -> search_options u !! "salary_from" = Some (PStr ""))
      as Hsame by (intros ->; congruence).
    cbv zeta.
    destruct (String.eqb q "experience_complete").
    { destruct (selected_text _); [|done]. by apply cleared_set_state. }
    destruct (String.eqb q "experience_reset").
    { assert (cleared chat_id
                (<[c := {| state := state u;
                           search_options :=
                             <["experience" := PList []]> (search_options u) |}]>
                   user_data)) as Hreset.
      { apply cleared_insert; [done|]. intros Hc. simpl.
        rewrite lookup_insert_ne by done. by apply Hsame. }
      by destruct (build_experience_keyboard _ _). }
    destruct (mapping_get _ _); [|done].
    destruct (toggle _ _) as [selected|]; [|done].
    match goal with
    | |- cleared _ (data (match _ with Ok _ => done _ ?d | Raise _ => raise _ ?d _ end)) =>
        assert (cleared chat_id d) as Htoggle
    end.
    { destruct (search_options u !! "experience"); [|done].
      apply cleared_insert; [done|]. intros Hc. simpl.
      rewrite lookup_insert_ne by done. by apply Hsame. }
    by destruct (_ ≫= _).
  - unfold salary, set_state. destruct (user_data !! c) as [u|] eqn:Hu; [|done].
    simpl. apply cleared_insert; [done|]. intros ->. simpl. congruence.
  - unfold salary_callback.
    destruct (String.prefix "salary_from:" q) eqn:Hprefix.
    { destruct Hkeeps as [Hc|?]; [|done]. unfold set_salary.
      destruct (list_getitem _ _); [|done]. destruct (py_int _); [|done].
      destruct (user_data !! c); [|done]. simpl.
      apply cleared_insert; [done|]. congruence. }
    destruct (String.prefix "salary_to:" q); [|done]. unfold set_salary.
    destruct (list_getitem _ _); [|done]. destruct (py_int _); [|done].
    destruct (user_data !! c) as [u|] eqn:Hu; [|done]. simpl.
    apply cleared_insert; [done|]. intros ->. simpl.
    rewrite lookup_insert_ne by done. congruence.
  - unfold accept_parameter. destruct (user_data !! c) as [u|] eqn:Hu; [|done].
    assert (c = chat_id -> search_options u !! "salary_from" = Some (PStr ""))
      as Hsame by (intros ->; congruence).
    destruct (state u); simpl; (apply cleared_insert; [done|]); intros Hc; simpl;
      rewrite ?lookup_insert_ne by done; by apply Hsame.
Qed.

Lemma run_from_cleared (self : t) (chat_id : Z) (updates : list update)
    (user_data : gmap Z user) :
  all_settled self user_data ->
  Forall (keeps_salary_from chat_id) updates ->
  cleared chat_id user_data ->
  cleared chat_id (run_from self user_data updates).
Proof.
  intros Hall Hkeeps. revert user_data Hall.
  induction Hkeeps as [|u updates Hu _ IH]; intros user_data Hall Hcleared;
    [done|].
  apply IH; [by apply handle_step|by apply handle_cleared].
Qed.

(** X18. [/clear] puts the empty string where [/start] puts 0, and a
    search validates the salary bounds as integers.  So when the
    validation refuses the empty string, [/search] fails with its error
    from [/clear] on, whatever keywords, region or experience are given,
    until the lower salary bound is chosen again or the chat restarts. *)
Theorem search_after_clear (bot : TelegramResumeBot.t W R) (self : t)
    (before after : list update) (chat_id : Z) (e : py_error) :
  validate_int (PStr "") = Raise e ->
  Forall (keeps_salary_from chat_id) after ->
  let user_data :=
    run_from self ∅ (before ++ ClearCommand chat_id :: after) in
  search_resumes bot chat_id user_data = inl (Py e).
Proof.
  intros Hint Hkeeps user_data.
  assert (all_settled self user_data) as Hall
    by apply run_from_settled, all_settled_empty.
  assert (cleared chat_id user_data) as (u & Hu & Hfrom).
  { unfold user_data, run_from. rewrite foldl_app. cbn [foldl handle].
    apply run_from_cleared; [|done|].
    - apply (handle_step self (ClearCommand chat_id)).
      apply run_from_settled, all_settled_empty.
    - exists {| state := FREE;
                search_options :=
                  {[ "search" := PStr ""; "region" := PStr "";
                     "salary_from" := PStr ""; "salary_to" := PStr "";
                     "experience" := PList [] ]} |}.
      split; [apply lookup_insert_eq|done]. }
  destruct (Hall chat_id u Hu) as [[s Hs] [r Hr] _ _ _].
  unfold search_resumes. rewrite Hu.
  unfold TelegramResumeBot.search_resumes. rewrite Hs.
  unfold SearchOptions_init, field. rewrite Hs, Hr, Hfrom.
  cbn [mbind result_bind validate_optional_str validate_optional_int].
  rewrite !validate_str_str. cbn [mbind result_bind]. by rewrite Hint.
Qed.

End ClearFacts.

Section ExperienceFacts.
Import Handlers HandlersAux KeyboardAux.

Lemma rmapM_pure {A B} (f : A -> result B) (g : A -> B) (l : list A) :
  (forall x, f x = Ok (g x)) -> rmapM f l = Ok (map g l).
Proof.
  intros Hf. induction l as [|x l IH]; [done|].
  simpl. by rewrite Hf, IH.
Qed.

Lemma build_experience_keyboard_rows (self : t) (tags : list string) :
  build_experience_keyboard self (PList (PStr <$> tags))
  = Ok (map (experience_row tags) (get_experience_mapping self) ++ [last_row]).
Proof.
  unfold build_experience_keyboard.
  match goal with
  | |- context [rmapM ?f ?m] =>
      rewrite (rmapM_pure f (experience_row tags) m)
  end; [done|].
  intros [key label]. cbn [py_in mbind result_bind].
  by rewrite existsb_is_str.
Qed.

(** X19. Two presses on the same experience button undo each other: the
    selection holds the same options afterwards, and when the option was
    not selected before, [__user_data] is exactly what it was.  When it
    was selected, it is now the last of the list. *)
Theorem experience_callback_twice (self : t) (chat_id : Z)
    (query_data selected_option : string) (user_data : gmap Z user)
    (u : user) (tags : list string) :
  user_data !! chat_id = Some u ->
  search_options u !! "experience" = Some (PList (PStr <$> tags)) ->
  NoDup tags ->
  query_data <> "experience_complete" ->
  query_data <> "experience_reset" ->
  mapping_get (get_experience_mapping self) query_data = Some selected_option ->
  let once := data (experience_callback self chat_id query_data user_data) in
  let twice := data (experience_callback self chat_id query_data once) in
  exists tags',
    twice = <[chat_id := {| state := state u;
                            search_options :=
                              <["experience" := PList (PStr <$> tags')]>
                                (search_options u) |}]> user_data /\
    tags' ≡ₚ tags /\
    (selected_option ∉ tags -> twice = user_data) /\
    (selected_option ∈ tags -> last tags' = Some selected_option).
Proof.
  intros Hu Htags Hnd Hcomplete Hreset Hoption once twice.
  assert (forall d v l,
            d !! chat_id = Some v ->
            search_options v !! "experience" = Some (PList (PStr <$> l)) ->
            data (experience_callback self chat_id query_data d)
            = <[chat_id := {| state := state v;
                              search_options :=
                                <["experience" :=
                                    PList (PStr <$> toggled selected_option l)]>
                                  (search_options v) |}]> d) as Hpress.
  { intros d v l Hv Hl. unfold experience_callback. rewrite Hv, Hl.
    cbv zeta. cbn [default from_option id].
    rewrite (proj2 (String.eqb_neq _ _) Hcomplete).
    rewrite (proj2 (String.eqb_neq _ _) Hreset).
    rewrite Hoption, toggle_tags, selected_text_tags,
      build_experience_keyboard_rows.
    reflexivity. }
  exists (toggled selected_option (toggled selected_option tags)).
  assert (twice = <[chat_id := {| state := state u;
                      search_options :=
                        <["experience" :=
                            PList (PStr <$> toggled selected_option
                                              (toggled selected_option tags))]>
                          (search_options u) |}]> user_data) as Htwice.
  { unfold twice, once. rewrite (Hpress user_data u tags Hu Htags).
    rewrite (Hpress _ _ (toggled selected_option tags)
               (lookup_insert_eq _ _ _) (lookup_insert_eq _ _ _)).
    cbn [state search_options]. by rewrite !insert_insert_eq. }
  destruct (toggled_twice selected_option tags Hnd) as [Hperm Hout].
  split; [done|]. split; [done|]. split.
  - intros Hnotin. rewrite Htwice, (Hout Hnotin).
    rewrite (insert_id (search_options u)) by done.
    apply insert_id. rewrite Hu. by destruct u.
  - intros Hin. unfold toggled at 2. rewrite bool_decide_true by done.
    unfold toggled. rewrite bool_decide_false by by apply remove_first_NoDup.
    by rewrite last_snoc.
Qed.

(** X20. The keyboard sent with the reset message is built from the
    selection as it was before the reset: it ticks every option that was
    selected, although [__user_data] now holds the empty selection, for
    which [/experience] sends a keyboard without a tick. *)
Theorem experience_reset_keeps_ticks (self : t) (chat_id : Z)
    (user_data : gmap Z user) (u : user) (tags : list string) :
  user_data !! chat_id = Some u ->
  search_options u !! "experience" = Some (PList (PStr <$> tags)) ->
  let after_reset :=
    <[chat_id := {| state := state u;
                    search_options :=
                      <["experience" := PList []]> (search_options u) |}]>
      user_data in
  let old_keyboard :=
    map (experience_row tags) (get_experience_mapping self) ++ [last_row] in
  let new_keyboard :=
    map (experience_row []) (get_experience_mapping self) ++ [last_row] in
  experience_callback self chat_id "experience_reset" user_data
  = done [ExperienceOptionsReset old_keyboard] after_reset /\
  sent (experience self chat_id after_reset)
  = [PleaseChooseExperience new_keyboard] /\
  Forall (fun row => Forall (fun b => ticked b = false) row) new_keyboard /\
  (forall item, item ∈ get_experience_mapping self -> item.2 ∈ tags ->
                [ {| button_text := Ticked item.2; callback_data := item.1 |} ]
                ∈ old_keyboard).
Proof.
  intros Hu Htags after_reset old_keyboard new_keyboard. split; [|split; [|split]].
  - unfold experience_callback. rewrite Hu, Htags.
    cbv zeta. cbn [default from_option id String.eqb Ascii.eqb Bool.eqb].
    by rewrite build_experience_keyboard_rows.
  - unfold experience, after_reset. rewrite lookup_insert_eq.
    cbn [search_options]. unfold kw_getitem. rewrite lookup_insert_eq.
    change (PList []) with (PList (PStr <$> [])).
    rewrite build_experience_keyboard_rows.
    unfold set_state. by rewrite lookup_insert_eq.
  - apply Forall_app. split; [|by repeat constructor].
    apply Forall_forall. intros row (item & -> & _)%list_elem_of_fmap.
    repeat constructor.
  - intros item Hitem Hin. apply elem_of_app. left.
    apply list_elem_of_fmap. exists item. split; [|done].
    unfold experience_row. by rewrite bool_decide_true.
Qed.

End ExperienceFacts.

(** ** Integers in callback data *)

Section IntFacts.
Import Handlers.

Lemma string_append_assoc (a b c : string) : ((a ++ b) ++ c = a ++ b ++ c)%string.
Proof. induction a as [|x a IH]; [done|]. rewrite !string_append_cons. by rewrite IH. Qed.

Lemma string_append_nil_r (a : string) : (a ++ "")%string = a.
Proof. induction a as [|x a IH]; [done|]. by rewrite string_append_cons, IH. Qed.

Lemma string_length_append (a b : string) :
  String.length (a ++ b)%string = (String.length a + String.length b)%nat.
Proof. induction a as [|x a IH]; [done|]. rewrite string_append_cons. simpl. by rewrite IH. Qed.

Lemma forall_chars_append (p : ascii -> bool) (a b : string) :
  PyStr.forall_chars p (a ++ b)%string
  = PyStr.forall_chars p a && PyStr.forall_chars p b.
Proof.
  induction a as [|x a IH]; [done|]. rewrite string_append_cons. simpl.
  by rewrite IH, andb_assoc.
Qed.

Lemma string_of_list_ascii_app (l1 l2 : list ascii) :
  string_of_list_ascii (l1 ++ l2)
  = (string_of_list_ascii l1 ++ string_of_list_ascii l2)%string.
Proof. induction l1 as [|x l1 IH]; [done|]. simpl. by rewrite IH. Qed.

Lemma string_reverse_cons (c : ascii) (s : string) :
  PyStr.reverse (String c s) = (PyStr.reverse s ++ String c "")%string.
Proof. unfold PyStr.reverse. simpl. by rewrite string_of_list_ascii_app. Qed.

Lemma string_reverse_append (a b : string) :
  PyStr.reverse (a ++ b)%string = (PyStr.reverse b ++ PyStr.reverse a)%string.
Proof.
  induction a as [|x a IH].
  - rewrite string_append_nil. by rewrite string_append_nil_r.
  - by rewrite string_append_cons, !string_reverse_cons, IH, string_append_assoc.
Qed.

Lemma string_reverse_involutive (s : string) : PyStr.reverse (PyStr.reverse s) = s.
Proof.
  induction s as [|c s IH]; [done|].
  by rewrite string_reverse_cons, string_reverse_append, IH.
Qed.

Lemma forall_chars_reverse (p : ascii -> bool) (s : string) :
  PyStr.forall_chars p (PyStr.reverse s) = PyStr.forall_chars p s.
Proof.
  induction s as [|c s IH]; [done|].
  rewrite string_reverse_cons, forall_chars_append, IH. simpl.
  by rewrite andb_true_r, andb_comm.
Qed.

Lemma lstrip_id (s : string) :
  PyStr.forall_chars (fun c => negb (PyStr.is_space c)) s = true ->
  PyStr.lstrip s = s.
Proof.
  destruct s as [|c s]; [done|]. simpl.
  intros [Hc _]%andb_true_iff. apply negb_true_iff in Hc. by rewrite Hc.
Qed.

Lemma strip_id (s : string) :
  PyStr.forall_chars (fun c => negb (PyStr.is_space c)) s = true ->
  PyStr.strip s = s.
Proof.
  intros Hs. unfold PyStr.strip. rewrite (lstrip_id s) by done.
  rewrite lstrip_id by by rewrite forall_chars_reverse.
  apply string_reverse_involutive.
Qed.

Lemma forall_chars_impl (p q : ascii -> bool) (s : string) :
  (forall c, p c = true -> q c = true) ->
  PyStr.forall_chars p s = true -> PyStr.forall_chars q s = true.
Proof.
  intros Hpq. induction s as [|c s IH]; [done|]. simpl.
  intros [Hc Hs]%andb_true_iff. by rewrite (Hpq c Hc), IH.
Qed.

Lemma digit_not_space (c : ascii) :
  PyStr.is_digit c = true -> negb (PyStr.is_space c) = true.
Proof. destruct c as [[] [] [] [] [] [] [] []]; vm_compute; congruence. Qed.

Lemma digit_not_colon (c : ascii) :
  PyStr.is_digit c = true -> c <> ":"%char.
Proof. destruct c as [[] [] [] [] [] [] [] []]; vm_compute; congruence. Qed.

Lemma digit_not_underscore (c : ascii) :
  PyStr.is_digit c = true -> Ascii.eqb c "_" = false.
Proof. destruct c as [[] [] [] [] [] [] [] []]; vm_compute; congruence. Qed.

Lemma digit_sign (c : ascii) (s : string) :
  PyStr.is_digit c = true ->
  match String c s with
  | String "-" body => (true, body)
  | String "+" body => (false, body)
  | _ => (false, String c s)
  end = (false, String c s).
Proof. destruct c as [[] [] [] [] [] [] [] []]; vm_compute; congruence. Qed.

Lemma only_digits_id (s : string) :
  PyStr.forall_chars PyStr.is_digit s = true -> only_digits s = s.
Proof.
  induction s as [|c s IH]; [done|]. simpl.
  intros [Hc Hs]%andb_true_iff. by rewrite Hc, IH.
Qed.

Lemma digit_groups_digits (s : string) (after_digit : bool) :
  PyStr.forall_chars PyStr.is_digit s = true ->
  digit_groups after_digit s = match s with "" => after_digit | _ => true end.
Proof.
  revert after_digit. induction s as [|c s IH]; intros after_digit; [done|].
  simpl. intros [Hc Hs]%andb_true_iff. rewrite Hc, IH by done.
  by destruct s.
Qed.

(** The decimal digits of a natural number, as [pretty] writes them. *)
Lemma pretty_N_go_app (x : N) (s : string) :
  pretty_N_go x s = (pretty_N_go x "" ++ s)%string.
Proof.
  revert s. induction (N.lt_wf_0 x) as [x _ IH]; intros s.
  destruct (decide (x = 0)%N) as [->|Hx]; [by rewrite !pretty_N_go_0|].
  rewrite !(pretty_N_go_step x) by lia.
  assert (x `div` 10 < x)%N as Hlt by (apply N.div_lt; lia).
  rewrite (IH _ Hlt (String _ s)), (IH _ Hlt (String _ "")).
  by rewrite string_append_assoc.
Qed.

Lemma pretty_N_char_digit (d : N) :
  (d < 10)%N ->
  PyStr.is_digit (pretty_N_char d) = true /\
  Z.of_nat (nat_of_ascii (pretty_N_char d)) - 48 = Z.of_N d.
Proof.
  intros Hd.
  assert (d = 0 \/ d = 1 \/ d = 2 \/ d = 3 \/ d = 4 \/ d = 5 \/ d = 6 \/ d = 7 \/
          d = 8 \/ d = 9)%N as Hcases by lia.
  repeat (destruct Hcases as [->|Hcases]; [by vm_compute|]).
  subst d. by vm_compute.
Qed.

Lemma pretty_N_go_digits (x : N) :
  PyStr.forall_chars PyStr.is_digit (pretty_N_go x "") = true.
Proof.
  induction (N.lt_wf_0 x) as [x _ IH].
  destruct (decide (x = 0)%N) as [->|Hx]; [done|].
  rewrite pretty_N_go_step, pretty_N_go_app by lia.
  rewrite forall_chars_append, IH by (apply N.div_lt; lia). simpl.
  destruct (pretty_N_char_digit (x `mod` 10)) as [-> _]; [|done].
  apply N.mod_lt. lia.
Qed.

Lemma pretty_N_go_nonempty (x : N) : (0 < x)%N -> pretty_N_go x "" <> "".
Proof.
  intros Hx. rewrite pretty_N_go_step, pretty_N_go_app by done.
  destruct (pretty_N_go _ ""); discriminate.
Qed.

Lemma pretty_N_go_value (x : N) (s : string) :
  fold_left (fun acc c => 10 * acc + (Z.of_nat (nat_of_ascii c) - 48))
            (list_ascii_of_string (pretty_N_go x s)) 0
  = fold_left (fun acc c => 10 * acc + (Z.of_nat (nat_of_ascii c) - 48))
              (list_ascii_of_string s) (Z.of_N x).
Proof.
  revert s. induction (N.lt_wf_0 x) as [x _ IH]; intros s.
  destruct (decide (x = 0)%N) as [->|Hx]; [by rewrite pretty_N_go_0|].
  rewrite pretty_N_go_step, IH by (try apply N.div_lt; lia).
  cbn [list_ascii_of_string fold_left].
  destruct (pretty_N_char_digit (x `mod` 10)) as [_ ->]; [apply N.mod_lt; lia|].
  f_equal. rewrite N2Z.inj_div, N2Z.inj_mod.
  change (Z.of_N 10) with 10. Z.div_mod_to_equations. lia.
Qed.

Lemma pretty_N_go_length (n : nat) (x : N) :
  Z.of_N x < 10 ^ Z.of_nat n ->
  (String.length (pretty_N_go x "") <= n)%nat.
Proof.
  revert x. induction n as [|n IH]; intros x Hx.
  - assert (x = 0%N) as -> by (change (10 ^ Z.of_nat 0) with 1 in Hx; lia). done.
  - destruct (decide (x = 0)%N) as [->|Hpos]; [simpl; lia|].
    rewrite pretty_N_go_step, pretty_N_go_app, string_length_append by lia.
    simpl. assert (String.length (pretty_N_go (x `div` 10) "") <= n)%nat; [|lia].
    apply IH. rewrite N2Z.inj_div. change (Z.of_N 10) with 10.
    rewrite Nat2Z.inj_succ, Z.pow_succ_r in Hx by lia.
    apply Z.div_lt_upper_bound; lia.
Qed.

Lemma py_int_digits (digits : string) :
  digits <> "" ->
  PyStr.forall_chars PyStr.is_digit digits = true ->
  (String.length digits <= 4300)%nat ->
  py_int digits = Some (PyStr.int_of_digits digits) /\
  py_int (String "-" digits) = Some (- PyStr.int_of_digits digits).
Proof.
  intros Hne Hdigits Hlen.
  assert (PyStr.forall_chars (fun c => negb (PyStr.is_space c)) digits = true)
    as Hspace by (eapply forall_chars_impl; [apply digit_not_space|done]).
  assert (digit_groups false digits = true) as Hgroups.
  { rewrite digit_groups_digits by done. by destruct digits. }
  apply Nat.leb_le in Hlen.
  split; unfold py_int.
  - rewrite strip_id by done. destruct digits as [|c digits]; [done|].
    rewrite digit_sign by (simpl in Hdigits; by apply andb_true_iff in Hdigits as [? _]).
    by rewrite only_digits_id, Hgroups, Hlen.
  - rewrite strip_id by (simpl; by rewrite Hspace).
    by rewrite only_digits_id, Hgroups, Hlen.
Qed.

Lemma py_int_pretty (z : Z) :
  - 10 ^ 4300 < z < 10 ^ 4300 -> py_int (pretty z) = Some z.
Proof.
  remember (10 ^ 4300) as bound eqn:Hbound. intros Hz.
  assert (forall p : positive,
            Z.pos p < bound ->
            let digits := pretty_N_go (N.pos p) "" in
            pretty (N.pos p) = digits /\
            py_int digits = Some (Z.pos p) /\
            py_int (String "-" digits) = Some (Z.neg p)) as Hpos.
  { intros p Hp digits.
    assert (PyStr.int_of_digits digits = Z.pos p) as Hvalue
      by apply (pretty_N_go_value (N.pos p) "").
    destruct (py_int_digits digits) as [Hplus Hminus].
    - by apply pretty_N_go_nonempty.
    - apply pretty_N_go_digits.
    - apply pretty_N_go_length. rewrite Hbound in Hp. exact Hp.
    - rewrite Hvalue in Hplus, Hminus. done. }
  clear Hbound. destruct z as [|p|p].
  - by vm_compute.
  - destruct (Hpos p) as (Hpretty & Hplus & _); [lia|].
    change (pretty (Z.pos p)) with (pretty (N.pos p)). by rewrite Hpretty.
  - destruct (Hpos p) as (Hpretty & _ & Hminus); [lia|].
    change (pretty (Z.neg p)) with ("-" +:+ pretty (N.pos p)).
    by rewrite Hpretty.
Qed.

Lemma pretty_no_colon (z : Z) :
  PyStr.forall_chars (fun c => negb (Ascii.eqb c ":")) (pretty z) = true.
Proof.
  assert (forall x, PyStr.forall_chars (fun c => negb (Ascii.eqb c ":"))
                      (pretty_N_go x "") = true) as Hgo.
  { intros x. eapply forall_chars_impl; [|apply pretty_N_go_digits].
    intros c Hc%digit_not_colon. apply negb_true_iff. by apply Ascii.eqb_neq. }
  destruct z as [|p|p]; [done|apply Hgo|].
  change (pretty (Z.neg p)) with ("-" +:+ pretty_N_go (N.pos p) "").
  by rewrite string_append_cons, string_append_nil; simpl; rewrite Hgo.
Qed.

Lemma split_go_no_colon (cur s : string) :
  PyStr.forall_chars (fun c => negb (Ascii.eqb c ":")) s = true ->
  PyStr.split_go ":" 0 cur s = [(PyStr.reverse cur ++ s)%string].
Proof.
  revert cur. induction s as [|c s IH]; intros cur.
  - intros _. by rewrite string_append_nil_r.
  - simpl PyStr.forall_chars. intros [Hc Hs]%andb_true_iff.
    apply negb_true_iff, Ascii.eqb_neq in Hc.
    rewrite split_colon_other, IH by done.
    by rewrite string_reverse_cons, string_append_assoc.
Qed.

End IntFacts.

Section SalaryFacts.
Context `{!Builtins}.
Import Handlers.

Lemma string_prefix_append (p s : string) : String.prefix p (p ++ s)%string = true.
Proof.
  induction p as [|c p IH]; [by destruct s|].
  rewrite string_append_cons. cbn [String.prefix].
  by destruct (ascii_dec c c).
Qed.

Lemma set_salary_button (prefix key : string) (z : Z) (chat_id : Z)
    (s : UserState) (sent : list message) (user_data : gmap Z user) (u : user) :
  prefix = "salary_from:" \/ prefix = "salary_to:" ->
  user_data !! chat_id = Some u ->
  - 10 ^ 4300 < z < 10 ^ 4300 ->
  set_salary chat_id key (prefix ++ py_format (PInt z)) s sent user_data
  = done sent (<[chat_id := {| state := s;
                               search_options :=
                                 <[key := PInt z]> (search_options u) |}]>
                 user_data).
Proof.
  intros Hprefix Hu Hz. unfold set_salary. rewrite py_format_int.
  destruct (salary_figure prefix (pretty z) Hprefix)
    as (k & figure & parts & -> & Hfigure).
  rewrite split_go_no_colon in Hfigure by apply pretty_no_colon.
  injection Hfigure as <- <-.
  cbn [list_getitem lookup list_lookup].
  change (PyStr.reverse "" ++ pretty z)%string with (pretty z).
  by rewrite py_int_pretty, Hu.
Qed.

(** X21. Every button of the two salary keyboards whose value is an
    integer (of at most 4300 digits) stores that value when it is
    pressed: the figure written into the callback data is read back
    unchanged.  The lower bound moves the chat on to the upper bound, the
    upper bound ends the selection. *)
Theorem salary_button_round_trip (self : t) (chat_id : Z)
    (user_data : gmap Z user) (u : user) (label : string) (z : Z) :
  user_data !! chat_id = Some u ->
  - 10 ^ 4300 < z < 10 ^ 4300 ->
  ((label, PInt z) ∈ SALARY_FROM_OPTIONS self ->
   exists button,
     [button] ∈ salary_keyboard "salary_from:" (SALARY_FROM_OPTIONS self) /\
     button_text button = Plain label /\
     salary_callback self chat_id (callback_data button) user_data
     = done [SelectMaximumSalary
               (salary_keyboard "salary_to:" (SALARY_TO_OPTIONS self))]
            (<[chat_id := {| state := ASKING_SALARY_TO;
                             search_options :=
                               <["salary_from" := PInt z]> (search_options u) |}]>
               user_data)) /\
  ((label, PInt z) ∈ SALARY_TO_OPTIONS self ->
   exists button,
     [button] ∈ salary_keyboard "salary_to:" (SALARY_TO_OPTIONS self) /\
     button_text button = Plain label /\
     salary_callback self chat_id (callback_data button) user_data
     = done [SalaryRangeSet]
            (<[chat_id := {| state := FREE;
                             search_options :=
                               <["salary_to" := PInt z]> (search_options u) |}]>
               user_data)).
Proof.
  intros Hu Hz. split; intros Hin.
  - exists {| button_text := Plain label;
              callback_data := "salary_from:" ++ py_format (PInt z) |}.
    split; [|split; [done|]].
    + unfold salary_keyboard. apply list_elem_of_fmap.
      by exists (label, PInt z).
    + cbn [callback_data]. unfold salary_callback.
      rewrite string_prefix_append. by apply set_salary_button; auto.
  - exists {| button_text := Plain label;
              callback_data := "salary_to:" ++ py_format (PInt z) |}.
    split; [|split; [done|]].
    + unfold salary_keyboard. apply list_elem_of_fmap.
      by exists (label, PInt z).
    + cbn [callback_data]. unfold salary_callback.
      replace (String.prefix "salary_from:" ("salary_to:" ++ py_format (PInt z)))
        with false by reflexivity.
      rewrite string_prefix_append. by apply set_salary_button; auto.
Qed.

End SalaryFacts.

Section DialogueFacts.
Context `{!Builtins}.
Import Handlers HandlersAux.

Lemma set_state_other (c chat_id : Z) (s : UserState) (sent : list message)
    (user_data : gmap Z user) :
  c <> chat_id ->
  data (set_state c s sent user_data) !! chat_id = user_data !! chat_id.
Proof.
  intros Hne. unfold set_state. destruct (user_data !! c); [|done].
  simpl. by rewrite lookup_insert_ne.
Qed.

(** X22. A handler touches the entry of the chat its update comes from
    and no other: whatever the update and whether the handler raises or
    not, the state and the search options of every other chat are what
    they were. *)
Theorem handlers_touch_one_chat (self : t) (u : update) (chat_id : Z)
    (user_data : gmap Z user) :
  chat_of u <> chat_id ->
  data (handle self u user_data) !! chat_id = user_data !! chat_id.
Proof.
  destruct u as [c|c|c|c text|c|c q|c|c q|c text]; cbn [chat_of handle];
    intros Hne.
  - unfold start. simpl. by rewrite lookup_insert_ne.
  - unfold stop. destruct (user_data !! c); [|done]. simpl.
    by rewrite lookup_delete_ne.
  - unfold clear. simpl. by rewrite lookup_insert_ne.
  - unfold set_parameter.
    destruct (String.prefix "/keywords" text);
      [|destruct (String.prefix "/region" text)];
      [by apply set_state_other..|done].
  - unfold experience. destruct (user_data !! c); [|done].
    destruct (kw_getitem _ _); [|done].
    destruct (build_experience_keyboard _ _); [|done].
    by apply set_state_other.
  - unfold experience_callback. destruct (user_data !! c) as [v|]; [|done].
    cbv zeta.
    destruct (String.eqb q "experience_complete").
    { destruct (selected_text _); [|done]. by apply set_state_other. }
    destruct (String.eqb q "experience_reset").
    { destruct (build_experience_keyboard _ _); simpl;
        by rewrite lookup_insert_ne. }
    destruct (mapping_get _ _); [|done].
    destruct (toggle _ _); [|done].
    destruct (search_options v !! "experience");
      destruct (_ ≫= _); simpl; by rewrite ?lookup_insert_ne.
  - unfold salary, set_state. destruct (user_data !! c); [|done].
    simpl. by rewrite lookup_insert_ne.
  - unfold salary_callback, set_salary.
    destruct (String.prefix "salary_from:" q);
      [|destruct (String.prefix "salary_to:" q); [|done]];
      (destruct (list_getitem _ _); [|done]);
      (destruct (py_int _); [|done]);
      (destruct (user_data !! c); [|done]);
      simpl; by rewrite lookup_insert_ne.
  - unfold accept_parameter. destruct (user_data !! c) as [v|]; [|done].
    destruct (state v); simpl; by rewrite lookup_insert_ne.
Qed.

(** X23. The dialogue for a text parameter: [/keywords] followed by a
    text message stores the text as the keywords, [/region] followed by a
    text message stores it as the region, and each leaves the chat free
    and every other option as it was.  A text message to a free chat
    changes nothing. *)
Theorem parameter_dialogue (chat_id : Z) (command text : string)
    (user_data : gmap Z user) (u : user) :
  user_data !! chat_id = Some u ->
  let asked := data (set_parameter chat_id command user_data) in
  let stores key :=
    accept_parameter chat_id text asked
    = done [if String.eqb key "search" then SearchQuerySetTo text
            else RegionSetTo text]
           (<[chat_id := {| state := FREE;
                            search_options :=
                              <[key := PStr text]> (search_options u) |}]>
              user_data) in
  (String.prefix "/keywords" command = true -> stores "search") /\
  (String.prefix "/keywords" command = false ->
   String.prefix "/region" command = true -> stores "region") /\
  (state u = FREE ->
   accept_parameter chat_id text user_data
   = done [NotChoosingAnyParameter] user_data).
Proof.
  intros Hu asked stores. unfold stores, asked, set_parameter.
  split; [|split].
  - intros ->. unfold set_state, accept_parameter. rewrite Hu. simpl.
    rewrite lookup_insert_eq. simpl. by rewrite insert_insert_eq.
  - intros -> ->. unfold set_state, accept_parameter. rewrite Hu. simpl.
    rewrite lookup_insert_eq. simpl. by rewrite insert_insert_eq.
  - intros Hfree. unfold accept_parameter. rewrite Hu, Hfree.
    f_equal. apply insert_id. rewrite Hu, <- Hfree. by destruct u.
Qed.

End DialogueFacts.

Section RankingFacts.
Import TelegramResumeBot.

Lemma insort_right_last (resume : Resume) (sorted : list Resume) :
  Forall (fun r => filling_percentage r <= filling_percentage resume) sorted ->
  insort_right Resume_lt resume sorted = sorted ++ [resume].
Proof.
  induction 1 as [|r sorted Hr _ IH]; [done|]. simpl.
  unfold Resume_lt at 1. destruct (Z.ltb_spec (filling_percentage resume)
                                              (filling_percentage r)); [lia|].
  by rewrite IH.
Qed.

Lemma list_sort_ascending (l : list Resume) :
  StronglySorted (fun a b => filling_percentage a <= filling_percentage b) l ->
  list_sort Resume_lt l = l.
Proof.
  unfold list_sort.
  assert (forall sorted,
            StronglySorted
              (fun a b => filling_percentage a <= filling_percentage b)
              (sorted ++ l) ->
            foldl (fun sorted x => insort_right Resume_lt x sorted) sorted l
            = sorted ++ l) as Hfold.
  { induction l as [|x l IH]; intros sorted Hsorted; simpl.
    - by rewrite app_nil_r.
    - rewrite insort_right_last.
      + rewrite IH; [by rewrite <- app_assoc|]. by rewrite <- app_assoc.
      + apply Forall_forall. intros r Hr.
        apply (StronglySorted_app_1_elem_of
                 (fun a b => filling_percentage a <= filling_percentage b)
                 sorted (x :: l) r x); [done|done|by left]. }
  intros Hl. by apply (Hfold []).
Qed.

(** X24. Ranking is idempotent: a list that is already in descending
    order of filling percentage is left exactly as it is, records of
    equal score included, so ranking a ranked list changes nothing. *)
Theorem list_sort_reverse_idempotent (l : list Resume) :
  (StronglySorted (fun a b => filling_percentage b <= filling_percentage a) l ->
   list_sort_reverse Resume_lt l = l) /\
  list_sort_reverse Resume_lt (list_sort_reverse Resume_lt l)
  = list_sort_reverse Resume_lt l.
Proof.
  assert (forall k,
            StronglySorted
              (fun a b => filling_percentage b <= filling_percentage a) k ->
            list_sort_reverse Resume_lt k = k) as Hsorted.
  { intros k Hk. unfold list_sort_reverse.
    rewrite list_sort_ascending; [apply reverse_involutive|].
    by apply (StronglySorted_reverse
                (fun a b => filling_percentage b <= filling_percentage a)). }
  split; [apply Hsorted|].
  apply Hsorted.
  apply (list_sort_reverse_spec filling_percentage).
Qed.

End RankingFacts.

Section ConversationWitness.
Import Sample SampleBot SampleChat Handlers HandlersAux KeyboardAux.

Lemma conversation_keeps_options_settled_witness :
  settled handlers
    (<["experience" := PList [PStr "No experience"]]>
       (<["search" := PStr "python"]> start_options)).
Proof.
  refine (conversation_keeps_options_settled handlers updates 1
            {| state := FREE;
               search_options :=
                 <["experience" := PList [PStr "No experience"]]>
                   (<["search" := PStr "python"]> start_options) |} _).
  vm_compute. reflexivity.
Defined.


Lemma keywords_request_unreachable_witness :
  search_resumes stub_bot 1 (run_from handlers ∅ [StartCommand 2])
  = inl (UnknownChat 1).
Proof.
  destruct (keywords_request_unreachable stub_bot handlers [StartCommand 2] 1)
    as (_ & Hunknown & _).
  apply Hunknown. vm_compute. reflexivity.
Defined.

Lemma search_after_clear_witness :
  search_resumes stub_bot 1
    (run_from handlers ∅
       ([StartCommand 1] ++
        ClearCommand 1 :: [ParameterCommand 1 "/keywords"; TextMessage 1 "python"]))
  = inl (Py ValidationError).
Proof.
  apply (search_after_clear stub_bot handlers [StartCommand 1]
           [ParameterCommand 1 "/keywords"; TextMessage 1 "python"] 1
           ValidationError).
  - reflexivity.
  - repeat constructor.
Defined.

Lemma experience_callback_twice_witness :
  data (experience_callback handlers 1 "experience_0"
          (data (experience_callback handlers 1 "experience_0" started)))
  = started.
Proof.
  destruct (experience_callback_twice handlers 1 "experience_0" "No experience"
              started {| state := FREE; search_options := start_options |} [])
    as (tags' & _ & _ & Hsame & _).
  - reflexivity.
  - reflexivity.
  - constructor.
  - discriminate.
  - discriminate.
  - reflexivity.
  - apply Hsame. apply not_elem_of_nil.
Defined.

Lemma experience_reset_keeps_ticks_witness :
  experience_callback handlers 1 "experience_reset" selected
  = done [ExperienceOptionsReset
            [ [ {| button_text := Ticked "No experience";
                   callback_data := "experience_0" |} ];
              [ {| button_text := Plain "1 to 2 years";
                   callback_data := "experience_1" |} ];
              last_row ] ]
         started.
Proof.
  destruct (experience_reset_keeps_ticks handlers 1 selected
              {| state := FREE;
                 search_options :=
                   <["experience" := PList [PStr "No experience"]]> start_options |}
              ["No experience"])
    as (Hreset & _).
  - reflexivity.
  - reflexivity.
  - rewrite Hreset. vm_compute. reflexivity.
Defined.

Lemma salary_button_round_trip_witness :
  exists button,
    [button] ∈ salary_keyboard "salary_from:" (SALARY_FROM_OPTIONS handlers) /\
    button_text button = Plain "10 000" /\
    salary_callback handlers 1 (callback_data button) started
    = done [SelectMaximumSalary
              (salary_keyboard "salary_to:" (SALARY_TO_OPTIONS handlers))]
           (<[1 := {| state := ASKING_SALARY_TO;
                      search_options :=
                        <["salary_from" := PInt 10000]> start_options |}]>
              started).
Proof.
  destruct (salary_button_round_trip handlers 1 started
              {| state := FREE; search_options := start_options |}
              "10 000" 10000) as [Hfrom _].
  - reflexivity.
  - split; vm_compute; reflexivity.
  - apply Hfrom. by left.
Defined.

Lemma handlers_touch_one_chat_witness :
  data (handle handlers (StopCommand 2) started) !! 1 = started !! 1.
Proof.
  apply (handlers_touch_one_chat handlers (StopCommand 2) 1 started).
  vm_compute. congruence.
Defined.

Lemma parameter_dialogue_witness :
  accept_parameter 1 "python" (data (set_parameter 1 "/keywords" started))
  = done [SearchQuerySetTo "python"]
         (<[1 := {| state := FREE;
                    search_options :=
                      <["search" := PStr "python"]> start_options |}]> started).
Proof.
  destruct (parameter_dialogue 1 "/keywords" "python" started
              {| state := FREE; search_options := start_options |})
    as [Hkeywords _].
  - reflexivity.
  - apply Hkeywords. reflexivity.
Defined.

Lemma list_sort_reverse_idempotent_witness :
  TelegramResumeBot.list_sort_reverse Resume_lt
    [resume_with "a" 90; resume_with "b" 90; resume_with "c" 40]
  = [resume_with "a" 90; resume_with "b" 90; resume_with "c" 40].
Proof.
  destruct (list_sort_reverse_idempotent
              [resume_with "a" 90; resume_with "b" 90; resume_with "c" 40])
    as [Hsorted _].
  apply Hsorted.
  repeat constructor; vm_compute; congruence.
Defined.

End ConversationWitness.

Section MoreWitnesses.
Import Sample SampleFaults.

Lemma get_total_candidates_nonneg_witness :
  WorkUaParser.get_total_candidates "<nothing>" = Raise ParseException.
Proof.
  destruct (get_total_candidates_nonneg "<nothing>") as [_ Hnone].
  apply Hnone. reflexivity.
Defined.


End MoreWitnesses.
